(** * Student activity tracker: parsing, aggregation, merge, search and link scan

    A shallow embedding of the Python modules [src/parser.py],
    [src/sheet_parser.py], [src/aggregator.py], [scripts/merge_data.py],
    [src/searcher.py] and [src/extractor.py].

    Modelling conventions.
    - A Python [str] is a list of Unicode code points ([pystr]).  String
      literals are written in UTF-8 and decoded with [py].
    - The Unicode tables behind [str.upper], [str.lower], [str.isdigit],
      the regular-expression class [\d], [int()]/[float()] digit values and
      [unicodedata] are the fields of the class [PyUnicode]; the theorems
      hold for every instance.  [str.strip] uses Python's exact whitespace
      set ([is_space]).
    - Scores are Python floats produced from decimal literals; they are
      modelled as exact rationals [Q].  Sums and rounding are exact; the
      concrete inputs used below are dyadic, where binary64 is exact too.
    - Python exceptions are the left summand of a sum type. *)

From Stdlib Require Import String Ascii.
From Stdlib Require Import List Bool ZArith NArith QArith Qround Lia.
From Stdlib Require Import Sorted.
Import ListNotations.

(* ------------------------------------------------------------------ *)
(** ** Python strings *)

Definition pystr := list N.

Definition pystr_eqb (a b : pystr) : bool :=
  if list_eq_dec N.eq_dec a b then true else false.

(** UTF-8 decoding of a byte list (1 to 3 byte sequences), used for literals. *)
Fixpoint utf8_decode (l : list N) : list N :=
  match l with
  | [] => []
  | b :: r =>
      if (b <? 128)%N then b :: utf8_decode r
      else match r with
           | b2 :: r2 =>
               if (b <? 224)%N then ((b - 192) * 64 + (b2 - 128))%N :: utf8_decode r2
               else match r2 with
                    | b3 :: r3 =>
                        ((b - 224) * 4096 + (b2 - 128) * 64 + (b3 - 128))%N
                          :: utf8_decode r3
                    | [] => []
                    end
           | [] => []
           end
  end.

Definition py (s : string) : pystr :=
  utf8_decode (map N_of_ascii (list_ascii_of_string s)).

(** Python's [str.isspace] on one code point (the set [str.strip()] removes). *)
Definition is_space (c : N) : bool :=
  existsb (N.eqb c)
    [9; 10; 11; 12; 13; 28; 29; 30; 31; 32; 133; 160; 5760;
     8192; 8193; 8194; 8195; 8196; 8197; 8198; 8199; 8200; 8201; 8202;
     8232; 8233; 8239; 8287; 12288]%N.

Fixpoint lstrip (s : pystr) : pystr :=
  match s with
  | c :: r => if is_space c then lstrip r else s
  | [] => []
  end.

Definition rstrip (s : pystr) : pystr := rev (lstrip (rev s)).

(** [s.strip()] *)
Definition strip (s : pystr) : pystr := rstrip (lstrip s).

Fixpoint prefixb (p s : pystr) : bool :=
  match p, s with
  | [], _ => true
  | a :: p', b :: s' => N.eqb a b && prefixb p' s'
  | _ :: _, [] => false
  end.

(** [sub in s] for strings. *)
Fixpoint contains (sub s : pystr) : bool :=
  prefixb sub s || match s with [] => false | _ :: r => contains sub r end.

(** [s.replace(pat, rep)] for a non-empty [pat]: left to right, non-overlapping. *)
Fixpoint replace_aux (fuel : nat) (pat rep s : pystr) : pystr :=
  match fuel with
  | O => s
  | S f =>
      match s with
      | [] => []
      | c :: r =>
          if prefixb pat s then rep ++ replace_aux f pat rep (skipn (length pat) s)
          else c :: replace_aux f pat rep r
      end
  end.

Definition replace (pat rep s : pystr) : pystr := replace_aux (length s) pat rep s.

(** The tables of Python's Unicode database used by the code. *)
Class PyUnicode := {
  u_decimal : N -> option N;      (* digit value: regex \d, int(), float() *)
  u_isdigit : N -> bool;          (* str.isdigit, per code point *)
  u_upper : pystr -> pystr;       (* str.upper *)
  u_lower : pystr -> pystr;       (* str.lower *)
  u_nfkd : pystr -> pystr;        (* unicodedata.normalize('NFKD', _) *)
  u_combining : N -> bool;        (* unicodedata.combining(c) != 0 *)
  u_decimal_isdigit : forall c d, u_decimal c = Some d -> u_isdigit c = true;
  u_space_not_digit : forall c, is_space c = true -> u_isdigit c = false;
  u_upper_nil : u_upper [] = []
}.

(** Exact on ASCII; no other code point is a digit, case-mapped or decomposed. *)
Definition ascii_decimal (c : N) : option N :=
  if ((48 <=? c) && (c <=? 57))%N then Some (c - 48)%N else None.
Definition ascii_upper_cp (c : N) : N :=
  if ((97 <=? c) && (c <=? 122))%N then (c - 32)%N else c.
Definition ascii_lower_cp (c : N) : N :=
  if ((65 <=? c) && (c <=? 90))%N then (c + 32)%N else c.

#[refine] Instance ascii_unicode : PyUnicode := {
  u_decimal := ascii_decimal;
  u_isdigit := fun c => ((48 <=? c) && (c <=? 57))%N;
  u_upper := map ascii_upper_cp;
  u_lower := map ascii_lower_cp;
  u_nfkd := fun s => s;
  u_combining := fun _ => false
}.
Proof.
  - intros c d H. unfold ascii_decimal in H.
    destruct ((48 <=? c) && (c <=? 57))%N; [reflexivity | discriminate].
  - intros c H. unfold is_space in H. simpl in H.
    repeat (apply orb_true_iff in H; destruct H as [H | H]);
      try (apply N.eqb_eq in H; subst; reflexivity); discriminate.
  - reflexivity.
Defined.

Section Str.
Context {U : PyUnicode}.

Definition is_decimal (c : N) : bool :=
  match u_decimal c with Some _ => true | None => false end.

(** [s.isdigit()]: non-empty and every code point a digit. *)
Definition str_isdigit (s : pystr) : bool :=
  match s with [] => false | _ => forallb u_isdigit s end.

(** Value of a run of decimal digits. *)
Definition digits_value (s : pystr) : Z :=
  fold_left (fun acc c => acc * 10 + Z.of_N (match u_decimal c with Some d => d | None => 0 end)%N)%Z
    s 0%Z.

(** Greedy run of decimal digits at the head: [(run, rest)]. *)
Fixpoint span_dec (s : pystr) : pystr * pystr :=
  match s with
  | c :: r => if is_decimal c then let '(a, b) := span_dec r in (c :: a, b) else ([], s)
  | [] => ([], [])
  end.

(** Longest prefix whose code points satisfy [p], and the rest. *)
Fixpoint span_by (p : N -> bool) (s : pystr) : pystr * pystr :=
  match s with
  | c :: r => if p c then let '(a, b) := span_by p r in (c :: a, b) else ([], s)
  | [] => ([], [])
  end.

(** The first match of the pattern [\d+] in [s] ([re.search]). *)
Fixpoint search_int (s : pystr) : option pystr :=
  match s with
  | [] => None
  | c :: r => if is_decimal c then Some (fst (span_dec s)) else search_int r
  end.

(** The first match of the pattern [\d+\.?\d*] in [s] ([re.search]); the quantifiers are greedy and
    the match cannot fail after the first digit, so no backtracking. *)
Fixpoint search_number (s : pystr) : option pystr :=
  match s with
  | [] => None
  | c :: r =>
      if is_decimal c then
        Some (let '(d1, rest) := span_dec s in
              match rest with
              | 46%N :: rest' => d1 ++ [46%N] ++ fst (span_dec rest')
              | _ => d1
              end)
      else search_number r
  end.

(** [float(t)] for a match [t] of [\d+\.?\d*], as an exact rational. *)
Definition float_of_match (t : pystr) : Q :=
  let '(d1, rest) := span_dec t in
  let d2 := match rest with _ :: r => r | [] => [] end in
  Qmake (digits_value (d1 ++ d2)) (Z.to_pos (10 ^ Z.of_nat (length d2))).

End Str.

(** [sep.join(parts)] *)
Fixpoint join (sep : pystr) (parts : list pystr) : pystr :=
  match parts with
  | [] => []
  | [p] => p
  | p :: rest => p ++ sep ++ join sep rest
  end.

(** [re.sub(r'\s+', ' ', s)]: every maximal run of whitespace becomes one
    space; [in_run] tells whether the previous code point was whitespace. *)
Fixpoint collapse_ws (in_run : bool) (s : pystr) : pystr :=
  match s with
  | [] => []
  | c :: r =>
      if is_space c then (if in_run then collapse_ws true r else 32%N :: collapse_ws true r)
      else c :: collapse_ws false r
  end.

(** A literal matched under [re.IGNORECASE]: each position lists the code
    points that match it (for the literals below: the letter and its other
    case). Returns the rest of the string. *)
Fixpoint match_ci (pat : list (list N)) (s : pystr) : option pystr :=
  match pat, s with
  | [], _ => Some s
  | cs :: pat', c :: s' => if existsb (N.eqb c) cs then match_ci pat' s' else None
  | _ :: _, [] => None
  end.

Section Names.
Context {U : PyUnicode}.

(** [re.sub(r'^\d+_', '', name)] *)
Definition sub_number_prefix (name : pystr) : pystr :=
  match span_dec name with
  | (_ :: _, 95%N :: rest) => rest
  | _ => name
  end.

(** [re.sub(r'^QĐxx\d+\s*-\s*', '', name, flags=re.IGNORECASE)]; a shorter
    digit or space run can never let the match succeed, so no backtracking. *)
Definition sub_qd_prefix (name : pystr) : pystr :=
  match match_ci [[81; 113]; [272; 273]; [88; 120]; [88; 120]]%N name with
  | Some r =>
      match span_dec r with
      | (_ :: _, r1) =>
          match snd (span_by is_space r1) with
          | 45%N :: r2 => snd (span_by is_space r2)
          | _ => name
          end
      | _ => name
      end
  | None => name
  end.

(** [re.sub(r'^(CÔNG NHẬN|Công nhận)\s+NRL\s*', '', name, flags=re.IGNORECASE)];
    under [IGNORECASE] both alternatives match the same strings. *)
Definition sub_cong_nhan_prefix (name : pystr) : pystr :=
  match match_ci [[67; 99]; [212; 244]; [78; 110]; [71; 103]; [32];
                  [78; 110]; [72; 104]; [7852; 7853]; [78; 110]]%N name with
  | Some r =>
      match span_by is_space r with
      | (_ :: _, r1) =>
          match match_ci [[78; 110]; [82; 114]; [76; 108]]%N r1 with
          | Some r2 => snd (span_by is_space r2)
          | None => name
          end
      | _ => name
      end
  | None => name
  end.

End Names.

(** The columns a header cell can be detected as (the keys of the column
    dictionaries of [parser.py] and [sheet_parser.py]). *)
Inductive role := R_stt | R_name | R_student_id | R_student_class | R_score.

Definition role_eq_dec (a b : role) : {a = b} + {a <> b}.
Proof. decide equality. Defined.

(** [str(n)] for an [int]. *)
Fixpoint digits_rev (fuel : nat) (n : Z) : pystr :=
  match fuel with
  | O => []
  | S f => if (n <? 10)%Z then [Z.to_N (48 + n)]
           else Z.to_N (48 + n mod 10) :: digits_rev f (n / 10)
  end.

Definition py_int_str (z : Z) : pystr :=
  let d := rev (digits_rev (S (Z.to_nat (Z.log2 (Z.abs z)))) (Z.abs z)) in
  if (z <? 0)%Z then 45%N :: d else d.

(** A student record as the parsers emit it ([dict] with these keys). *)
Record student := {
  stt : Z;
  name : pystr;
  student_id : pystr;
  student_class : pystr;
  score : Q;
  activity_name : pystr;
  activity_link : pystr
}.

Inductive pyexc :=
| IndexError
| KeyError (key : Z)
| ValueError (msg : pystr)
| TypeError
| OverflowError.

(* ------------------------------------------------------------------ *)
(** ** [src/parser.py]: Word tables *)

Module Parser.
Section P.
Context {U : PyUnicode}.

Definition parse_score (score_text : pystr) : Q :=
  match score_text with
  | [] => 0
  | _ =>
      let clean_text := replace (py ",") (py ".") (strip score_text) in
      match search_number clean_text with
      | Some m => float_of_match m
      | None => 0
      end
  end.

Definition parse_stt (stt_text : pystr) : Z :=
  match stt_text with
  | [] => 0
  | _ => match search_int (strip stt_text) with
         | Some m => digits_value m
         | None => 0
         end
  end.

Definition clean_student_id (raw_id : pystr) : pystr :=
  match raw_id with
  | [] => []
  | _ => replace (py " ") [] (u_upper (strip raw_id))
  end.

Definition is_student_id (value : pystr) : bool :=
  let clean_val := replace (py " ") [] (strip value) in
  str_isdigit clean_val && (8 <=? List.length clean_val)%nat.

(** The letters of the class [A-ZĐÀÁẢÃẠĂẮẰẲẴẶÂẤẦẨẪẬ]. *)
Definition class_letter (c : N) : bool :=
  ((65 <=? c) && (c <=? 90))%N ||
  existsb (N.eqb c)
    [272; 192; 193; 7842; 195; 7840; 258; 7854; 7856; 7858; 7860; 7862;
     194; 7844; 7846; 7848; 7850; 7852]%N.

(** [re.match] of [^\d{2}[A-ZĐ...]+\d*$]: the letter run is taken greedily,
    which loses no match. *)
Definition class_code_shape (v : pystr) : bool :=
  match v with
  | d1 :: d2 :: rest =>
      is_decimal d1 && is_decimal d2 &&
      (let '(letters, tail) := span_by class_letter rest in
       match letters with [] => false | _ => forallb is_decimal tail end)
  | _ => false
  end.

Definition is_class_code (value : pystr) : bool :=
  class_code_shape (u_upper (replace (py " ") [] (strip value))).

Definition smart_swap_id_class (raw_id raw_class : pystr) : pystr * pystr :=
  let raw_id := strip raw_id in
  let raw_class := strip raw_class in
  if is_class_code raw_id && is_student_id raw_class then (raw_class, raw_id)
  else if match raw_id with [] => is_student_id raw_class | _ => false end
  then (raw_class, [])
  else if is_class_code raw_id && match raw_class with [] => true | _ => false end
  then ([], raw_id)
  else (raw_id, raw_class).

(** The body of the row loop of [parse_student_table], from the cell texts
    it reads ([stt_text] and [name] already stripped there). *)
Definition normalize_row (activity_name activity_link : pystr)
    (stt_text name raw_id raw_class score_text : pystr) : option student :=
  let stt := parse_stt stt_text in
  let '(sid, scls) := smart_swap_id_class raw_id raw_class in
  let sid := clean_student_id sid in
  let scls := strip scls in
  match sid, name with
  | [], [] => None
  | _, _ =>
      Some {| stt := stt;
              name := match name with [] => py "UNKNOWN_NAME" | _ => name end;
              student_id :=
                match sid with
                | [] => if (0 <? stt)%Z then py "UNKNOWN_ID_" ++ py_int_str stt
                        else py "UNKNOWN_ID"
                | _ => sid
                end;
              student_class := match scls with [] => py "UNKNOWN_CLASS" | _ => scls end;
              score := parse_score score_text;
              activity_name := activity_name;
              activity_link := activity_link |}
  end.

Record column_indices := {
  ci_stt : Z; ci_name : Z; ci_student_id : Z; ci_student_class : Z; ci_score : Z
}.

(** [cells[i]] for [i >= 0]. *)
Definition cell_at (cells : list pystr) (i : Z) : pyexc + pystr :=
  match nth_error cells (Z.to_nat i) with Some t => inr t | None => inl IndexError end.

Definition opt_cell (cells : list pystr) (i : Z) (dflt : pystr) : pyexc + pystr :=
  if (0 <=? i)%Z then cell_at cells i else inr dflt.

Definition bind_exc {A B} (m : pyexc + A) (k : A -> pyexc + B) : pyexc + B :=
  match m with inl e => inl e | inr a => k a end.

(** [parse_student_table] over the rows below the header, followed by the
    loop of [parse_docx_file] that adds [activity_name] and [activity_link]. *)
Fixpoint parse_student_table (an al : pystr) (ci : column_indices)
    (rows : list (list pystr)) : pyexc + list student :=
  match rows with
  | [] => inr []
  | cells :: rest =>
      bind_exc (opt_cell cells (ci_stt ci) []) (fun stt_text =>
      bind_exc (opt_cell cells (ci_name ci) []) (fun nm =>
      bind_exc (opt_cell cells (ci_student_id ci) []) (fun raw_id =>
      bind_exc (opt_cell cells (ci_student_class ci) []) (fun raw_class =>
      bind_exc (opt_cell cells (ci_score ci) (py "0")) (fun score_text =>
      bind_exc (parse_student_table an al ci rest) (fun tl =>
      inr (match normalize_row an al (strip stt_text) (strip nm) raw_id raw_class score_text with
           | Some st => st :: tl
           | None => tl
           end)))))))
  end.


(** [extract_activity_name_from_filename], from [file_path.stem]. *)
Definition extract_activity_name_from_filename (filename : pystr) : pystr :=
  let name := sub_number_prefix filename in
  let name := sub_qd_prefix name in
  let name := sub_cong_nhan_prefix name in
  let name := strip name in
  let name := collapse_ws false name in
  match name with [] => py "Unknown" | _ => name end.

(** The [if]/[elif] chain of [detect_column_indices] on [text]. *)
Definition header_role (text : pystr) : option role :=
  if contains (py "stt") text then Some R_stt
  else if contains (py "mssv") text || contains (py "mã sv") text
          || contains (py "mã sinh viên") text then Some R_student_id
  else if contains (py "họ") text && contains (py "tên") text then Some R_name
  else if contains (py "lớp") text || contains (py "trường") text then Some R_student_class
  else if contains (py "nrl") text || contains (py "điểm") text
          || contains (py "số nrl") text then Some R_score
  else None.

(** [indices[key]] *)
Definition ci_get (ci : column_indices) (r : role) : Z :=
  match r with
  | R_stt => ci_stt ci
  | R_name => ci_name ci
  | R_student_id => ci_student_id ci
  | R_student_class => ci_student_class ci
  | R_score => ci_score ci
  end.

(** [indices[key] = idx] *)
Definition ci_set (ci : column_indices) (r : role) (idx : Z) : column_indices :=
  {| ci_stt := match r with R_stt => idx | _ => ci_stt ci end;
     ci_name := match r with R_name => idx | _ => ci_name ci end;
     ci_student_id := match r with R_student_id => idx | _ => ci_student_id ci end;
     ci_student_class := match r with R_student_class => idx | _ => ci_student_class ci end;
     ci_score := match r with R_score => idx | _ => ci_score ci end |}.

(** The loop of [detect_column_indices] from column [idx] on. *)
Fixpoint detect_from (idx : Z) (indices : column_indices) (cells : list pystr) : column_indices :=
  match cells with
  | [] => indices
  | cell :: rest =>
      let text := strip (u_lower cell) in
      let indices := match header_role text with
                     | Some r => ci_set indices r idx
                     | None => indices
                     end in
      detect_from (idx + 1) indices rest
  end.

(** [detect_column_indices(header_row)], from the texts of its cells. *)
Definition detect_column_indices (header_cells : list pystr) : column_indices :=
  detect_from 0 {| ci_stt := -1; ci_name := -1; ci_student_id := -1;
                   ci_student_class := -1; ci_score := -1 |} header_cells.

(** A Word table as the texts of its rows' cells. *)
Definition table := list (list pystr).

(** The score [find_student_table] gives a table, when the table is
    considered at all ([len(table.rows) >= 2]) and has a name column and an
    MSSV or score column. *)
Definition table_score (t : table) : option Z :=
  if (List.length t <? 2)%nat then None
  else
    let header_cells := map (fun c => strip (u_lower c)) (hd [] t) in
    let header_text := join (py " ") header_cells in
    let has_name := contains (py "họ") header_text || contains (py "tên") header_text in
    let has_mssv := contains (py "mssv") header_text || contains (py "mã sv") header_text in
    let has_nrl := contains (py "nrl") header_text || contains (py "điểm") header_text in
    let has_stt := contains (py "stt") header_text in
    let score := ((if has_name then 3 else 0) + (if has_mssv then 2 else 0) +
                  (if has_nrl then 2 else 0) + (if has_stt then 1 else 0))%Z in
    if has_name && (has_mssv || has_nrl) then Some score else None.

(** [find_student_table(doc)] over [doc.tables]. *)
Definition find_student_table (tables : list table) : option table :=
  fst (fold_left
         (fun (acc : option table * Z) t =>
            let '(best_table, best_score) := acc in
            match table_score t with
            | Some score => if (best_score <? score)%Z then (Some t, score) else acc
            | None => acc
            end)
         tables (None, 0%Z)).

(** [parse_docx_file(file_path, activity_link)] on a document with these
    tables, [filename] being [file_path.stem]. *)
Definition parse_docx_file (filename activity_link : pystr) (tables : list table)
    : pyexc + (pystr * list student) :=
  let activity_name := extract_activity_name_from_filename filename in
  match find_student_table tables with
  | None => inr (activity_name, [])
  | Some t =>
      let column_indices := detect_column_indices (hd [] t) in
      bind_exc (parse_student_table activity_name activity_link column_indices (tl t))
               (fun students => inr (activity_name, students))
  end.

End P.
End Parser.

(* ------------------------------------------------------------------ *)
(** ** Spreadsheet cell values *)

(** The values a worksheet cell or a DataFrame entry holds: [None], the
    [NaN] pandas puts for a missing number, [str], [int], [float] (its value
    and its [repr]), [bool], [datetime] and [time] (with their [str] text). *)
Inductive cellval :=
| VNone
| VNaN
| VStr (s : pystr)
| VInt (z : Z)
| VFloat (q : Q) (repr : pystr)
| VBool (b : bool)
| VDateTime (text : pystr)
| VTime (text : pystr).

(** [str(v)] *)
Definition py_str (v : cellval) : pystr :=
  match v with
  | VNone => py "None"
  | VNaN => py "nan"
  | VStr s => s
  | VInt z => py_int_str z
  | VFloat _ r => r
  | VBool true => py "True"
  | VBool false => py "False"
  | VDateTime t => t
  | VTime t => t
  end.

(** [bool(v)] *)
Definition truthy (v : cellval) : bool :=
  match v with
  | VNone => false
  | VNaN => true
  | VStr s => match s with [] => false | _ => true end
  | VInt z => negb (Z.eqb z 0)
  | VFloat q _ => negb (Qeq_bool q 0)
  | VBool b => b
  | VDateTime _ | VTime _ => true
  end.

(** [pd.isna(v)] *)
Definition isna (v : cellval) : bool :=
  match v with VNone | VNaN => true | _ => false end.

Section Int.
Context {U : PyUnicode}.

(** Body of [int(s)] for a [str] after stripping and the sign: decimal
    digits, single underscores allowed between digits. *)
Fixpoint int_body_ok (prev_digit : bool) (s : pystr) : bool :=
  match s with
  | [] => prev_digit
  | c :: r =>
      if is_decimal c then int_body_ok true r
      else if N.eqb c 95 then prev_digit && int_body_ok false r
      else false
  end.

(** [int(s)] for a [str]; [None] where Python raises [ValueError]. *)
Definition int_of_str (s : pystr) : option Z :=
  let t := strip s in
  let '(sign, body) :=
    match t with
    | 43%N :: b => (1%Z, b)
    | 45%N :: b => ((-1)%Z, b)
    | _ => (1%Z, t)
    end in
  if int_body_ok false body
  then Some (sign * digits_value (filter (fun c => negb (N.eqb c 95)) body))%Z
  else None.

(** [int(v)] on a non-missing value; [None] where Python raises
    [ValueError] or [TypeError]. *)
Definition int_of_cell (v : cellval) : option Z :=
  match v with
  | VInt z => Some z
  | VFloat q _ => Some (if Qle_bool 0 q then Qfloor q else (- Qfloor (- q))%Z)
  | VBool b => Some (if b then 1%Z else 0%Z)
  | VStr s => int_of_str s
  | VNone | VNaN | VDateTime _ | VTime _ => None
  end.

End Int.

(* ------------------------------------------------------------------ *)
(** ** [src/sheet_parser.py]: worksheets and Excel files *)

Module SheetParser.
Section S.
Context {U : PyUnicode}.

Definition clean_student_id (raw_id : cellval) : pystr :=
  if isna raw_id then []
  else replace (py ".0") [] (replace (py " ") [] (u_upper (strip (py_str raw_id)))).

(** [is_student_id] and [is_class_code] have the bodies of [parser.py]. *)
Definition is_student_id (value : pystr) : bool :=
  let clean_val := replace (py " ") [] (strip value) in
  str_isdigit clean_val && (8 <=? List.length clean_val)%nat.

Definition is_class_code (value : pystr) : bool :=
  Parser.class_code_shape (u_upper (replace (py " ") [] (strip value))).

Definition smart_swap_id_class (raw_id raw_class : cellval) : pystr * pystr :=
  let raw_id := if truthy raw_id then strip (py_str raw_id) else [] in
  let raw_class := if truthy raw_class then strip (py_str raw_class) else [] in
  if is_class_code raw_id && is_student_id raw_class then (raw_class, raw_id)
  else if match raw_id with [] => is_student_id raw_class | _ => false end
  then (raw_class, [])
  else if is_class_code raw_id && match raw_class with [] => true | _ => false end
  then ([], raw_id)
  else (raw_id, raw_class).

Definition parse_score (score_val : cellval) : Q :=
  if isna score_val then 0
  else match score_val with
       | VDateTime _ => 0
       | _ =>
           let clean_text := replace (py ",") (py ".") (strip (py_str score_val)) in
           match search_number clean_text with
           | Some m => let sc := float_of_match m in if negb (Qle_bool 1000 sc) then sc else 0
           | None => 0
           end
       end.

Definition mem_str (x : pystr) (l : list pystr) : bool := existsb (pystr_eqb x) l.

(** The body of the row loop of [parse_worksheet] for the row with
    DataFrame index [idx], from the values [safe_get] returns (its defaults
    [None], [''], [''], [''], [0] where a column was not detected). *)
Definition normalize_row (activity_name activity_link : pystr) (idx : Z)
    (stt_val name_val raw_id raw_class score_val : cellval) : option student :=
  let stt := if negb (isna stt_val)
             then match int_of_cell stt_val with Some z => z | None => (idx + 1)%Z end
             else (idx + 1)%Z in
  let name := if negb (isna name_val) then strip (py_str name_val) else [] in
  let '(sid, scls) := smart_swap_id_class raw_id raw_class in
  let sid := clean_student_id (VStr sid) in
  let scls := strip scls in
  let invalid_ids := [py ""; py "NAN"; py "NONE"; py "NULL"] in
  let invalid_names := [py ""; py "nan"; py "none"; py "null"] in
  let id_is_invalid := match sid with [] => true | _ => mem_str sid invalid_ids end in
  let name_is_invalid :=
    match name with [] => true | _ => mem_str (u_lower name) invalid_names end in
  if id_is_invalid && name_is_invalid then None
  else Some {| stt := stt;
               name := if name_is_invalid then py "UNKNOWN_NAME" else name;
               student_id := if id_is_invalid then py "UNKNOWN_ID_" ++ py_int_str stt else sid;
               student_class :=
                 match scls with
                 | [] => py "UNKNOWN_CLASS"
                 | _ => if mem_str (u_lower scls) [py "nan"; py "none"; py "null"]
                        then py "UNKNOWN_CLASS" else scls
                 end;
               score := parse_score score_val;
               activity_name := activity_name;
               activity_link := activity_link |}.


(** [extract_activity_name(file_path)], from [file_path.stem]; the body of
    [parser.extract_activity_name_from_filename]. *)
Definition extract_activity_name (filename : pystr) : pystr :=
  let name := sub_number_prefix filename in
  let name := sub_qd_prefix name in
  let name := sub_cong_nhan_prefix name in
  let name := strip name in
  let name := collapse_ws false name in
  match name with [] => py "Unknown" | _ => name end.

(** The [if]/[elif] chain of [detect_columns] on [col_lower]. *)
Definition column_role (col_lower : pystr) : option role :=
  if contains (py "stt") col_lower then Some R_stt
  else if contains (py "mssv") col_lower || contains (py "mã sv") col_lower
          || contains (py "mã sinh viên") col_lower then Some R_student_id
  else if (contains (py "họ") col_lower && contains (py "tên") col_lower)
          || contains (py "ho ten") col_lower || contains (py "hoten") col_lower then Some R_name
  else if contains (py "lớp") col_lower || contains (py "đơn vị") col_lower then Some R_student_class
  else if contains (py "nrl") col_lower || contains (py "điểm") col_lower then Some R_score
  else None.

(** The dictionary [columns]: role to column label, for the roles present. *)
Record columns := {
  col_stt : option cellval;
  col_name : option cellval;
  col_student_id : option cellval;
  col_student_class : option cellval;
  col_score : option cellval
}.

(** [columns.get(key)] *)
Definition col_get (cols : columns) (r : role) : option cellval :=
  match r with
  | R_stt => col_stt cols
  | R_name => col_name cols
  | R_student_id => col_student_id cols
  | R_student_class => col_student_class cols
  | R_score => col_score cols
  end.

(** [columns[key] = col] *)
Definition col_set (cols : columns) (r : role) (col : cellval) : columns :=
  {| col_stt := match r with R_stt => Some col | _ => col_stt cols end;
     col_name := match r with R_name => Some col | _ => col_name cols end;
     col_student_id := match r with R_student_id => Some col | _ => col_student_id cols end;
     col_student_class := match r with R_student_class => Some col | _ => col_student_class cols end;
     col_score := match r with R_score => Some col | _ => col_score cols end |}.

(** [detect_columns(df)] over the labels [df.columns]. *)
Definition detect_columns (df_columns : list cellval) : columns :=
  fold_left (fun cols col =>
               let col_lower := strip (u_lower (py_str col)) in
               match column_role col_lower with
               | Some r => col_set cols r col
               | None => cols
               end)
            df_columns
            {| col_stt := None; col_name := None; col_student_id := None;
               col_student_class := None; col_score := None |}.

End S.
End SheetParser.

(* ------------------------------------------------------------------ *)
(** ** Profiles and the profile store *)

(** One [history] entry: [{stt, activity_name, score, activity_link}]. *)
Record hentry := {
  h_stt : Z;
  h_activity_name : pystr;
  h_score : Q;
  h_activity_link : pystr
}.

(** A profile: [info.name], [info.student_class], [stats.total_score],
    [stats.activity_count] and [history]. *)
Record profile := {
  info_name : pystr;
  info_student_class : pystr;
  stats_total_score : Q;
  stats_activity_count : Z;
  history : list hentry
}.

(** A JSON object keyed by MSSV, in insertion order. *)
Definition store := list (pystr * profile).

Fixpoint lookup (k : pystr) (m : store) : option profile :=
  match m with
  | [] => None
  | (k', v) :: r => if pystr_eqb k k' then Some v else lookup k r
  end.

(** [m[k] = v] for a key already present. *)
Fixpoint update (k : pystr) (v : profile) (m : store) : store :=
  match m with
  | [] => []
  | (k', v') :: r => if pystr_eqb k k' then (k', v) :: r else (k', v') :: update k v r
  end.

(** Python's [sum(...)]: a left fold from [0]. *)
Definition py_sum (h : list hentry) : Q :=
  fold_left (fun acc e => acc + h_score e) h 0.

(* ------------------------------------------------------------------ *)
(** ** [src/aggregator.py] *)

Module Aggregator.

(** [str] comparison: code point by code point. *)
Fixpoint pystr_ltb (a b : pystr) : bool :=
  match a, b with
  | [], [] => false
  | [], _ :: _ => true
  | _ :: _, [] => false
  | x :: a', y :: b' => (x <? y)%N || (N.eqb x y && pystr_ltb a' b')
  end.

Fixpoint insert_key (k : pystr) (ks : list pystr) : list pystr :=
  match ks with
  | [] => [k]
  | k' :: r =>
      if pystr_eqb k k' then ks
      else if pystr_ltb k k' then k :: ks
      else k' :: insert_key k r
  end.

(** The group keys of [df.groupby('student_id')]: distinct and sorted. *)
Definition group_keys (df : list student) : list pystr :=
  fold_left (fun ks r => insert_key (student_id r) ks) df [].

(** numpy's [rint]: round half to even. *)
Definition rint (q : Q) : Z :=
  let f := Qfloor q in
  let d := q - inject_Z f in
  if Qeq_bool d (1 # 2) then (if Z.even f then f else f + 1)%Z
  else if Qle_bool d (1 # 2) then f else (f + 1)%Z.

(** [Series.round(1)] (and Python's [round(x, 1)] on exact values). *)
Definition round1 (q : Q) : Q := inject_Z (rint (q * 10)) / 10.

Definition to_hentry (r : student) : hentry :=
  {| h_stt := stt r; h_activity_name := activity_name r;
     h_score := score r; h_activity_link := activity_link r |}.

Definition aggregate_by_student (df : list student) : store :=
  map (fun k =>
         let g := filter (fun r => pystr_eqb (student_id r) k) df in
         (k, {| info_name := match g with r :: _ => name r | [] => [] end;
                info_student_class := match g with r :: _ => student_class r | [] => [] end;
                stats_total_score := round1 (fold_left (fun acc r => acc + score r) g 0);
                stats_activity_count := Z.of_nat (List.length g);
                history := map to_hentry g |}))
      (group_keys df).

End Aggregator.

(* ------------------------------------------------------------------ *)
(** ** [scripts/merge_data.py] *)

Module Merge.

Definition mem_link (l : pystr) (links : list pystr) : bool := existsb (pystr_eqb l) links.

(** The activities of [incoming] whose link is not among [existing]'s. *)
Definition new_activities (existing incoming : list hentry) : list hentry :=
  let existing_links := map h_activity_link existing in
  filter (fun a => negb (mem_link (h_activity_link a) existing_links)) incoming.

(** [existing] after the merge branch: history appended, stats recomputed. *)
Definition merge_profile (existing student : profile) : profile :=
  let h := history existing ++ new_activities (history existing) (history student) in
  {| info_name := info_name existing;
     info_student_class := info_student_class existing;
     stats_total_score := py_sum h;
     stats_activity_count := Z.of_nat (List.length h);
     history := h |}.

(** One iteration of the loop over [new_data.items()]. *)
Definition merge_step (acc : store * nat * nat) (kv : pystr * profile) : store * nat * nat :=
  let '(merged, new_count, updated_count) := acc in
  let '(mssv, student) := kv in
  match lookup mssv merged with
  | None => (merged ++ [(mssv, student)], S new_count, updated_count)
  | Some existing =>
      (update mssv (merge_profile existing student) merged, new_count,
       updated_count + List.length (new_activities (history existing) (history student)))%nat
  end.

(** [merge_student_data(old_data, new_data)]: [(merged, new_count, updated_count)]. *)
Definition merge_student_data (old_data new_data : store) : store * nat * nat :=
  fold_left merge_step new_data (old_data, O, O).

End Merge.

(* ------------------------------------------------------------------ *)
(** ** [src/searcher.py] *)

Module Searcher.
Section Se.
Context {U : PyUnicode}.

Definition remove_vietnamese_diacritics (text : pystr) : pystr :=
  let nfkd := u_nfkd text in
  let ascii_text := filter (fun c => negb (u_combining c)) nfkd in
  let ascii_text := replace (py "Đ") (py "D") (replace (py "đ") (py "d") ascii_text) in
  u_lower ascii_text.

Definition has_digit (text : pystr) : bool := existsb u_isdigit text.

Definition search_by_mssv (query : pystr) (data : store) : store :=
  let query_upper := u_upper (strip query) in
  match lookup query_upper data with
  | Some v => [(query_upper, v)]
  | None => firstn 10 (filter (fun kv => contains query_upper (u_upper (fst kv))) data)
  end.

Definition search_by_name (query : pystr) (data : store) : store :=
  let query_normalized := remove_vietnamese_diacritics (strip query) in
  firstn 10 (filter (fun kv =>
    contains query_normalized (remove_vietnamese_diacritics (info_name (snd kv)))) data).

(** [search_student(query)] with [data = load_students()]. *)
Definition search_student (data : store) (query : pystr) : store :=
  match strip query with
  | [] => []
  | q => if has_digit q then search_by_mssv q data else search_by_name q data
  end.

End Se.
End Searcher.

(* ------------------------------------------------------------------ *)
(** ** [src/extractor.py] *)

Module Extractor.

Record hyperlink := { hl_location : option pystr; hl_target : option pystr }.

Record cell := { c_value : cellval; c_hyperlink : option hyperlink }.

(** The active worksheet: its size and its cells, indexed [(row, column)]. *)
Record worksheet := {
  ws_max_row : Z;
  ws_max_column : Z;
  ws_cell : Z -> Z -> cell
}.

(** The workbook at [excel_path]: the path's stem, the active sheet and the
    sheet names. *)
Record workbook := {
  wb_stem : pystr;
  wb_active : worksheet;
  wb_sheetnames : list pystr
}.

Inductive link_type := Internal | External.

Record link := {
  l_display_text : pystr;
  l_link_type : link_type;
  l_url : option pystr;
  l_sheet_name : option pystr
}.

(** [range(a, b)] *)
Definition zrange (a b : Z) : list Z :=
  map (fun i => (a + Z.of_nat i)%Z) (seq 0 (Z.to_nat (b - a))).

Definition opt_truthy (o : option pystr) : bool :=
  match o with Some (_ :: _) => true | _ => false end.

Definition master_link (y : Z) : pyexc + option pystr :=
  if Z.eqb y 2020 then
    inr (Some (py "https://docs.google.com/spreadsheets/d/1QWdhplM8SzatAbQUG5N8xlefUCZGEIfZ/edit?gid=1391010033#gid=1391010033"))
  else if Z.eqb y 2021 then inr None
  else if Z.eqb y 2022 then
    inr (Some (py "https://docs.google.com/spreadsheets/d/1fWDcSwa9p3lbOceJOaBluFqGT9JPPwiF/edit?gid=1627022443#gid=1627022443"))
  else inl (KeyError y).

Definition mem_str (x : pystr) (l : list pystr) : bool := existsb (pystr_eqb x) l.

Section E.
Context {U : PyUnicode}.

(** [re.search(r'(\d{4})', stem)]: the first four consecutive digits. *)
Fixpoint year_token (s : pystr) : option pystr :=
  match s with
  | [] => None
  | c :: r =>
      match s with
      | a :: b :: c' :: d :: _ =>
          if is_decimal a && is_decimal b && is_decimal c' && is_decimal d
          then Some [a; b; c'; d] else year_token r
      | _ => None
      end
  end.

Definition get_file_year (stem : pystr) : Z :=
  match year_token stem with Some t => digits_value t | None => 9999%Z end.

Definition find_link_column (ws : worksheet) : option Z :=
  let header_row := 2%Z in
  let keywords := [py "link"; py "sheet"; py "quyết định công nhận nrl"] in
  find (fun col =>
          let v := c_value (ws_cell ws header_row col) in
          truthy v && existsb (fun kw => contains kw (u_lower (py_str v))) keywords)
       (zrange 1 (ws_max_column ws + 1)).

(** [re.match(r"'(.+?)'!", loc)]: [acc] holds the group read so far, reversed. *)
Fixpoint match_quoted (acc s : pystr) : option pystr :=
  match s with
  | [] => None
  | c :: r =>
      if match acc with [] => false | _ => prefixb (py "'!") s end then Some (rev acc)
      else if N.eqb c 10 then None
      else match_quoted (c :: acc) r
  end.

Definition drop_dollar (s : pystr) : pystr :=
  match s with 36%N :: r => r | _ => s end.

Definition is_ascii_upper (c : N) : bool := ((65 <=? c) && (c <=? 90))%N.

(** Whether [s] starts with a match of [!\$?[A-Z]+\$?\d+]. *)
Definition cell_ref_tail (s : pystr) : bool :=
  match s with
  | 33%N :: r =>
      let '(letters, r2) := span_by is_ascii_upper (drop_dollar r) in
      match letters, drop_dollar r2 with
      | _ :: _, c :: _ => is_decimal c
      | _, _ => false
      end
  | _ => false
  end.

(** [re.match(r"(.+?)!\$?[A-Z]+\$?\d+", loc)] *)
Fixpoint match_unquoted (acc s : pystr) : option pystr :=
  match s with
  | [] => None
  | c :: r =>
      if match acc with [] => false | _ => cell_ref_tail s end then Some (rev acc)
      else if N.eqb c 10 then None
      else match_unquoted (c :: acc) r
  end.

Definition parse_sheet_location (location : pystr) : option pystr :=
  match location with
  | [] => None
  | 39%N :: r =>
      match match_quoted [] r with
      | Some g => Some g
      | None => option_map strip (match_unquoted [] location)
      end
  | _ => option_map strip (match_unquoted [] location)
  end.

(** The body of the row loop of [extract_links] after the [limit] test:
    [inr None] skips the row, [inr (Some l)] appends [l]. *)
Definition process_row (wb : workbook) (link_col file_year : Z) (row : Z)
    : pyexc + option link :=
  let is_old_file := (file_year <=? 2022)%Z in
  let c := ws_cell (wb_active wb) row link_col in
  match c_hyperlink c with
  | None => inr None
  | Some h =>
      let display_text := if truthy (c_value c) then py_str (c_value c) else [] in
      let location := hl_location h in
      if is_old_file && opt_truthy location then
        match option_map parse_sheet_location location with
        | Some (Some sheet_name) =>
            if opt_truthy (Some sheet_name) && mem_str sheet_name (wb_sheetnames wb) then
              let url := if negb (Z.eqb file_year 2021) then master_link file_year
                         else inr (Some display_text) in
              match url with
              | inl e => inl e
              | inr u =>
                  inr (Some {| l_display_text := display_text; l_link_type := Internal;
                               l_url := u; l_sheet_name := Some sheet_name |})
              end
            else inr None
        | _ => inr None
        end
      else if negb is_old_file then
        if opt_truthy (hl_target h) then
          inr (Some {| l_display_text := display_text; l_link_type := External;
                       l_url := hl_target h; l_sheet_name := None |})
        else if opt_truthy location then
          match option_map parse_sheet_location location with
          | Some (Some sheet_name) =>
              if opt_truthy (Some sheet_name) && mem_str sheet_name (wb_sheetnames wb) then
                let url := if prefixb (py "http") display_text then Some display_text
                           else location in
                inr (Some {| l_display_text := display_text; l_link_type := Internal;
                             l_url := url; l_sheet_name := Some sheet_name |})
              else inr None
          | _ => inr None
          end
        else inr None
      else inr None
  end.

(** [if limit and len(links) >= limit: break] *)
Definition limit_hit (limit : option Z) (links : list link) : bool :=
  match limit with
  | None => false
  | Some n => negb (Z.eqb n 0) && (n <=? Z.of_nat (List.length links))%Z
  end.

Fixpoint scan (limit : option Z) (process : Z -> pyexc + option link)
    (rows : list Z) (links : list link) : pyexc + list link :=
  match rows with
  | [] => inr links
  | r :: rs =>
      if limit_hit limit links then inr links
      else match process r with
           | inl e => inl e
           | inr None => scan limit process rs links
           | inr (Some l) => scan limit process rs (links ++ [l])
           end
  end.

Definition extract_links (wb : workbook) (limit : option Z) : pyexc + list link :=
  match find_link_column (wb_active wb) with
  | None => inl (ValueError (py "Không tìm thấy cột Link trong file Excel"))
  | Some link_col =>
      let file_year := get_file_year (wb_stem wb) in
      scan limit (process_row wb link_col file_year)
           (zrange 3 (ws_max_row (wb_active wb) + 1)) []
  end.


(** [extract_hyperlinks(excel_path, limit)]: the [(display_text, url)] of
    the external links. *)
Definition extract_hyperlinks (wb : workbook) (limit : option Z)
    : pyexc + list (pystr * option pystr) :=
  match extract_links wb limit with
  | inl e => inl e
  | inr links =>
      inr (map (fun l => (l_display_text l, l_url l))
               (filter (fun l => match l_link_type l with External => true | Internal => false end)
                       links))
  end.

End E.
End Extractor.

(* ------------------------------------------------------------------ *)
(** ** [src/downloader.py]: URL and file name utilities *)

Module Downloader.

Definition detect_google_type (url : pystr) : pystr :=
  if contains (py "/document/d/") url then py "document"
  else if contains (py "/spreadsheets/d/") url then py "spreadsheet"
  else if contains (py "/file/d/") url then py "file"
  else py "unknown".

(** The class [[a-zA-Z0-9_-]]. *)
Definition id_char (c : N) : bool :=
  ((97 <=? c) && (c <=? 122))%N || ((65 <=? c) && (c <=? 90))%N ||
  ((48 <=? c) && (c <=? 57))%N || N.eqb c 95 || N.eqb c 45.

(** Group 1 of a match of [prefix([a-zA-Z0-9_-]+)] starting at the head of [s]. *)
Definition match_at (prefix s : pystr) : option pystr :=
  if prefixb prefix s then
    match fst (span_by id_char (skipn (List.length prefix) s)) with
    | [] => None
    | g => Some g
    end
  else None.

(** [re.search(prefix + r'([a-zA-Z0-9_-]+)', s).group(1)], for a
    non-empty [prefix]: the leftmost match, the group taken greedily. *)
Fixpoint search_group (prefix s : pystr) : option pystr :=
  match s with
  | [] => None
  | _ :: r =>
      match match_at prefix s with
      | Some g => Some g
      | None => search_group prefix r
      end
  end.

(** The loop over [patterns] in [extract_google_id]. *)
Fixpoint first_group (prefixes : list pystr) (url : pystr) : option pystr :=
  match prefixes with
  | [] => None
  | p :: ps =>
      match search_group p url with
      | Some g => Some g
      | None => first_group ps url
      end
  end.

Definition extract_google_id (url : pystr) : option pystr :=
  first_group [py "/document/d/"; py "/spreadsheets/d/"; py "/file/d/"] url.

(** The class [invalid_chars] of [sanitize_filename]: less-than, greater-than,
    colon, double quote, slash, backslash, bar, question mark and star. *)
Definition invalid_char (c : N) : bool :=
  existsb (N.eqb c) [60; 62; 58; 34; 47; 92; 124; 63; 42]%N.

(** [s[:n]] *)
Definition py_slice_to (s : pystr) (n : Z) : pystr :=
  if (0 <=? n)%Z then firstn (Z.to_nat n) s
  else firstn (Z.to_nat (Z.of_nat (List.length s) + n)) s.

Definition sanitize_filename (filename : pystr) (max_length : Z) : pystr :=
  let clean_name := map (fun c => if invalid_char c then 95%N else c) filename in
  let clean_name :=
    if (max_length <? Z.of_nat (List.length clean_name))%Z
    then py_slice_to clean_name (max_length - 5) ++ py ".docx"
    else clean_name in
  strip clean_name.

Definition _build_export_url (file_id file_type : pystr) : pystr * pystr :=
  if pystr_eqb file_type (py "spreadsheet") then
    (py "https://docs.google.com/spreadsheets/d/" ++ file_id ++ py "/export?format=xlsx", py "xlsx")
  else
    (py "https://docs.google.com/document/d/" ++ file_id ++ py "/export?format=docx", py "docx").

(** The part of [_download_public(url, ...)] before the request: the export
    URL and extension it requests, or [None] where it returns [(False, '')]
    because no file ID was found. *)
Definition public_export (url : pystr) : option (pystr * pystr) :=
  match extract_google_id url with
  | Some ((_ :: _) as file_id) =>
      let file_type := detect_google_type url in
      Some (_build_export_url file_id file_type)
  | _ => None
  end.

(** [s.split(sep)] for a one code point separator. *)
Fixpoint split_char (sep : N) (s : pystr) : list pystr :=
  match s with
  | [] => [[]]
  | c :: r =>
      if N.eqb c sep then [] :: split_char sep r
      else match split_char sep r with
           | w :: ws => (c :: w) :: ws
           | [] => [[c]]
           end
  end.

Definition _detect_extension (mime_type filename : pystr) : pystr :=
  if contains (py ".") filename then last (split_char 46 filename) []
  else if contains (py "word") mime_type then py "docx"
  else if contains (py "spreadsheet") mime_type || contains (py "excel") mime_type then py "xlsx"
  else if contains (py "pdf") mime_type then py "pdf"
  else py "bin".

End Downloader.

(* ------------------------------------------------------------------ *)
(** ** Sample snapshots *)

(** [data/students.json]-shaped snapshots built by [aggregate_by_student]
    from rows whose scores were parsed from ["0,25"] and ["0,5"]. *)
Module Samples.

Definition row (sid : pystr) (sc : Q) (link : pystr) : student :=
  {| stt := 1; name := py "Nguyễn Văn A"; student_id := sid;
     student_class := py "22DHTT02"; score := sc;
     activity_name := py "Hiến máu"; activity_link := link |}.

Definition old_snapshot : store :=
  Aggregator.aggregate_by_student
    [row (py "2254810315") (1 # 4) (py "https://docs.google.com/document/d/1")].

Definition new_snapshot : store :=
  Aggregator.aggregate_by_student
    [row (py "2254810315") (1 # 2) (py "https://docs.google.com/document/d/2");
     row (py "2254810316") (1 # 4) (py "https://docs.google.com/document/d/1")].

(** A one-activity summary workbook: header ["Link"] in cell (2, 1), the
    hyperlinked cell (3, 1). *)
Definition summary_sheet (location target : option pystr) : Extractor.worksheet :=
  {| Extractor.ws_max_row := 3; Extractor.ws_max_column := 1;
     Extractor.ws_cell := fun r c =>
       if (r =? 2)%Z then {| Extractor.c_value := VStr (py "Link"); Extractor.c_hyperlink := None |}
       else if (r =? 3)%Z then
         {| Extractor.c_value := VStr (py "Hiến máu");
            Extractor.c_hyperlink := Some {| Extractor.hl_location := location;
                                              Extractor.hl_target := target |} |}
       else {| Extractor.c_value := VNone; Extractor.c_hyperlink := None |} |}.

(** [2019-2020.xlsx]: an internal link to sheet [Sheet1]. *)
Definition wb_2019 : Extractor.workbook :=
  {| Extractor.wb_stem := py "2019-2020";
     Extractor.wb_active := summary_sheet (Some (py "'Sheet1'!A1")) None;
     Extractor.wb_sheetnames := [py "Sheet1"] |}.

(** [2023-2024.xlsx]: an external link. *)
Definition wb_2023 : Extractor.workbook :=
  {| Extractor.wb_stem := py "2023-2024";
     Extractor.wb_active := summary_sheet None (Some (py "https://docs.google.com/document/d/1"));
     Extractor.wb_sheetnames := [py "Sheet1"] |}.

End Samples.

(* ------------------------------------------------------------------ *)
(** ** Decision procedures for the file-ID search of [extract_google_id] *)

(** Whether [p] can match a run of ID characters followed by [t]. *)
Fixpoint straddle (p t : pystr) : bool :=
  match p with
  | [] => true
  | a :: p' => prefixb p t || (Downloader.id_char a && straddle p' t)
  end.

(** Whether [p] can match [s] followed by a run of ID characters and [t]. *)
Fixpoint cmp (p s t : pystr) : bool :=
  match p, s with
  | [], _ => true
  | _, [] => straddle p t
  | a :: p', c :: s' => N.eqb a c && cmp p' s' t
  end.

Fixpoint check_nohit (p a c t : pystr) : bool :=
  match a with
  | [] => true
  | _ :: a' => negb (cmp p (a ++ c) t) && check_nohit p a' c t
  end.

(* ================================================================== *)
(** * Properties *)

(** ** String lemmas *)

Lemma pystr_eqb_eq (a b : pystr) : pystr_eqb a b = true <-> a = b.
Proof.
  unfold pystr_eqb. destruct (list_eq_dec N.eq_dec a b); split; congruence.
Qed.

Lemma pystr_eqb_refl (a : pystr) : pystr_eqb a a = true.
Proof. apply pystr_eqb_eq. reflexivity. Qed.

Lemma pystr_eqb_neq (a b : pystr) : a <> b -> pystr_eqb a b = false.
Proof.
  intro H. destruct (pystr_eqb a b) eqn:E; [apply pystr_eqb_eq in E; congruence | reflexivity].
Qed.

Lemma span_by_app (p : N -> bool) (l t : pystr) :
  Forall (fun c => p c = true) l ->
  span_by p (l ++ t) = (l ++ fst (span_by p t), snd (span_by p t)).
Proof.
  induction 1 as [| c l Hc _ IH]; simpl.
  - destruct (span_by p t); reflexivity.
  - rewrite Hc, IH. reflexivity.
Qed.

Lemma span_by_spec (p : N -> bool) (s : pystr) :
  s = fst (span_by p s) ++ snd (span_by p s) /\
  Forall (fun c => p c = true) (fst (span_by p s)).
Proof.
  induction s as [| c r IH]; simpl; [auto |].
  destruct (p c) eqn:Hc.
  - destruct (span_by p r) as [a b]; simpl in *. destruct IH as [IH1 IH2].
    split; [congruence | constructor; auto].
  - simpl. auto.
Qed.

Lemma Forall_app_inv_r {A} (P : A -> Prop) (l r : list A) :
  Forall P (l ++ r) -> Forall P r.
Proof. intro H. apply Forall_app in H. tauto. Qed.

Lemma forallb_Forall_iff (f : N -> bool) (l : pystr) :
  forallb f l = true <-> Forall (fun c => f c = true) l.
Proof. rewrite forallb_forall, Forall_forall. tauto. Qed.

(** [s.replace('.0', '')] on a string ending in ['.0'] and with no other
    occurrence removes exactly that suffix. *)
Lemma replace_dot0_suffix (t : pystr) (fuel : nat) :
  contains (py ".0") t = false -> (S (List.length t) <= fuel)%nat ->
  replace_aux fuel (py ".0") [] (t ++ py ".0") = t.
Proof.
  revert fuel. induction t as [| x t IH]; intros fuel Hc Hf.
  - destruct fuel as [| f]; [lia |]. simpl. destruct f; reflexivity.
  - destruct fuel as [| f]; [lia |].
    assert (Hp : prefixb (py ".0") (x :: t ++ py ".0") = false).
    { simpl in Hc. apply orb_false_iff in Hc. destruct Hc as [Hc1 _].
      destruct t as [| y t'].
      - simpl. apply andb_false_r.
      - exact Hc1. }
    cbn [replace_aux app]. rewrite Hp.
    f_equal. apply IH; [| simpl in Hf; lia].
    simpl in Hc. apply orb_false_iff in Hc. destruct t; [reflexivity | tauto].
Qed.

Section StripLemmas.
Context {U : PyUnicode}.

Lemma existsb_lstrip (f : N -> bool) (s : pystr) :
  (forall c, is_space c = true -> f c = false) -> existsb f (lstrip s) = existsb f s.
Proof.
  intro Hf. induction s as [| c r IH]; simpl; [reflexivity |].
  destruct (is_space c) eqn:E; simpl; [rewrite Hf by exact E; simpl; exact IH | reflexivity].
Qed.

Lemma existsb_rev (f : N -> bool) (s : pystr) : existsb f (rev s) = existsb f s.
Proof.
  induction s as [| c r IH]; simpl; [reflexivity |].
  rewrite existsb_app, IH. simpl. rewrite orb_false_r, orb_comm. reflexivity.
Qed.

Lemma existsb_strip (f : N -> bool) (s : pystr) :
  (forall c, is_space c = true -> f c = false) -> existsb f (strip s) = existsb f s.
Proof.
  intro Hf. unfold strip, rstrip.
  rewrite existsb_rev, existsb_lstrip, existsb_rev, existsb_lstrip by exact Hf. reflexivity.
Qed.

Lemma lstrip_idem (s : pystr) : lstrip (lstrip s) = lstrip s.
Proof.
  induction s as [| c r IH]; simpl; [reflexivity |].
  destruct (is_space c) eqn:E; [exact IH | simpl; rewrite E; reflexivity].
Qed.

Lemma lstrip_app (l m : pystr) :
  lstrip (l ++ m) = if forallb is_space l then lstrip m else lstrip l ++ m.
Proof.
  induction l as [| c r IH]; simpl; [reflexivity |].
  destruct (is_space c); simpl; [exact IH | reflexivity].
Qed.

Lemma lstrip_head (s : pystr) :
  lstrip s = [] \/ exists c r, lstrip s = c :: r /\ is_space c = false.
Proof.
  induction s as [| c r IH]; simpl; [auto |].
  destruct (is_space c) eqn:E; [exact IH | right; eauto].
Qed.

Lemma rstrip_idem (x : pystr) : rstrip (rstrip x) = rstrip x.
Proof. unfold rstrip. rewrite rev_involutive, lstrip_idem. reflexivity. Qed.

Lemma rstrip_cons (c : N) (r : pystr) :
  is_space c = false -> exists y, rstrip (c :: r) = c :: y.
Proof.
  intro Hc. unfold rstrip. simpl. rewrite lstrip_app.
  destruct (forallb is_space (rev r)); simpl; rewrite ?Hc.
  - exists []. reflexivity.
  - rewrite rev_app_distr. simpl. eexists. reflexivity.
Qed.

Lemma strip_idem (s : pystr) : strip (strip s) = strip s.
Proof.
  unfold strip.
  destruct (lstrip_head s) as [H | (c & r & H & Hc)].
  - rewrite H. reflexivity.
  - rewrite H. destruct (rstrip_cons c r Hc) as [y Hy]. rewrite Hy.
    simpl. rewrite Hc. rewrite <- Hy. apply rstrip_idem.
Qed.

End StripLemmas.

(** ** C4: score parsing *)

(** C4 (code_bug).  On ["2024"] the Word-table [parse_score] of [parser.py]
    returns [2024.0], while the spreadsheet [parse_score] returns [0.0]; a
    [datetime.time] cell ([07:30:00]) is not rejected on the spreadsheet path
    and parses as [7.0]. *)
Theorem parse_score_year_doc_path :
  @Parser.parse_score ascii_unicode (py "2024") = 2024 /\
  @SheetParser.parse_score ascii_unicode (VStr (py "2024")) = 0 /\
  @Parser.parse_score ascii_unicode (py "20,5 điểm") = 205 # 10 /\
  @SheetParser.parse_score ascii_unicode (VStr (py "20,5 điểm")) = 205 # 10 /\
  @SheetParser.parse_score ascii_unicode (VTime (py "07:30:00")) = 7.
Proof. vm_compute. repeat split; reflexivity. Qed.

(** ** C5: the identifier/class swap heuristic *)

Section Swap.
Context {U : PyUnicode}.

Lemma str_isdigit_iff (w : pystr) :
  str_isdigit w = true <-> w <> [] /\ Forall (fun ch => u_isdigit ch = true) w.
Proof.
  destruct w as [| c r].
  - split; [discriminate | intros [H _]; congruence].
  - unfold str_isdigit. rewrite forallb_Forall_iff.
    split; [intro H; split; [discriminate | exact H] | tauto].
Qed.

Lemma is_student_id_iff (v : pystr) :
  Parser.is_student_id v = true <->
  (let w := replace (py " ") [] (strip v) in
   w <> [] /\ Forall (fun ch => u_isdigit ch = true) w /\ (8 <= List.length w)%nat).
Proof.
  unfold Parser.is_student_id. cbv zeta.
  rewrite andb_true_iff, str_isdigit_iff, Nat.leb_le. tauto.
Qed.

Lemma is_class_code_iff (v : pystr) :
  Parser.is_class_code v = true <->
  exists d1 d2 L T,
    u_upper (replace (py " ") [] (strip v)) = d1 :: d2 :: L ++ T /\
    is_decimal d1 = true /\ is_decimal d2 = true /\ L <> [] /\
    Forall (fun ch => Parser.class_letter ch = true) L /\
    Forall (fun ch => is_decimal ch = true) T.
Proof.
  unfold Parser.is_class_code.
  destruct (u_upper (replace (py " ") [] (strip v))) as [| d1 [| d2 rest]].
  - simpl. split; [discriminate | intros (d1 & d2 & L & T & H & _); discriminate].
  - simpl. split; [discriminate | intros (d1' & d2 & L & T & H & _); discriminate].
  - unfold Parser.class_code_shape. split.
    + intro H. apply andb_true_iff in H. destruct H as [H Hsh].
      apply andb_true_iff in H. destruct H as [H1 H2].
      pose proof (span_by_spec Parser.class_letter rest) as [Hrest Hl].
      destruct (span_by Parser.class_letter rest) as [letters tail]. simpl in *.
      destruct letters as [| l ls]; [discriminate |].
      exists d1, d2, (l :: ls), tail. repeat split; auto.
      * rewrite Hrest at 1. reflexivity.
      * discriminate.
      * apply forallb_Forall_iff. exact Hsh.
    + intros (e1 & e2 & L & T & H & H1 & H2 & HL & HLf & HT).
      injection H as -> -> ->. rewrite H1, H2. simpl.
      rewrite (span_by_app _ L T HLf).
      pose proof (span_by_spec Parser.class_letter T) as [HTs _].
      destruct L as [| l ls]; [congruence |]. simpl.
      apply forallb_Forall_iff.
      rewrite HTs in HT. exact (Forall_app_inv_r _ _ _ HT).
Qed.

(** C5 (corrected).  Both values are stripped first and every result is
    built from the stripped values; "empty" means empty after stripping.
    The class-code shape is two decimal digits, one or more letters of
    [A-ZĐÀÁẢÃẠĂẮẰẲẴẶÂẤẦẨẪẬ], then decimal digits, checked on the stripped,
    space-free, uppercased value; the identifier shape is a space-free,
    stripped value of at least 8 characters, all digits.  The spreadsheet
    version agrees on strings. *)
Theorem smart_swap_id_class_stripped (rid rcls : pystr) :
  (let r := strip rid in
   let c := strip rcls in
   Parser.smart_swap_id_class rid rcls =
     (if Parser.is_class_code r && Parser.is_student_id c then (c, r)
      else if match r with [] => Parser.is_student_id c | _ => false end then (c, [])
      else if Parser.is_class_code r && match c with [] => true | _ => false end then ([], r)
      else (r, c))) /\
  SheetParser.smart_swap_id_class (VStr rid) (VStr rcls) = Parser.smart_swap_id_class rid rcls /\
  (Parser.is_student_id rcls = true <->
   (let w := replace (py " ") [] (strip rcls) in
    w <> [] /\ Forall (fun ch => u_isdigit ch = true) w /\ (8 <= List.length w)%nat)) /\
  (Parser.is_class_code rid = true <->
   exists d1 d2 L T,
     u_upper (replace (py " ") [] (strip rid)) = d1 :: d2 :: L ++ T /\
     is_decimal d1 = true /\ is_decimal d2 = true /\ L <> [] /\
     Forall (fun ch => Parser.class_letter ch = true) L /\
     Forall (fun ch => is_decimal ch = true) T) /\
  @Parser.smart_swap_id_class ascii_unicode (py "22DHTT02") (py "2254810315")
    = (py "2254810315", py "22DHTT02") /\
  @Parser.smart_swap_id_class ascii_unicode (py "") (py "2254810315")
    = (py "2254810315", py "").
Proof.
  split; [reflexivity |]. split.
  { destruct rid, rcls; reflexivity. }
  split; [apply is_student_id_iff |]. split; [apply is_class_code_iff |].
  vm_compute. split; reflexivity.
Qed.

(** C5: the spec's rule read literally returns [rid] unchanged when no case
    applies; the code returns it stripped. *)
Lemma smart_swap_id_class_unstripped_cex :
  @Parser.is_class_code ascii_unicode (py " A") = false /\
  @Parser.is_student_id ascii_unicode (py "") = false /\
  @Parser.smart_swap_id_class ascii_unicode (py " A") (py "") = (py "A", py "") /\
  @Parser.smart_swap_id_class ascii_unicode (py " A") (py "") <> (py " A", py "").
Proof. vm_compute. repeat split; try reflexivity. discriminate. Qed.

End Swap.

(** ** C8: identifier canonicalization *)

Lemma replace_single_removes (c : N) (s : pystr) (fuel : nat) :
  (List.length s <= fuel)%nat -> ~ In c (replace_aux fuel [c] [] s).
Proof.
  revert fuel. induction s as [| x r IH]; intros fuel Hf.
  - destruct fuel; simpl; tauto.
  - destruct fuel as [| f]; [simpl in Hf; lia |].
    simpl. rewrite andb_true_r. destruct (N.eqb c x) eqn:E.
    + simpl. apply IH. simpl in Hf. lia.
    + simpl. intros [H | H].
      * subst. rewrite N.eqb_refl in E. discriminate.
      * revert H. apply IH. simpl in Hf. lia.
Qed.

Section Clean.
Context {U : PyUnicode}.

(** C8 (corrected).  On both paths the identifier is stripped, uppercased
    and loses every U+0020 space (other whitespace such as a tab is kept);
    the spreadsheet path then also deletes ['.0'], so an identifier whose
    canonical form is [t + '.0'] with no other ['.0'] in [t] becomes [t];
    the Word-table path strips no ['.0']. *)
Theorem clean_student_id_canonical (s t : pystr)
    (Ht : replace (py " ") [] (u_upper (strip s)) = t ++ py ".0")
    (Hnt : contains (py ".0") t = false) :
  (forall v, Parser.clean_student_id v = replace (py " ") [] (u_upper (strip v))) /\
  (forall v, ~ In 32%N (Parser.clean_student_id v)) /\
  (forall v, SheetParser.clean_student_id (VStr v)
             = replace (py ".0") [] (Parser.clean_student_id v)) /\
  SheetParser.clean_student_id (VStr s) = t.
Proof.
  assert (Hdoc : forall v, Parser.clean_student_id v = replace (py " ") [] (u_upper (strip v))).
  { intros [| c r]; [simpl; rewrite u_upper_nil; reflexivity | reflexivity]. }
  assert (Hsheet : forall v, SheetParser.clean_student_id (VStr v)
                             = replace (py ".0") [] (Parser.clean_student_id v)).
  { intro v. rewrite Hdoc. reflexivity. }
  split; [exact Hdoc |]. split.
  { intro v. rewrite Hdoc. apply replace_single_removes. lia. }
  split; [exact Hsheet |].
  rewrite Hsheet, Hdoc, Ht. unfold replace.
  apply replace_dot0_suffix; [exact Hnt |].
  rewrite length_app. simpl. lia.
Qed.

End Clean.

Lemma clean_student_id_canonical_witness :
  @replace (py " ") [] (@u_upper ascii_unicode (strip (py "2254810315.0")))
    = py "2254810315" ++ py ".0" /\
  contains (py ".0") (py "2254810315") = false /\
  @SheetParser.clean_student_id ascii_unicode (VStr (py "2254810315.0")) = py "2254810315".
Proof.
  assert (H1 : @replace (py " ") [] (@u_upper ascii_unicode (strip (py "2254810315.0")))
               = py "2254810315" ++ py ".0") by (vm_compute; reflexivity).
  assert (H2 : contains (py ".0") (py "2254810315") = false) by (vm_compute; reflexivity).
  split; [exact H1 |]. split; [exact H2 |].
  exact (proj2 (proj2 (proj2 (clean_student_id_canonical _ _ H1 H2)))).
Defined.

(** C8: a tab inside an identifier survives on both paths, the Word-table
    path keeps a trailing ['.0'], and the spreadsheet path deletes a
    ['.0'] that is not trailing (with the digit [0]). *)
Lemma clean_student_id_cex :
  @Parser.clean_student_id ascii_unicode (py "2254" ++ [9%N] ++ py "810315")
    = py "2254" ++ [9%N] ++ py "810315" /\
  @SheetParser.clean_student_id ascii_unicode (VStr (py "2254" ++ [9%N] ++ py "810315"))
    = py "2254" ++ [9%N] ++ py "810315" /\
  @Parser.clean_student_id ascii_unicode (py "2254810315.0") = py "2254810315.0" /\
  @SheetParser.clean_student_id ascii_unicode (VStr (py "12.05")) = py "125".
Proof. vm_compute. repeat split; reflexivity. Qed.

(** ** Row normalization *)

Lemma mem_str_In (x : pystr) (l : list pystr) :
  SheetParser.mem_str x l = true <-> In x l.
Proof.
  unfold SheetParser.mem_str. rewrite existsb_exists. split.
  - intros [y [Hy He]]. apply pystr_eqb_eq in He. subst. exact Hy.
  - intro H. exists x. split; [exact H | apply pystr_eqb_refl].
Qed.

Lemma mem_str_not_In (x : pystr) (l : list pystr) :
  SheetParser.mem_str x l = false <-> ~ In x l.
Proof.
  rewrite <- mem_str_In. destruct (SheetParser.mem_str x l); split; congruence.
Qed.

(** The emptiness tests of [parse_worksheet]: [not v or v in invalid]. *)
Lemma invalid_test_iff (f : pystr -> pystr) (s : pystr) (l : list pystr) :
  (match s with [] => true | _ => SheetParser.mem_str (f s) l end) = true
  <-> s = [] \/ In (f s) l.
Proof.
  destruct s as [| c r].
  - split; [left; reflexivity | reflexivity].
  - rewrite mem_str_In. split; [intro H; right; exact H | intros [H | H]; [discriminate | exact H]].
Qed.

Section Rows.
Context {U : PyUnicode}.

Lemma doc_normalize_row_spec (an al stt_text nm rid rcls sc : pystr) :
  let sw := Parser.smart_swap_id_class rid rcls in
  let sid := Parser.clean_student_id (fst sw) in
  let cls := strip (snd sw) in
  (Parser.normalize_row an al stt_text nm rid rcls sc = None <-> sid = [] /\ nm = []) /\
  forall st, Parser.normalize_row an al stt_text nm rid rcls sc = Some st ->
    stt st = Parser.parse_stt stt_text /\
    (nm = [] -> name st = py "UNKNOWN_NAME") /\ (nm <> [] -> name st = nm) /\
    (sid <> [] -> student_id st = sid) /\
    (sid = [] -> (0 < stt st)%Z -> student_id st = py "UNKNOWN_ID_" ++ py_int_str (stt st)) /\
    (sid = [] -> (stt st <= 0)%Z -> student_id st = py "UNKNOWN_ID") /\
    (cls = [] -> student_class st = py "UNKNOWN_CLASS") /\
    (cls <> [] -> student_class st = cls).
Proof.
  cbv zeta. unfold Parser.normalize_row.
  destruct (Parser.smart_swap_id_class rid rcls) as [a b]. cbn [fst snd].
  cbv beta iota zeta.
  destruct (Parser.clean_student_id a) as [| x xs];
    destruct nm as [| y ys]; split;
    try (split; [intro H; discriminate H | intros [H1 H2]; discriminate]);
    try (split; [intros _; split; reflexivity | reflexivity]);
    intros st Hst; try discriminate; injection Hst as <-; cbn [stt name student_id student_class];
    destruct (strip b) as [| z zs];
    repeat split; intros; try congruence;
    try (destruct (0 <? Parser.parse_stt stt_text)%Z eqn:E;
         [apply Z.ltb_lt in E | apply Z.ltb_ge in E]; first [reflexivity | lia]).
Qed.

Lemma class_sentinel_spec (cls : pystr) :
  let cls_invalid := cls = [] \/ In (u_lower cls) [py "nan"; py "none"; py "null"] in
  (cls_invalid ->
     match cls with
     | [] => py "UNKNOWN_CLASS"
     | _ => if SheetParser.mem_str (u_lower cls) [py "nan"; py "none"; py "null"]
            then py "UNKNOWN_CLASS" else cls
     end = py "UNKNOWN_CLASS") /\
  (~ cls_invalid ->
     match cls with
     | [] => py "UNKNOWN_CLASS"
     | _ => if SheetParser.mem_str (u_lower cls) [py "nan"; py "none"; py "null"]
            then py "UNKNOWN_CLASS" else cls
     end = cls).
Proof.
  cbv zeta. destruct cls as [| c r].
  - split; [reflexivity | intro H; exfalso; apply H; left; reflexivity].
  - destruct (SheetParser.mem_str (u_lower (c :: r)) _) eqn:E.
    + apply mem_str_In in E. split; [reflexivity | intro H; exfalso; apply H; right; exact E].
    + apply mem_str_not_In in E. split; [intros [H | H]; [discriminate | contradiction] | reflexivity].
Qed.

Lemma sheet_normalize_row_spec (an al : pystr) (idx : Z) (sv nv iv cv scv : cellval) :
  let nm := if negb (isna nv) then strip (py_str nv) else [] in
  let sw := SheetParser.smart_swap_id_class iv cv in
  let sid := SheetParser.clean_student_id (VStr (fst sw)) in
  let cls := strip (snd sw) in
  let id_invalid := sid = [] \/ In sid [py ""; py "NAN"; py "NONE"; py "NULL"] in
  let name_invalid := nm = [] \/ In (u_lower nm) [py ""; py "nan"; py "none"; py "null"] in
  let cls_invalid := cls = [] \/ In (u_lower cls) [py "nan"; py "none"; py "null"] in
  (SheetParser.normalize_row an al idx sv nv iv cv scv = None <-> id_invalid /\ name_invalid) /\
  forall st, SheetParser.normalize_row an al idx sv nv iv cv scv = Some st ->
    (name_invalid -> name st = py "UNKNOWN_NAME") /\ (~ name_invalid -> name st = nm) /\
    (id_invalid -> student_id st = py "UNKNOWN_ID_" ++ py_int_str (stt st)) /\
    (~ id_invalid -> student_id st = sid) /\
    (cls_invalid -> student_class st = py "UNKNOWN_CLASS") /\
    (~ cls_invalid -> student_class st = cls).
Proof.
  cbv zeta. unfold SheetParser.normalize_row.
  destruct (SheetParser.smart_swap_id_class iv cv) as [a b]. cbn [fst snd].
  cbv beta iota zeta.
  pose proof (invalid_test_iff (fun x => x) (SheetParser.clean_student_id (VStr a))
                [py ""; py "NAN"; py "NONE"; py "NULL"]) as Hi.
  pose proof (invalid_test_iff u_lower (if negb (isna nv) then strip (py_str nv) else [])
                [py ""; py "nan"; py "none"; py "null"]) as Hn.
  pose proof (class_sentinel_spec (strip b)) as Hc. cbv zeta in Hc.
  cbv beta in Hi.
  destruct (match SheetParser.clean_student_id (VStr a) with
            | [] => true | _ => SheetParser.mem_str (SheetParser.clean_student_id (VStr a)) _ end);
  destruct (match (if negb (isna nv) then strip (py_str nv) else []) with
            | [] => true
            | _ => SheetParser.mem_str (u_lower (if negb (isna nv) then strip (py_str nv) else [])) _
            end);
  cbn [andb]; split;
    try (split; [intros _; split; [apply Hi | apply Hn]; reflexivity | reflexivity]);
    try (split; [intro H; discriminate H | intros [H1 H2]]);
    try (apply Hi in H1; discriminate); try (apply Hn in H2; discriminate);
    intros st Hst; try discriminate; injection Hst as <-;
    cbn [stt name student_id student_class];
    destruct Hc as [Hc1 Hc2];
    repeat split; intros; try reflexivity; try (apply Hc1; assumption); try (apply Hc2; assumption);
    exfalso; try (match goal with H : ~ _ |- _ => apply H end);
    first [apply Hi; reflexivity | apply Hn; reflexivity |
           match goal with H : _ \/ _ |- _ => first [apply Hi in H | apply Hn in H]; discriminate end].
Qed.
End Rows.

(** C6 (amended): on the Word-table path ([parser.py]) a row is dropped iff
    the canonical identifier after the swap and the stripped name are both
    empty; a kept row gets ["UNKNOWN_NAME"] for an empty name, keeps a
    non-empty identifier, gets ["UNKNOWN_ID_<stt>"] for an empty identifier
    when its ordinal is positive and ["UNKNOWN_ID"] when it is 0, and gets
    ["UNKNOWN_CLASS"] for an empty class. On the worksheet path
    ([parse_worksheet]) the same holds with "empty" widened to the forms
    [nan], [none], [null] (compared after upper- or lowercasing), and the
    sentinel is always ["UNKNOWN_ID_<stt>"]. *)
Theorem normalize_row_emptiness `{U : PyUnicode} :
  (forall an al stt_text nm rid rcls sc : pystr,
    let sw := Parser.smart_swap_id_class rid rcls in
    let sid := Parser.clean_student_id (fst sw) in
    let cls := strip (snd sw) in
    (Parser.normalize_row an al stt_text nm rid rcls sc = None <-> sid = [] /\ nm = []) /\
    forall st, Parser.normalize_row an al stt_text nm rid rcls sc = Some st ->
      stt st = Parser.parse_stt stt_text /\
      (nm = [] -> name st = py "UNKNOWN_NAME") /\ (nm <> [] -> name st = nm) /\
      (sid <> [] -> student_id st = sid) /\
      (sid = [] -> (0 < stt st)%Z -> student_id st = py "UNKNOWN_ID_" ++ py_int_str (stt st)) /\
      (sid = [] -> (stt st <= 0)%Z -> student_id st = py "UNKNOWN_ID") /\
      (cls = [] -> student_class st = py "UNKNOWN_CLASS") /\
      (cls <> [] -> student_class st = cls)) /\
  (forall (an al : pystr) (idx : Z) (sv nv iv cv scv : cellval),
    let nm := if negb (isna nv) then strip (py_str nv) else [] in
    let sw := SheetParser.smart_swap_id_class iv cv in
    let sid := SheetParser.clean_student_id (VStr (fst sw)) in
    let cls := strip (snd sw) in
    let id_invalid := sid = [] \/ In sid [py ""; py "NAN"; py "NONE"; py "NULL"] in
    let name_invalid := nm = [] \/ In (u_lower nm) [py ""; py "nan"; py "none"; py "null"] in
    let cls_invalid := cls = [] \/ In (u_lower cls) [py "nan"; py "none"; py "null"] in
    (SheetParser.normalize_row an al idx sv nv iv cv scv = None <-> id_invalid /\ name_invalid) /\
    forall st, SheetParser.normalize_row an al idx sv nv iv cv scv = Some st ->
      (name_invalid -> name st = py "UNKNOWN_NAME") /\ (~ name_invalid -> name st = nm) /\
      (id_invalid -> student_id st = py "UNKNOWN_ID_" ++ py_int_str (stt st)) /\
      (~ id_invalid -> student_id st = sid) /\
      (cls_invalid -> student_class st = py "UNKNOWN_CLASS") /\
      (~ cls_invalid -> student_class st = cls)).
Proof.
  split.
  - intros. apply doc_normalize_row_spec.
  - intros. apply sheet_normalize_row_spec.
Qed.

(** C6: a Word-table row with ordinal text empty (ordinal 0), a name and no
    identifier is kept with identifier ["UNKNOWN_ID"], not ["UNKNOWN_ID_0"]. *)
Lemma normalize_row_unknown_id_cex :
  option_map stt (@Parser.normalize_row ascii_unicode [] [] [] (py "Nguyen A") [] [] [])
    = Some 0%Z /\
  option_map student_id (@Parser.normalize_row ascii_unicode [] [] [] (py "Nguyen A") [] [] [])
    = Some (py "UNKNOWN_ID") /\
  py "UNKNOWN_ID" <> py "UNKNOWN_ID_" ++ py_int_str 0.
Proof. vm_compute. split; [reflexivity | split; [reflexivity | discriminate]]. Qed.

(** ** Search *)

Section Search.
Context {U : PyUnicode}.

Lemma has_digit_strip (q : pystr) : Searcher.has_digit (strip q) = Searcher.has_digit q.
Proof. apply existsb_strip. exact u_space_not_digit. Qed.

(** C7: [search_student] returns nothing for an empty or blank query; for a
    query with a digit it returns the exact entry of the stripped,
    uppercased query when that is a key, else the first 10 entries whose
    uppercased key contains it; for a query without digits it returns the
    first 10 entries whose diacritic-free, lowercased name contains the
    diacritic-free, lowercased query; never more than 10 entries. *)
Theorem search_student_dispatch (data : store) (q : pystr) :
  (strip q = [] -> Searcher.search_student data q = []) /\
  (strip q <> [] -> Searcher.has_digit q = true ->
     Searcher.search_student data q =
       match lookup (u_upper (strip q)) data with
       | Some v => [(u_upper (strip q), v)]
       | None => firstn 10 (filter (fun kv => contains (u_upper (strip q)) (u_upper (fst kv))) data)
       end) /\
  (strip q <> [] -> Searcher.has_digit q = false ->
     Searcher.search_student data q =
       firstn 10 (filter (fun kv =>
         contains (Searcher.remove_vietnamese_diacritics (strip q))
                  (Searcher.remove_vietnamese_diacritics (info_name (snd kv)))) data)) /\
  (List.length (Searcher.search_student data q) <= 10)%nat.
Proof.
  assert (Hs : Searcher.search_student data q =
                 match strip q with
                 | [] => []
                 | _ => if Searcher.has_digit q
                        then Searcher.search_by_mssv (strip q) data
                        else Searcher.search_by_name (strip q) data
                 end).
  { unfold Searcher.search_student. rewrite <- has_digit_strip.
    destruct (strip q); reflexivity. }
  unfold Searcher.search_by_mssv, Searcher.search_by_name in Hs.
  rewrite strip_idem in Hs. rewrite Hs.
  destruct (strip q) as [| c r];
    [repeat split; intros; first [reflexivity | congruence | simpl; lia] |].
  split; [intro H; discriminate H |].
  destruct (Searcher.has_digit q).
  - split; [intros; reflexivity |]. split; [intros _ H; discriminate H |].
    destruct (lookup _ data); [simpl; lia | apply firstn_le_length].
  - split; [intros _ H; discriminate H |]. split; [intros; reflexivity |].
    apply firstn_le_length.
Qed.

End Search.

(** ** Store lemmas *)

Lemma lookup_app (k : pystr) (m r : store) :
  lookup k (m ++ r) = match lookup k m with Some v => Some v | None => lookup k r end.
Proof.
  induction m as [| [k1 v1] m IH]; simpl; [reflexivity |].
  destruct (pystr_eqb k k1); [reflexivity | exact IH].
Qed.

Lemma lookup_update (k k' : pystr) (v : profile) (m : store) :
  lookup k' (update k v m) =
  if pystr_eqb k' k then match lookup k m with Some _ => Some v | None => None end
  else lookup k' m.
Proof.
  induction m as [| [k1 v1] m IH]; simpl.
  - destruct (pystr_eqb k' k); reflexivity.
  - destruct (pystr_eqb k k1) eqn:E1.
    + apply pystr_eqb_eq in E1. subst k1. simpl. destruct (pystr_eqb k' k); reflexivity.
    + simpl. rewrite IH. destruct (pystr_eqb k' k1) eqn:E2; [| reflexivity].
      apply pystr_eqb_eq in E2. subst k1.
      assert (Hne : k' <> k) by (intro H; subst; rewrite pystr_eqb_refl in E1; discriminate).
      rewrite (pystr_eqb_neq _ _ Hne). reflexivity.
Qed.

Lemma lookup_notin (k : pystr) (l : store) : ~ In k (map fst l) -> lookup k l = None.
Proof.
  induction l as [| [k1 v1] l IH]; simpl; intro H; [reflexivity |].
  rewrite pystr_eqb_neq by (intro E; apply H; left; congruence).
  apply IH. intro E; apply H; right; exact E.
Qed.

Lemma lookup_In (k : pystr) (v : profile) (l : store) : lookup k l = Some v -> In (k, v) l.
Proof.
  induction l as [| [k1 v1] l IH]; simpl; [discriminate |].
  destruct (pystr_eqb k k1) eqn:E.
  - apply pystr_eqb_eq in E. subst. intro H; injection H as <-. left; reflexivity.
  - intro H. right. exact (IH H).
Qed.

(** What one [merge_step] does to the lookups of other keys. *)
Lemma merge_step_other (m : store) (a u : nat) (k k' : pystr) (p : profile) :
  k' <> k ->
  lookup k' (fst (fst (Merge.merge_step (m, a, u) (k, p)))) = lookup k' m.
Proof.
  intro Hne. unfold Merge.merge_step.
  destruct (lookup k m) as [e |]; simpl.
  - rewrite lookup_update, (pystr_eqb_neq _ _ Hne). reflexivity.
  - rewrite lookup_app. destruct (lookup k' m); [reflexivity |].
    simpl. rewrite (pystr_eqb_neq _ _ Hne). reflexivity.
Qed.

(** The loop of [merge_student_data] over entries with distinct keys. *)
Lemma merge_fold (l m : store) (a u : nat) :
  NoDup (map fst l) ->
  let res := fold_left Merge.merge_step l (m, a, u) in
  (forall k, lookup k (fst (fst res)) =
     match lookup k l with
     | None => lookup k m
     | Some p => match lookup k m with
                 | None => Some p
                 | Some e => Some (Merge.merge_profile e p)
                 end
     end) /\
  snd (fst res) =
    (a + List.length (filter (fun kv => match lookup (fst kv) m with
                                        | None => true | Some _ => false end) l))%nat /\
  snd res =
    (u + list_sum (map (fun kv => match lookup (fst kv) m with
                                  | Some e => List.length (Merge.new_activities (history e)
                                                                                (history (snd kv)))
                                  | None => O end) l))%nat.
Proof.
  revert m a u. induction l as [| [k p] l IH]; intros m a u Hnd; cbv zeta.
  - simpl. split; [reflexivity | split; lia].
  - inversion Hnd as [| ? ? Hk Hnd']; subst. simpl in Hk.
    assert (Hoth : forall kv, In kv l ->
              lookup (fst kv) (fst (fst (Merge.merge_step (m, a, u) (k, p)))) = lookup (fst kv) m).
    { intros [k1 p1] Hin. apply merge_step_other. cbn [fst]. intro E; subst k1.
      apply Hk. apply (in_map fst) in Hin. exact Hin. }
    cbn [fold_left filter map list_sum fst snd]. simpl (lookup k ((k, p) :: l)).
    destruct (lookup k m) as [e |] eqn:Ek.
    + set (m1 := update k (Merge.merge_profile e p) m).
      assert (Es : Merge.merge_step (m, a, u) (k, p) =
                   (m1, a, (u + List.length (Merge.new_activities (history e) (history p)))%nat))
        by (unfold Merge.merge_step; rewrite Ek; reflexivity).
      rewrite Es in Hoth |- *. cbn [fst] in Hoth.
      destruct (IH m1 a (u + List.length (Merge.new_activities (history e) (history p)))%nat Hnd')
        as [IH1 [IH2 IH3]].
      rewrite (filter_ext_in _ (fun kv => match lookup (fst kv) m with
                                          | None => true | Some _ => false end) l) in IH2
        by (intros kv Hin; rewrite Hoth by exact Hin; reflexivity).
      rewrite (map_ext_in _ (fun kv => match lookup (fst kv) m with
                                       | Some e => List.length (Merge.new_activities (history e)
                                                                                     (history (snd kv)))
                                       | None => O end) l) in IH3
        by (intros kv Hin; rewrite Hoth by exact Hin; reflexivity).
      cbv beta iota. split; [| split; [exact IH2 | rewrite IH3; unfold list_sum; cbn [fold_right]; lia]].
      intro k'. rewrite IH1. simpl. destruct (pystr_eqb k' k) eqn:E.
      * apply pystr_eqb_eq in E. subst k'. rewrite (lookup_notin k l Hk).
        unfold m1. rewrite lookup_update, pystr_eqb_refl, Ek. reflexivity.
      * unfold m1. destruct (lookup k' l); rewrite lookup_update, E; reflexivity.
    + set (m1 := m ++ [(k, p)]).
      assert (Es : Merge.merge_step (m, a, u) (k, p) = (m1, S a, u))
        by (unfold Merge.merge_step; rewrite Ek; reflexivity).
      rewrite Es in Hoth |- *. cbn [fst] in Hoth.
      destruct (IH m1 (S a) u Hnd') as [IH1 [IH2 IH3]].
      rewrite (filter_ext_in _ (fun kv => match lookup (fst kv) m with
                                          | None => true | Some _ => false end) l) in IH2
        by (intros kv Hin; rewrite Hoth by exact Hin; reflexivity).
      rewrite (map_ext_in _ (fun kv => match lookup (fst kv) m with
                                       | Some e => List.length (Merge.new_activities (history e)
                                                                                     (history (snd kv)))
                                       | None => O end) l) in IH3
        by (intros kv Hin; rewrite Hoth by exact Hin; reflexivity).
      cbv beta iota. split; [| split; [etransitivity; [exact IH2 | simpl; lia] |
        etransitivity; [exact IH3 | unfold list_sum; cbn [fold_right]; lia]]].
      intro k'. rewrite IH1. simpl. destruct (pystr_eqb k' k) eqn:E.
      * apply pystr_eqb_eq in E. subst k'. rewrite (lookup_notin k l Hk).
        unfold m1. rewrite lookup_app, Ek. simpl. rewrite pystr_eqb_refl. reflexivity.
      * unfold m1. rewrite lookup_app. destruct (lookup k' l); destruct (lookup k' m); simpl;
          try rewrite E; reflexivity.
Qed.

Lemma lookup_NoDup_In (k : pystr) (v : profile) (l : store) :
  NoDup (map fst l) -> In (k, v) l -> lookup k l = Some v.
Proof.
  induction l as [| [k1 v1] l IH]; simpl; [intros _ [] |].
  intros Hnd Hin. inversion Hnd as [| ? ? Hk Hnd']; subst.
  destruct Hin as [E | Hin].
  - injection E as <- <-. rewrite pystr_eqb_refl. reflexivity.
  - rewrite pystr_eqb_neq; [exact (IH Hnd' Hin) |].
    intro E; subst k1. apply Hk. apply (in_map fst) in Hin. exact Hin.
Qed.

Lemma list_sum_map_zero {A} (f : A -> nat) (l : list A) :
  (forall x, In x l -> f x = O) -> list_sum (map f l) = O.
Proof.
  induction l as [| x l IH]; intro H; [reflexivity |].
  simpl. rewrite (H x (or_introl eq_refl)), IH; [reflexivity |].
  intros y Hy. apply H. right. exact Hy.
Qed.

(** ** Aggregation and merge *)

Lemma aggregate_fold (g : list student) (x : Q) :
  fold_left (fun acc r => acc + score r) g x =
  fold_left (fun acc e => acc + h_score e) (map Aggregator.to_hentry g) x.
Proof. revert x. induction g as [| r g IH]; intro x; simpl; [reflexivity | apply IH]. Qed.

Lemma aggregate_invariant (df : list student) (k : pystr) (p : profile) :
  In (k, p) (Aggregator.aggregate_by_student df) ->
  stats_total_score p = Aggregator.round1 (py_sum (history p)) /\
  stats_activity_count p = Z.of_nat (List.length (history p)).
Proof.
  unfold Aggregator.aggregate_by_student. rewrite in_map_iff.
  intros [k' [E _]]. injection E as _ <-. cbn [stats_total_score stats_activity_count history].
  unfold py_sum. rewrite aggregate_fold, length_map. split; reflexivity.
Qed.

Lemma mem_link_In (l : pystr) (links : list pystr) :
  Merge.mem_link l links = true <-> In l links.
Proof.
  unfold Merge.mem_link. rewrite existsb_exists. split.
  - intros [y [Hy He]]. apply pystr_eqb_eq in He. subst. exact Hy.
  - intro H. exists l. split; [exact H | apply pystr_eqb_refl].
Qed.

(** The filter of [new_activities], as "differs from every existing link". *)
Lemma new_activities_forallb (he hp : list hentry) :
  Merge.new_activities he hp =
  filter (fun a => forallb (fun h => negb (pystr_eqb (h_activity_link a) (h_activity_link h))) he) hp.
Proof.
  unfold Merge.new_activities, Merge.mem_link. apply filter_ext. intro a.
  induction he as [| h he IH]; simpl; [reflexivity |].
  rewrite negb_orb, IH. reflexivity.
Qed.

Lemma new_activities_nil (hq hp : list hentry) :
  (forall a, In a hp -> In (h_activity_link a) (map h_activity_link hq)) ->
  Merge.new_activities hq hp = [].
Proof.
  intro H. unfold Merge.new_activities.
  induction hp as [| a hp IH]; simpl; [reflexivity |].
  rewrite (proj2 (mem_link_In _ _) (H a (or_introl eq_refl))). simpl.
  apply IH. intros b Hb. apply H. right. exact Hb.
Qed.

Lemma merge_profile_covers (he hp : list hentry) (a : hentry) :
  In a hp ->
  In (h_activity_link a) (map h_activity_link (he ++ Merge.new_activities he hp)).
Proof.
  intro Hin. rewrite map_app, in_app_iff.
  destruct (Merge.mem_link (h_activity_link a) (map h_activity_link he)) eqn:E.
  - left. apply mem_link_In. exact E.
  - right. apply in_map. unfold Merge.new_activities. apply filter_In.
    split; [exact Hin | rewrite E; reflexivity].
Qed.

(** Merging [p] into a profile whose links already cover [p]'s adds nothing. *)
Lemma merge_profile_covered (q p : profile) :
  (forall a, In a (history p) -> In (h_activity_link a) (map h_activity_link (history q))) ->
  Merge.new_activities (history q) (history p) = [] /\
  history (Merge.merge_profile q p) = history q /\
  stats_total_score (Merge.merge_profile q p) = py_sum (history q).
Proof.
  intro H. pose proof (new_activities_nil _ _ H) as Hn.
  unfold Merge.merge_profile. cbn [history stats_total_score]. rewrite Hn, app_nil_r.
  repeat split; reflexivity.
Qed.

(** C1 (code_bug): every profile built by [aggregate_by_student] has
    [total_score = round(sum of history scores, 1)] and [activity_count =
    len(history)]; but [merge_student_data] recomputes [total_score]
    without rounding, so merging two such snapshots can leave a profile
    with [total_score = 0.75] and [round(0.75, 1) = 0.8]. *)
Theorem total_score_invariant_merge :
  (forall (df : list student) (k : pystr) (p : profile),
     In (k, p) (Aggregator.aggregate_by_student df) ->
     stats_total_score p = Aggregator.round1 (py_sum (history p)) /\
     stats_activity_count p = Z.of_nat (List.length (history p))) /\
  match lookup (py "2254810315")
          (fst (fst (Merge.merge_student_data Samples.old_snapshot Samples.new_snapshot))) with
  | Some p =>
      stats_activity_count p = Z.of_nat (List.length (history p)) /\
      stats_total_score p == 3 # 4 /\
      ~ (stats_total_score p == Aggregator.round1 (py_sum (history p)))
  | None => False
  end.
Proof.
  split; [exact aggregate_invariant |].
  vm_compute. split; [reflexivity | split; [reflexivity | intro H; discriminate H]].
Qed.

(** C2: with the keys of [new_data] distinct (a dict), [merge_student_data]
    returns a store where a key only in [new_data] maps to its profile
    verbatim, a key only in [old_data] keeps its profile, and a key in both
    maps to the old profile with the incoming activities whose link differs
    from every existing link appended, [total_score] the plain sum of the
    merged history's scores and [activity_count] its length; [new_count]
    counts the keys absent from [old_data] and [updated_count] the appended
    activities. *)
Theorem merge_student_data_spec (old_data new_data : store) :
  NoDup (map fst new_data) ->
  let fresh (a : hentry) (he : list hentry) :=
    forallb (fun h => negb (pystr_eqb (h_activity_link a) (h_activity_link h))) he in
  let '(merged, new_count, updated_count) := Merge.merge_student_data old_data new_data in
  (forall k p, lookup k old_data = None -> lookup k new_data = Some p ->
     lookup k merged = Some p) /\
  (forall k e, lookup k old_data = Some e -> lookup k new_data = None ->
     lookup k merged = Some e) /\
  (forall k, lookup k old_data = None -> lookup k new_data = None -> lookup k merged = None) /\
  (forall k e p, lookup k old_data = Some e -> lookup k new_data = Some p ->
     exists q, lookup k merged = Some q /\
       info_name q = info_name e /\ info_student_class q = info_student_class e /\
       history q = history e ++ filter (fun a => fresh a (history e)) (history p) /\
       stats_total_score q = py_sum (history q) /\
       stats_activity_count q = Z.of_nat (List.length (history q))) /\
  new_count = List.length (filter (fun kv => match lookup (fst kv) old_data with
                                             | None => true | Some _ => false end) new_data) /\
  updated_count = list_sum (map (fun kv => match lookup (fst kv) old_data with
                                           | Some e => List.length
                                               (filter (fun a => fresh a (history e)) (history (snd kv)))
                                           | None => O end) new_data).
Proof.
  intros Hnd fresh.
  pose proof (merge_fold new_data old_data O O Hnd) as H. cbv zeta in H.
  unfold Merge.merge_student_data.
  destruct (fold_left Merge.merge_step new_data (old_data, O, O)) as [[merged a] u].
  cbn [fst snd] in H. destruct H as [H1 [H2 H3]].
  split; [intros k p Ho Hn; rewrite H1, Hn, Ho; reflexivity |].
  split; [intros k e Ho Hn; rewrite H1, Hn, Ho; reflexivity |].
  split; [intros k Ho Hn; rewrite H1, Hn, Ho; reflexivity |].
  split.
  - intros k e p Ho Hn. exists (Merge.merge_profile e p).
    split; [rewrite H1, Hn, Ho; reflexivity |].
    unfold Merge.merge_profile. cbn. rewrite new_activities_forallb.
    repeat split; reflexivity.
  - split; [exact H2 |]. rewrite H3. simpl. f_equal. apply map_ext. intro kv.
    destruct (lookup (fst kv) old_data); [| reflexivity].
    rewrite new_activities_forallb. reflexivity.
Qed.

Lemma merge_student_data_spec_witness :
  NoDup (map fst Samples.new_snapshot) /\
  (let fresh (a : hentry) (he : list hentry) :=
     forallb (fun h => negb (pystr_eqb (h_activity_link a) (h_activity_link h))) he in
   let '(merged, new_count, updated_count) :=
     Merge.merge_student_data Samples.old_snapshot Samples.new_snapshot in
   (forall k p, lookup k Samples.old_snapshot = None -> lookup k Samples.new_snapshot = Some p ->
      lookup k merged = Some p) /\
   (forall k e, lookup k Samples.old_snapshot = Some e -> lookup k Samples.new_snapshot = None ->
      lookup k merged = Some e) /\
   (forall k, lookup k Samples.old_snapshot = None -> lookup k Samples.new_snapshot = None ->
      lookup k merged = None) /\
   (forall k e p, lookup k Samples.old_snapshot = Some e -> lookup k Samples.new_snapshot = Some p ->
      exists q, lookup k merged = Some q /\
        info_name q = info_name e /\ info_student_class q = info_student_class e /\
        history q = history e ++ filter (fun a => fresh a (history e)) (history p) /\
        stats_total_score q = py_sum (history q) /\
        stats_activity_count q = Z.of_nat (List.length (history q))) /\
   new_count = List.length (filter (fun kv => match lookup (fst kv) Samples.old_snapshot with
                                              | None => true | Some _ => false end)
                                   Samples.new_snapshot) /\
   updated_count = list_sum (map (fun kv => match lookup (fst kv) Samples.old_snapshot with
                                            | Some e => List.length
                                                (filter (fun a => fresh a (history e)) (history (snd kv)))
                                            | None => O end) Samples.new_snapshot)).
Proof.
  assert (Hnd : NoDup (map fst Samples.new_snapshot)).
  { vm_compute. constructor; [intros [H | []]; discriminate H |].
    constructor; [intros [] | constructor]. }
  split; [exact Hnd | exact (merge_student_data_spec Samples.old_snapshot Samples.new_snapshot Hnd)].
Defined.

Lemma lookup_in_keys (k : pystr) (l : store) :
  In k (map fst l) -> exists v, lookup k l = Some v.
Proof.
  induction l as [| [k1 v1] l IH]; simpl; [intros [] |].
  destruct (pystr_eqb k k1) eqn:E; [eauto |].
  intros [H | H]; [subst; rewrite pystr_eqb_refl in E; discriminate | exact (IH H)].
Qed.

(** C3 (code_bug): merging [new_data] a second time into the result of a
    first merge adds no activity ([updated_count = 0]) and leaves every
    history as it was, but it sets the [total_score] of every key of
    [new_data] to the plain sum of its history; a profile copied verbatim
    by the first merge keeps its rounded aggregate total there, so its
    total changes (0.2 after the first merge, 0.25 after the second). *)
Theorem merge_twice_total_score :
  (forall old_data new_data : store,
     NoDup (map fst new_data) ->
     let '(m1, _, _) := Merge.merge_student_data old_data new_data in
     let '(m2, _, u2) := Merge.merge_student_data m1 new_data in
     u2 = O /\
     (forall k, option_map history (lookup k m2) = option_map history (lookup k m1)) /\
     (forall k q, In k (map fst new_data) -> lookup k m2 = Some q ->
        stats_total_score q = py_sum (history q))) /\
  (let '(m1, _, _) := Merge.merge_student_data [] Samples.new_snapshot in
   let '(m2, _, _) := Merge.merge_student_data m1 Samples.new_snapshot in
   match lookup (py "2254810316") m1, lookup (py "2254810316") m2 with
   | Some q1, Some q2 =>
       history q1 = history q2 /\
       stats_total_score q1 == 1 # 5 /\ stats_total_score q2 == 1 # 4
   | _, _ => False
   end).
Proof.
  split.
  - intros old_data new_data Hnd.
    pose proof (merge_fold new_data old_data O O Hnd) as H. cbv zeta in H.
    unfold Merge.merge_student_data.
    destruct (fold_left Merge.merge_step new_data (old_data, O, O)) as [[m1 a1] u1].
    cbn [fst snd] in H. destruct H as [H1 _].
    pose proof (merge_fold new_data m1 O O Hnd) as G. cbv zeta in G.
    destruct (fold_left Merge.merge_step new_data (m1, O, O)) as [[m2 a2] u2].
    cbn [fst snd] in G. destruct G as [G1 [_ G3]].
    assert (Hcov : forall k p, lookup k new_data = Some p ->
              exists q, lookup k m1 = Some q /\
                (forall a, In a (history p) ->
                   In (h_activity_link a) (map h_activity_link (history q)))).
    { intros k p Hp. rewrite H1, Hp. destruct (lookup k old_data) as [e |].
      - exists (Merge.merge_profile e p). split; [reflexivity |].
        intros a Ha. apply merge_profile_covers. exact Ha.
      - exists p. split; [reflexivity |]. intros a Ha. apply in_map. exact Ha. }
    split; [| split].
    + rewrite G3. simpl. apply list_sum_map_zero. intros [k p] Hin.
      destruct (Hcov k p (lookup_NoDup_In k p new_data Hnd Hin)) as [q [Hq Hc]].
      cbn [fst snd]. rewrite Hq.
      rewrite (proj1 (merge_profile_covered q p Hc)). reflexivity.
    + intro k. rewrite G1. destruct (lookup k new_data) as [p |] eqn:Hp; [| reflexivity].
      destruct (Hcov k p Hp) as [q [Hq Hc]]. rewrite Hq. cbn [option_map]. f_equal.
      exact (proj1 (proj2 (merge_profile_covered q p Hc))).
    + intros k q Hk Hq. destruct (lookup_in_keys k new_data Hk) as [p Hp].
      destruct (Hcov k p Hp) as [q' [Hq' _]].
      rewrite G1, Hp, Hq' in Hq. injection Hq as <-. reflexivity.
  - vm_compute. split; [reflexivity | split; reflexivity].
Qed.

(** ** Link scan *)

Ltac destruct_matches_in H :=
  repeat match type of H with
         | context [match ?x with _ => _ end] =>
             lazymatch x with
             | context [match _ with _ => _ end] => fail
             | _ => destruct x eqn:?
             end
         end.

Section Scan.
Context {U : PyUnicode}.

Lemma master_link_inl (y : Z) (e : pyexc) : Extractor.master_link y = inl e -> e = KeyError y.
Proof.
  unfold Extractor.master_link.
  destruct (y =? 2020)%Z; [discriminate |].
  destruct (y =? 2021)%Z; [discriminate |].
  destruct (y =? 2022)%Z; [discriminate |].
  intro H. injection H as <-. reflexivity.
Qed.

(** A row raises only through [MASTER_LINK[file_year]] on an old file. *)
Lemma process_row_inl (wb : Extractor.workbook) (col y r : Z) (e : pyexc) :
  Extractor.process_row wb col y r = inl e ->
  (y <=? 2022)%Z = true /\ (y =? 2021)%Z = false /\ Extractor.master_link y = inl e.
Proof.
  unfold Extractor.process_row. cbv zeta. intro H.
  destruct_matches_in H; try discriminate;
    repeat match goal with
           | E : (_ && _)%bool = true |- _ => apply andb_true_iff in E; destruct E
           | E : negb _ = true |- _ => apply negb_true_iff in E
           end;
    try (injection H as <-); try congruence;
    repeat split; congruence.
Qed.

(** A row appends only when it cannot raise. *)
Lemma process_row_inr_some (wb : Extractor.workbook) (col y r : Z) (l : Extractor.link) :
  Extractor.process_row wb col y r = inr (Some l) ->
  (y <=? 2022)%Z = false \/ (y =? 2021)%Z = true \/ exists u, Extractor.master_link y = inr u.
Proof.
  unfold Extractor.process_row. cbv zeta. intro H.
  destruct_matches_in H; try discriminate;
    repeat match goal with
           | E : (_ && _)%bool = true |- _ => apply andb_true_iff in E; destruct E
           | E : negb _ = true |- _ => apply negb_true_iff in E
           | E : negb _ = false |- _ => apply negb_false_iff in E
           end;
    first [left; assumption | right; left; assumption |
           right; right; eexists; reflexivity].
Qed.

Lemma process_row_dichotomy (wb : Extractor.workbook) (col y : Z) :
  (forall r e, Extractor.process_row wb col y r <> inl e) \/
  (forall r l, Extractor.process_row wb col y r <> inr (Some l)).
Proof.
  destruct (y <=? 2022)%Z eqn:Ey; [| left; intros r e H; apply process_row_inl in H; intuition congruence].
  destruct (y =? 2021)%Z eqn:E21; [left; intros r e H; apply process_row_inl in H; intuition congruence |].
  destruct (Extractor.master_link y) as [e0 | u] eqn:Em.
  - right. intros r l H. apply process_row_inr_some in H.
    destruct H as [H | [H | [u H]]]; congruence.
  - left. intros r e H. apply process_row_inl in H. intuition congruence.
Qed.

Lemma scan_None_app (p : Z -> pyexc + option Extractor.link) (rows : list Z) (links : list Extractor.link) :
  Extractor.scan None p rows links =
  match Extractor.scan None p rows [] with inl e => inl e | inr t => inr (links ++ t) end.
Proof.
  revert links. induction rows as [| r rs IH]; intro links; simpl.
  - rewrite app_nil_r. reflexivity.
  - destruct (p r) as [e | [l |]]; [reflexivity | | apply IH].
    rewrite (IH (links ++ [l])), (IH [l]).
    destruct (Extractor.scan None p rs []); [reflexivity |]. rewrite <- app_assoc. reflexivity.
Qed.

Lemma scan_noexc (p : Z -> pyexc + option Extractor.link) (rows : list Z) (links : list Extractor.link) :
  (forall r e, p r <> inl e) -> exists t, Extractor.scan None p rows links = inr (links ++ t).
Proof.
  intro Hp. revert links. induction rows as [| r rs IH]; intro links; simpl.
  - exists []. rewrite app_nil_r. reflexivity.
  - destruct (p r) as [e | [l |]] eqn:E; [exfalso; exact (Hp r e E) | | apply IH].
    destruct (IH (links ++ [l])) as [t Ht]. exists ([l] ++ t). rewrite Ht, app_assoc. reflexivity.
Qed.

(** With no row raising, a positive limit truncates the unlimited scan. *)
Lemma scan_limit_noexc (p : Z -> pyexc + option Extractor.link) (n : Z) (rows : list Z)
    (links : list Extractor.link) :
  (0 < n)%Z -> (forall r e, p r <> inl e) -> (Z.of_nat (List.length links) <= n)%Z ->
  Extractor.scan (Some n) p rows links =
  match Extractor.scan None p rows links with
  | inl e => inl e | inr t => inr (firstn (Z.to_nat n) t)
  end.
Proof.
  intros Hn Hp. revert links. induction rows as [| r rs IH]; intros links Hl; simpl.
  - rewrite firstn_all2 by lia. reflexivity.
  - unfold Extractor.limit_hit.
    destruct (negb (n =? 0)%Z && (n <=? Z.of_nat (List.length links))%Z) eqn:Eh.
    + apply andb_true_iff in Eh. destruct Eh as [_ Eh]. apply Z.leb_le in Eh.
      destruct (p r) as [e | [l |]] eqn:E; [exfalso; exact (Hp r e E) | |].
      * destruct (scan_noexc p rs (links ++ [l]) Hp) as [t Ht]. rewrite Ht.
        rewrite <- app_assoc, firstn_app, firstn_all2 by lia.
        replace (Z.to_nat n - List.length links)%nat with O by lia. rewrite app_nil_r. reflexivity.
      * destruct (scan_noexc p rs links Hp) as [t Ht]. rewrite Ht.
        rewrite firstn_app, firstn_all2 by lia.
        replace (Z.to_nat n - List.length links)%nat with O by lia. rewrite app_nil_r. reflexivity.
    + apply andb_false_iff in Eh. destruct Eh as [Eh | Eh];
        [apply negb_false_iff, Z.eqb_eq in Eh; lia | apply Z.leb_gt in Eh].
      destruct (p r) as [e | [l |]] eqn:E; [reflexivity | | apply IH; lia].
      apply IH. rewrite length_app. simpl. lia.
Qed.

(** With no row appending and a non-negative limit, the limit is never hit. *)
Lemma scan_limit_noappend (p : Z -> pyexc + option Extractor.link) (lim : option Z) (rows : list Z) :
  (forall n, lim = Some n -> (0 <= n)%Z) -> (forall r l, p r <> inr (Some l)) ->
  Extractor.scan lim p rows [] = Extractor.scan None p rows [].
Proof.
  intros Hl Hp. induction rows as [| r rs IH]; simpl; [reflexivity |].
  assert (Hh : Extractor.limit_hit lim [] = false).
  { unfold Extractor.limit_hit. destruct lim as [n |]; [| reflexivity].
    specialize (Hl n eq_refl). simpl. destruct (n =? 0)%Z eqn:E; [reflexivity |].
    apply Z.eqb_neq in E. simpl. apply Z.leb_gt. lia. }
  rewrite Hh. destruct (p r) as [e | [l |]] eqn:E; [reflexivity | | exact IH].
  exfalso. exact (Hp r l E).
Qed.

Lemma scan_noappend_nil (p : Z -> pyexc + option Extractor.link) (rows : list Z) (t : list Extractor.link) :
  (forall r l, p r <> inr (Some l)) -> Extractor.scan None p rows [] = inr t -> t = [].
Proof.
  intro Hp. induction rows as [| r rs IH]; simpl; [congruence |].
  destruct (p r) as [e | [l |]] eqn:E; [discriminate | | exact IH].
  exfalso. exact (Hp r l E).
Qed.

Lemma scan_limit_ext (l1 l2 : option Z) (p : Z -> pyexc + option Extractor.link) (rows : list Z)
    (links : list Extractor.link) :
  (forall ls, Extractor.limit_hit l1 ls = Extractor.limit_hit l2 ls) ->
  Extractor.scan l1 p rows links = Extractor.scan l2 p rows links.
Proof.
  intro H. revert links. induction rows as [| r rs IH]; intro links; simpl; [reflexivity |].
  rewrite H. destruct (Extractor.limit_hit l2 links); [reflexivity |].
  destruct (p r) as [e | [l |]]; [reflexivity | apply IH | apply IH].
Qed.

Lemma scan_negative (n : Z) (p : Z -> pyexc + option Extractor.link) (rows : list Z) :
  (n < 0)%Z -> Extractor.scan (Some n) p rows [] = inr [].
Proof.
  intro Hn. destruct rows as [| r rs]; simpl; [reflexivity |].
  unfold Extractor.limit_hit. simpl.
  destruct (n =? 0)%Z eqn:E; [apply Z.eqb_eq in E; lia |].
  simpl. destruct (n <=? 0)%Z eqn:E2; [reflexivity | apply Z.leb_gt in E2; lia].
Qed.

(** Every row that raises on the way to row [r0] raises the same error. *)
Lemma scan_raise (lim : option Z) (p : Z -> pyexc + option Extractor.link) (rows : list Z)
    (e : pyexc) (r0 : Z) :
  (forall r, p r = inr None \/ p r = inl e) -> In r0 rows -> p r0 = inl e ->
  Extractor.limit_hit lim [] = false ->
  Extractor.scan lim p rows [] = inl e.
Proof.
  intros Hp Hin Hr0 Hh. induction rows as [| r rs IH]; [destruct Hin |].
  simpl. rewrite Hh. destruct Hin as [<- | Hin]; [rewrite Hr0; reflexivity |].
  destruct (Hp r) as [E | E]; rewrite E; [exact (IH Hin) | reflexivity].
Qed.

Lemma ext_mem_str_In (x : pystr) (l : list pystr) :
  Extractor.mem_str x l = true <-> In x l.
Proof.
  unfold Extractor.mem_str. rewrite existsb_exists. split.
  - intros [y [Hy He]]. apply pystr_eqb_eq in He. subst. exact Hy.
  - intro H. exists x. split; [exact H | apply pystr_eqb_refl].
Qed.

End Scan.

(** C9 (amended): for a positive [limit], [extract_links] returns the first
    [limit] links of the unlimited scan, in row order, and raises exactly
    when the unlimited scan raises; [limit = 0] is no limit at all; a
    negative [limit] returns no link (once the link column is found). *)
Theorem extract_links_limit `{U : PyUnicode} (wb : Extractor.workbook) (n : Z) :
  (0 < n)%Z ->
  Extractor.extract_links wb (Some n) =
    match Extractor.extract_links wb None with
    | inl e => inl e
    | inr t => inr (firstn (Z.to_nat n) t)
    end /\
  Extractor.extract_links wb (Some 0%Z) = Extractor.extract_links wb None /\
  Extractor.extract_links wb (Some (- n)%Z) =
    match Extractor.find_link_column (Extractor.wb_active wb) with
    | None => inl (ValueError (py "Không tìm thấy cột Link trong file Excel"))
    | Some _ => inr []
    end.
Proof.
  intro Hn. unfold Extractor.extract_links.
  destruct (Extractor.find_link_column (Extractor.wb_active wb)) as [col |];
    [| repeat split; reflexivity].
  set (p := Extractor.process_row wb col (Extractor.get_file_year (Extractor.wb_stem wb))).
  split; [| split].
  - destruct (process_row_dichotomy wb col (Extractor.get_file_year (Extractor.wb_stem wb)))
      as [Hne | Hna].
    + apply scan_limit_noexc; [exact Hn | exact Hne | simpl; lia].
    + rewrite (scan_limit_noappend p (Some n)); [| intros m Hm; injection Hm as <-; lia | exact Hna].
      destruct (Extractor.scan None p _ []) as [e | t] eqn:E; [reflexivity |].
      apply (scan_noappend_nil p _ t Hna) in E. subst t. rewrite firstn_nil. reflexivity.
  - apply scan_limit_ext. intro ls. reflexivity.
  - apply scan_negative. lia.
Qed.

Lemma extract_links_limit_witness :
  (0 < 1)%Z /\
  (@Extractor.extract_links ascii_unicode Samples.wb_2023 (Some 1%Z) =
     match @Extractor.extract_links ascii_unicode Samples.wb_2023 None with
     | inl e => inl e
     | inr t => inr (firstn (Z.to_nat 1) t)
     end /\
   @Extractor.extract_links ascii_unicode Samples.wb_2023 (Some 0%Z) =
     @Extractor.extract_links ascii_unicode Samples.wb_2023 None /\
   @Extractor.extract_links ascii_unicode Samples.wb_2023 (Some (- 1)%Z) =
     match @Extractor.find_link_column ascii_unicode (Extractor.wb_active Samples.wb_2023) with
     | None => inl (ValueError (py "Không tìm thấy cột Link trong file Excel"))
     | Some _ => inr []
     end).
Proof.
  assert (H : (0 < 1)%Z) by lia.
  split; [exact H | exact (@extract_links_limit ascii_unicode Samples.wb_2023 1%Z H)].
Defined.

(** C9: with [limit = 0] the scan of a workbook with one external link
    returns that link, more than [limit] references. *)
Lemma extract_links_limit_zero_cex :
  match @Extractor.extract_links ascii_unicode Samples.wb_2023 (Some 0%Z) with
  | inr t => List.length t = 1%nat
  | inl _ => False
  end.
Proof. vm_compute. reflexivity. Qed.

(** C10: on a workbook whose file year is at most 2022 and not a key of
    [MASTER_LINK] (2020, 2021, 2022), a row of the link column whose
    hyperlink location names an existing sheet makes [extract_links] raise
    [KeyError(file_year)], whatever the rows before it, when [limit] is
    absent or non-negative. *)
Theorem extract_links_old_year_keyerror `{U : PyUnicode} (wb : Extractor.workbook)
    (limit : option Z) (col r : Z) (h : Extractor.hyperlink) (loc sn : pystr) :
  Extractor.find_link_column (Extractor.wb_active wb) = Some col ->
  (Extractor.get_file_year (Extractor.wb_stem wb) <= 2022)%Z ->
  ~ In (Extractor.get_file_year (Extractor.wb_stem wb)) [2020; 2021; 2022]%Z ->
  In r (Extractor.zrange 3 (Extractor.ws_max_row (Extractor.wb_active wb) + 1)) ->
  Extractor.c_hyperlink (Extractor.ws_cell (Extractor.wb_active wb) r col) = Some h ->
  Extractor.hl_location h = Some loc -> loc <> [] ->
  Extractor.parse_sheet_location loc = Some sn -> sn <> [] ->
  In sn (Extractor.wb_sheetnames wb) ->
  (forall n, limit = Some n -> (0 <= n)%Z) ->
  Extractor.extract_links wb limit = inl (KeyError (Extractor.get_file_year (Extractor.wb_stem wb))).
Proof.
  intros Hcol Hy Hnk Hr Hh Hloc Hlne Hsn Hsne Hmem Hlim.
  unfold Extractor.extract_links. rewrite Hcol.
  set (y := Extractor.get_file_year (Extractor.wb_stem wb)) in *.
  assert (Hml : Extractor.master_link y = inl (KeyError y)).
  { unfold Extractor.master_link.
    destruct (y =? 2020)%Z eqn:E0; [apply Z.eqb_eq in E0; exfalso; apply Hnk; left; auto |].
    destruct (y =? 2021)%Z eqn:E1; [apply Z.eqb_eq in E1; exfalso; apply Hnk; right; left; auto |].
    destruct (y =? 2022)%Z eqn:E2; [apply Z.eqb_eq in E2; exfalso; apply Hnk; right; right; left; auto |].
    reflexivity. }
  assert (E21 : (y =? 2021)%Z = false)
    by (apply Z.eqb_neq; intro E; apply Hnk; right; left; auto).
  assert (Hle : (y <=? 2022)%Z = true) by (apply Z.leb_le; exact Hy).
  apply (scan_raise limit _ _ (KeyError y) r).
  - intro r'. destruct (Extractor.process_row wb col y r') as [e | [l |]] eqn:E.
    + right. apply process_row_inl in E. destruct E as [_ [_ E]].
      rewrite Hml in E. congruence.
    + exfalso. apply process_row_inr_some in E. destruct E as [E | [E | [u E]]]; congruence.
    + left. reflexivity.
  - exact Hr.
  - unfold Extractor.process_row. rewrite Hh, Hloc. cbv zeta.
    assert (Ho : Extractor.opt_truthy (Some loc) = true) by (destruct loc; [congruence | reflexivity]).
    assert (Hos : Extractor.opt_truthy (Some sn) = true) by (destruct sn; [congruence | reflexivity]).
    rewrite Hle, Ho. cbn [andb option_map]. rewrite Hsn, Hos, (proj2 (ext_mem_str_In sn _) Hmem).
    cbn [andb]. rewrite E21. cbn [negb]. rewrite Hml. reflexivity.
  - unfold Extractor.limit_hit. destruct limit as [n |]; [| reflexivity].
    specialize (Hlim n eq_refl). destruct (n =? 0)%Z eqn:E; [reflexivity |].
    apply Z.eqb_neq in E. simpl. apply Z.leb_gt. lia.
Qed.

Lemma extract_links_old_year_keyerror_witness :
  @Extractor.find_link_column ascii_unicode (Extractor.wb_active Samples.wb_2019) = Some 1%Z /\
  (@Extractor.get_file_year ascii_unicode (Extractor.wb_stem Samples.wb_2019) <= 2022)%Z /\
  @Extractor.get_file_year ascii_unicode (Extractor.wb_stem Samples.wb_2019) = 2019%Z /\
  @Extractor.extract_links ascii_unicode Samples.wb_2019 None = inl (KeyError 2019).
Proof.
  assert (Hcol : @Extractor.find_link_column ascii_unicode (Extractor.wb_active Samples.wb_2019)
                 = Some 1%Z) by (vm_compute; reflexivity).
  assert (Hy : @Extractor.get_file_year ascii_unicode (Extractor.wb_stem Samples.wb_2019) = 2019%Z)
    by (vm_compute; reflexivity).
  split; [exact Hcol |]. split; [rewrite Hy; lia |]. split; [exact Hy |].
  rewrite <- Hy.
  apply (@extract_links_old_year_keyerror ascii_unicode Samples.wb_2019 None 1%Z 3%Z
           {| Extractor.hl_location := Some (py "'Sheet1'!A1"); Extractor.hl_target := None |}
           (py "'Sheet1'!A1") (py "Sheet1")).
  - exact Hcol.
  - rewrite Hy. lia.
  - rewrite Hy. simpl. intuition discriminate.
  - vm_compute. left. reflexivity.
  - reflexivity.
  - reflexivity.
  - discriminate.
  - vm_compute. reflexivity.
  - discriminate.
  - left. reflexivity.
  - intros n Hn. discriminate Hn.
Defined.

(* ================================================================== *)
(** * Further properties of the code *)

(** ** Downloader *)

Lemma prefixb_app_self (p t : pystr) : prefixb p (p ++ t) = true.
Proof. induction p as [| a p IH]; simpl; [reflexivity | rewrite N.eqb_refl; exact IH]. Qed.

Lemma contains_app_r (p x t : pystr) : contains p t = true -> contains p (x ++ t) = true.
Proof.
  induction x as [| c x IH]; intro H; simpl; [exact H |].
  rewrite (IH H). destruct (prefixb p (c :: x ++ t)); reflexivity.
Qed.

Lemma contains_prefix (p t : pystr) : contains p (p ++ t) = true.
Proof.
  destruct p as [| a p]; [destruct t; reflexivity |].
  simpl. rewrite N.eqb_refl, prefixb_app_self. reflexivity.
Qed.

Lemma search_group_skip (p x t : pystr) :
  (forall x1 x2, x = x1 ++ x2 -> x2 <> [] -> prefixb p (x2 ++ t) = false) ->
  Downloader.search_group p (x ++ t) = Downloader.search_group p t.
Proof.
  induction x as [| c x IH]; intro H; [reflexivity |].
  cbn [app Downloader.search_group]. unfold Downloader.match_at.
  pose proof (H [] (c :: x) eq_refl ltac:(discriminate)) as Hc. cbn [app] in Hc. rewrite Hc.
  apply IH. intros x1 x2 E Hx2. apply (H (c :: x1) x2); [rewrite E; reflexivity | exact Hx2].
Qed.

Lemma contains_skip (p x t : pystr) :
  (forall x1 x2, x = x1 ++ x2 -> x2 <> [] -> prefixb p (x2 ++ t) = false) ->
  contains p (x ++ t) = contains p t.
Proof.
  induction x as [| c x IH]; intro H; [reflexivity |].
  cbn [app]. simpl contains at 1.
  pose proof (H [] (c :: x) eq_refl ltac:(discriminate)) as Hc. cbn [app] in Hc. rewrite Hc. simpl.
  apply IH. intros x1 x2 E Hx2. apply (H (c :: x1) x2); [rewrite E; reflexivity | exact Hx2].
Qed.

(** No pattern starting with a slash starts inside a run of ID characters. *)
Lemma nohit_ids (p' id t : pystr) :
  Forall (fun c => Downloader.id_char c = true) id ->
  forall x1 x2, id = x1 ++ x2 -> x2 <> [] -> prefixb (47%N :: p') (x2 ++ t) = false.
Proof.
  intros Hid x1 x2 E Hx2. destruct x2 as [| c x2]; [congruence |].
  assert (Hc : Downloader.id_char c = true).
  { rewrite Forall_forall in Hid. apply Hid. rewrite E. apply in_or_app. right. left. reflexivity. }
  cbn [prefixb app]. destruct (N.eqb 47 c) eqn:E47; [| reflexivity].
  apply N.eqb_eq in E47. subst c. discriminate Hc.
Qed.

Lemma straddle_sound (p id t : pystr) :
  Forall (fun c => Downloader.id_char c = true) id ->
  prefixb p (id ++ t) = true -> straddle p t = true.
Proof.
  intro Hid. revert p. induction Hid as [| c id Hc _ IH]; intros p H.
  - destruct p; simpl in *; [reflexivity | rewrite H; reflexivity].
  - destruct p as [| a p]; [reflexivity |].
    simpl in H. apply andb_true_iff in H. destruct H as [Ha H]. apply N.eqb_eq in Ha. subst a.
    simpl. rewrite Hc, (IH p H). apply orb_true_r.
Qed.

Lemma cmp_sound (p s id t : pystr) :
  Forall (fun c => Downloader.id_char c = true) id ->
  prefixb p (s ++ id ++ t) = true -> cmp p s t = true.
Proof.
  intro Hid. revert p. induction s as [| c s IH]; intros p H.
  - destruct p; [reflexivity |]. exact (straddle_sound _ _ _ Hid H).
  - destruct p as [| a p]; [reflexivity |].
    simpl in H. apply andb_true_iff in H. destruct H as [Ha H].
    simpl. rewrite Ha. exact (IH p H).
Qed.

Lemma check_nohit_sound (p a c id t : pystr) :
  Forall (fun c => Downloader.id_char c = true) id ->
  check_nohit p a c t = true ->
  forall x1 x2, a = x1 ++ x2 -> x2 <> [] -> prefixb p (x2 ++ c ++ id ++ t) = false.
Proof.
  intros Hid. induction a as [| h a IH]; intros Hc x1 x2 E Hx2.
  - destruct x1, x2; simpl in E; congruence.
  - simpl in Hc. apply andb_true_iff in Hc. destruct Hc as [Hn Hc].
    destruct x1 as [| h' x1].
    + simpl in E. subst x2.
      destruct (prefixb p ((h :: a) ++ c ++ id ++ t)) eqn:Ep; [| reflexivity].
      rewrite app_assoc in Ep. apply (cmp_sound _ _ _ _ Hid) in Ep.
      simpl in Ep, Hn. rewrite Ep in Hn. discriminate.
    + injection E as _ E. exact (IH Hc x1 x2 E Hx2).
Qed.

Lemma search_group_concrete (p a c id t : pystr) :
  Forall (fun c => Downloader.id_char c = true) id -> check_nohit p a c t = true ->
  Downloader.search_group p (a ++ c ++ id ++ t) = Downloader.search_group p (c ++ id ++ t).
Proof. intros Hid Hc. apply search_group_skip. exact (check_nohit_sound _ _ _ _ _ Hid Hc). Qed.

Lemma contains_concrete (p a c id t : pystr) :
  Forall (fun c => Downloader.id_char c = true) id -> check_nohit p a c t = true ->
  contains p (a ++ c ++ id ++ t) = contains p (c ++ id ++ t).
Proof. intros Hid Hc. apply contains_skip. exact (check_nohit_sound _ _ _ _ _ Hid Hc). Qed.

Lemma search_group_concrete0 (p a id t : pystr) :
  Forall (fun c => Downloader.id_char c = true) id -> check_nohit p a [] t = true ->
  Downloader.search_group p (a ++ id ++ t) = Downloader.search_group p (id ++ t).
Proof. exact (search_group_concrete p a [] id t). Qed.

Lemma contains_concrete0 (p a id t : pystr) :
  Forall (fun c => Downloader.id_char c = true) id -> check_nohit p a [] t = true ->
  contains p (a ++ id ++ t) = contains p (id ++ t).
Proof. exact (contains_concrete p a [] id t). Qed.

Lemma search_group_ids (p' id t : pystr) :
  Forall (fun c => Downloader.id_char c = true) id ->
  Downloader.search_group (47%N :: p') (id ++ t) = Downloader.search_group (47%N :: p') t.
Proof. intro Hid. apply search_group_skip. exact (nohit_ids p' id t Hid). Qed.

Lemma contains_ids (p' id t : pystr) :
  Forall (fun c => Downloader.id_char c = true) id ->
  contains (47%N :: p') (id ++ t) = contains (47%N :: p') t.
Proof. intro Hid. apply contains_skip. exact (nohit_ids p' id t Hid). Qed.

Lemma skipn_length_app {A} (p t : list A) : skipn (List.length p) (p ++ t) = t.
Proof. induction p; simpl; auto. Qed.

Lemma search_group_here (p id t : pystr) :
  p <> [] -> Forall (fun c => Downloader.id_char c = true) id -> id <> [] ->
  fst (span_by Downloader.id_char t) = [] ->
  Downloader.search_group p (p ++ id ++ t) = Some id.
Proof.
  intros Hp Hid Hne Ht. destruct p as [| a p']; [congruence |].
  pose proof (prefixb_app_self (a :: p') (id ++ t)) as H1.
  pose proof (skipn_length_app (a :: p') (id ++ t)) as H2.
  cbn [app] in H1, H2.
  cbn [app Downloader.search_group]. unfold Downloader.match_at.
  rewrite H1, H2.
  rewrite span_by_app by exact Hid. cbn [fst]. rewrite Ht, app_nil_r.
  destruct id; [congruence | reflexivity].
Qed.

Lemma search_group_contains (p s g : pystr) :
  Downloader.search_group p s = Some g -> contains p s = true.
Proof.
  induction s as [| c s IH]; simpl; [discriminate |].
  unfold Downloader.match_at. destruct (prefixb p (c :: s)); [reflexivity |].
  intro H. rewrite (IH H). apply orb_true_r.
Qed.

Lemma search_group_shape (p s g : pystr) :
  Downloader.search_group p s = Some g ->
  g <> [] /\ Forall (fun c => Downloader.id_char c = true) g.
Proof.
  induction s as [| c s IH]; simpl; [discriminate |].
  unfold Downloader.match_at. destruct (prefixb p (c :: s)); [| exact IH].
  destruct (span_by_spec Downloader.id_char (skipn (List.length p) (c :: s))) as [_ Hf].
  destruct (fst (span_by Downloader.id_char (skipn (List.length p) (c :: s)))) as [| x l] eqn:E.
  - exact IH.
  - intro H. injection H as <-. split; [discriminate | exact Hf].
Qed.

Lemma first_group_shape (s g : pystr) (l : list pystr) :
  Downloader.first_group l s = Some g ->
  g <> [] /\ Forall (fun c => Downloader.id_char c = true) g /\ exists p, In p l /\ contains p s = true.
Proof.
  induction l as [| p l IH]; simpl; [discriminate |].
  destruct (Downloader.search_group p s) as [g' |] eqn:E.
  - intro H. injection H as <-. destruct (search_group_shape _ _ _ E) as [H1 H2].
    split; [exact H1 | split; [exact H2 |]]. exists p. split; [left; reflexivity |].
    exact (search_group_contains _ _ _ E).
  - intro H. destruct (IH H) as [H1 [H2 [q [Hq Hc]]]].
    split; [exact H1 | split; [exact H2 | exists q; split; [right; exact Hq | exact Hc]]].
Qed.

Lemma span_export_tail (t : pystr) :
  fst (span_by Downloader.id_char (47%N :: t)) = [].
Proof. reflexivity. Qed.

(** The export URL built for a file ID carries that ID back and names its type. *)
Lemma build_export_url_id (file_id file_type : pystr) :
  Forall (fun c => Downloader.id_char c = true) file_id -> file_id <> [] ->
  Downloader.extract_google_id (fst (Downloader._build_export_url file_id file_type)) = Some file_id /\
  Downloader.detect_google_type (fst (Downloader._build_export_url file_id file_type)) =
    (if pystr_eqb file_type (py "spreadsheet") then py "spreadsheet" else py "document").
Proof.
  intros Hid Hne. unfold Downloader._build_export_url.
  destruct (pystr_eqb file_type (py "spreadsheet")); cbn [fst].
  - replace (py "https://docs.google.com/spreadsheets/d/")
      with (py "https://docs.google.com" ++ py "/spreadsheets/d/") by reflexivity.
    rewrite <- app_assoc.
    unfold Downloader.extract_google_id, Downloader.first_group, Downloader.detect_google_type.
    assert (E1 : Downloader.search_group (py "/document/d/")
                   ((py "https://docs.google.com" ++ py "/spreadsheets/d/") ++ file_id ++ py "/export?format=xlsx")
                 = None).
    { rewrite (search_group_concrete0 _ _ _ _ Hid) by (vm_compute; reflexivity).
      change (py "/document/d/") with (47%N :: tl (py "/document/d/")). cbn [app].
      rewrite (search_group_ids _ _ _ Hid). vm_compute. reflexivity. }
    rewrite <- app_assoc in E1. rewrite E1.
    rewrite (search_group_concrete _ _ _ _ _ Hid) by (vm_compute; reflexivity).
    rewrite search_group_here; [| discriminate | exact Hid | exact Hne | reflexivity].
    split; [reflexivity |].
    assert (E2 : contains (py "/document/d/")
                   (py "https://docs.google.com" ++ py "/spreadsheets/d/" ++ file_id ++ py "/export?format=xlsx")
                 = false).
    { rewrite app_assoc.
      rewrite (contains_concrete0 _ _ _ _ Hid) by (vm_compute; reflexivity).
      change (py "/document/d/") with (47%N :: tl (py "/document/d/")). cbn [app].
      rewrite (contains_ids _ _ _ Hid). vm_compute. reflexivity. }
    rewrite E2, contains_app_r by apply contains_prefix. reflexivity.
  - replace (py "https://docs.google.com/document/d/")
      with (py "https://docs.google.com" ++ py "/document/d/") by reflexivity.
    rewrite <- app_assoc.
    unfold Downloader.extract_google_id, Downloader.first_group, Downloader.detect_google_type.
    rewrite (search_group_concrete _ _ _ _ _ Hid) by (vm_compute; reflexivity).
    rewrite search_group_here; [| discriminate | exact Hid | exact Hne | reflexivity].
    split; [reflexivity |].
    rewrite contains_app_r by apply contains_prefix. reflexivity.
Qed.

Lemma lstrip_suffix (s : pystr) : exists pre, s = pre ++ lstrip s.
Proof.
  induction s as [| c r IH]; simpl; [exists []; reflexivity |].
  destruct (is_space c); [destruct IH as [pre E]; exists (c :: pre); rewrite E at 1; reflexivity |].
  exists []. reflexivity.
Qed.

Lemma strip_infix (s : pystr) : exists a b, s = a ++ strip s ++ b.
Proof.
  destruct (lstrip_suffix s) as [a Ea].
  destruct (lstrip_suffix (rev (lstrip s))) as [b Eb].
  exists a, (rev b). unfold strip, rstrip.
  rewrite Ea at 1. f_equal.
  rewrite <- (rev_involutive (lstrip s)) at 1. rewrite Eb at 1.
  rewrite rev_app_distr. reflexivity.
Qed.

Lemma Forall_strip (P : N -> Prop) (s : pystr) : Forall P s -> Forall P (strip s).
Proof.
  intro H. destruct (strip_infix s) as [a [b E]]. rewrite E in H.
  apply Forall_app in H. destruct H as [_ H]. apply Forall_app in H. tauto.
Qed.

Lemma length_strip (s : pystr) : (List.length (strip s) <= List.length s)%nat.
Proof.
  destruct (strip_infix s) as [a [b E]]. rewrite E at 2. rewrite !length_app. lia.
Qed.

Lemma Forall_firstn_N (P : N -> Prop) (n : nat) (s : pystr) : Forall P s -> Forall P (firstn n s).
Proof.
  intro H. rewrite <- (firstn_skipn n s) in H. apply Forall_app in H. tauto.
Qed.

(** X1: the export URL requested by [_download_public] names the same file ID
    as the URL it was given, and the export format follows the detected type. *)
Theorem public_export_roundtrip (url export_url ext : pystr) :
  Downloader.public_export url = Some (export_url, ext) ->
  Downloader.extract_google_id export_url = Downloader.extract_google_id url /\
  ((Downloader.detect_google_type url = py "spreadsheet" /\ ext = py "xlsx" /\
    Downloader.detect_google_type export_url = py "spreadsheet") \/
   (Downloader.detect_google_type url <> py "spreadsheet" /\ ext = py "docx" /\
    Downloader.detect_google_type export_url = py "document")).
Proof.
  unfold Downloader.public_export.
  destruct (Downloader.extract_google_id url) as [[| c g] |] eqn:Eid; try discriminate.
  destruct (first_group_shape _ _ _ Eid) as [_ [Hid _]].
  intro H. injection H as Hb.
  destruct (build_export_url_id (c :: g) (Downloader.detect_google_type url) Hid ltac:(discriminate))
    as [E1 E2].
  revert E1 E2. unfold Downloader._build_export_url in *.
  destruct (pystr_eqb (Downloader.detect_google_type url) (py "spreadsheet")) eqn:Et;
    injection Hb as <- <-; cbn [fst]; intros E1 E2; split; try exact E1.
  - left. apply pystr_eqb_eq in Et. auto.
  - right. split; [intro E; rewrite E in Et; rewrite pystr_eqb_refl in Et; discriminate | auto].
Qed.

Lemma public_export_roundtrip_witness :
  Downloader.public_export (py "https://docs.google.com/spreadsheets/d/AB_c/edit") =
    Some (py "https://docs.google.com/spreadsheets/d/AB_c/export?format=xlsx", py "xlsx") /\
  Downloader.extract_google_id (py "https://docs.google.com/spreadsheets/d/AB_c/export?format=xlsx") =
    Downloader.extract_google_id (py "https://docs.google.com/spreadsheets/d/AB_c/edit").
Proof.
  assert (H : Downloader.public_export (py "https://docs.google.com/spreadsheets/d/AB_c/edit") =
    Some (py "https://docs.google.com/spreadsheets/d/AB_c/export?format=xlsx", py "xlsx"))
    by (vm_compute; reflexivity).
  split; [exact H | exact (proj1 (public_export_roundtrip _ _ _ H))].
Defined.

(** X2: a file ID found by [extract_google_id] is a non-empty run of
    [[a-zA-Z0-9_-]], and the URL is then not of type [unknown]. *)
Theorem extract_google_id_shape (url file_id : pystr) :
  Downloader.extract_google_id url = Some file_id ->
  file_id <> [] /\ Forall (fun c => Downloader.id_char c = true) file_id /\
  Downloader.detect_google_type url <> py "unknown".
Proof.
  intro H. destruct (first_group_shape _ _ _ H) as [H1 [H2 [p [Hp Hc]]]].
  split; [exact H1 | split; [exact H2 |]].
  unfold Downloader.detect_google_type.
  destruct Hp as [<- | [<- | [<- | []]]]; rewrite Hc;
    repeat match goal with |- context [if ?b then _ else _] => destruct b end;
    vm_compute; discriminate.
Qed.

Lemma extract_google_id_shape_witness :
  Downloader.extract_google_id (py "https://docs.google.com/document/d/1wRv_7-x/edit") =
    Some (py "1wRv_7-x") /\ py "1wRv_7-x" <> [].
Proof.
  assert (H : Downloader.extract_google_id (py "https://docs.google.com/document/d/1wRv_7-x/edit") =
    Some (py "1wRv_7-x")) by (vm_compute; reflexivity).
  split; [exact H | exact (proj1 (extract_google_id_shape _ _ H))].
Defined.

(** X3: [sanitize_filename] never returns one of the characters it replaces. *)
Theorem sanitize_filename_no_invalid (filename : pystr) (max_length : Z) :
  Forall (fun c => Downloader.invalid_char c = false)
         (Downloader.sanitize_filename filename max_length).
Proof.
  unfold Downloader.sanitize_filename. apply Forall_strip.
  assert (Hm : Forall (fun c => Downloader.invalid_char c = false)
                 (map (fun c => if Downloader.invalid_char c then 95%N else c) filename)).
  { apply Forall_forall. intros x Hx. apply in_map_iff in Hx. destruct Hx as [c [<- _]].
    destruct (Downloader.invalid_char c) eqn:E; [reflexivity | exact E]. }
  destruct (_ <? _)%Z; [| exact Hm].
  apply Forall_app. split.
  - unfold Downloader.py_slice_to. destruct (0 <=? _)%Z; apply Forall_firstn_N; exact Hm.
  - repeat constructor.
Qed.

(** X4: for [max_length >= 5], the name [sanitize_filename] returns has at
    most [max_length] characters. *)
Theorem sanitize_filename_length (filename : pystr) (max_length : Z) :
  (5 <= max_length)%Z ->
  (Z.of_nat (List.length (Downloader.sanitize_filename filename max_length)) <= max_length)%Z.
Proof.
  intro H5. unfold Downloader.sanitize_filename.
  set (clean := map _ filename).
  destruct (max_length <? Z.of_nat (List.length clean))%Z eqn:E.
  - pose proof (length_strip (Downloader.py_slice_to clean (max_length - 5) ++ py ".docx")) as Hs.
    unfold Downloader.py_slice_to in *.
    replace (0 <=? max_length - 5)%Z with true in * by (symmetry; apply Z.leb_le; lia).
    rewrite length_app, length_firstn in Hs. change (List.length (py ".docx")) with 5%nat in Hs. lia.
  - apply Z.ltb_ge in E. pose proof (length_strip clean). lia.
Qed.

Lemma sanitize_filename_length_witness :
  (5 <= 7)%Z /\
  (Z.of_nat (List.length (Downloader.sanitize_filename (py "abcdefghij") 7)) <= 7)%Z.
Proof. split; [lia | apply sanitize_filename_length; lia]. Defined.

(** X5: a name with none of the replaced characters and at most
    [max_length] characters is only stripped. *)
Theorem sanitize_filename_clean (filename : pystr) (max_length : Z) :
  Forall (fun c => Downloader.invalid_char c = false) filename ->
  (Z.of_nat (List.length filename) <= max_length)%Z ->
  Downloader.sanitize_filename filename max_length = strip filename.
Proof.
  intros Hf Hl. unfold Downloader.sanitize_filename.
  assert (Hm : map (fun c => if Downloader.invalid_char c then 95%N else c) filename = filename).
  { rewrite <- map_id. apply map_ext_in. intros c Hc. rewrite Forall_forall in Hf.
    rewrite (Hf c Hc). reflexivity. }
  rewrite Hm. replace (max_length <? Z.of_nat (List.length filename))%Z with false
    by (symmetry; apply Z.ltb_ge; lia).
  reflexivity.
Qed.

Lemma sanitize_filename_clean_witness :
  Forall (fun c => Downloader.invalid_char c = false) (py " Hien mau.docx") /\
  (Z.of_nat (List.length (py " Hien mau.docx")) <= 100)%Z /\
  Downloader.sanitize_filename (py " Hien mau.docx") 100 = strip (py " Hien mau.docx").
Proof.
  assert (H1 : Forall (fun c => Downloader.invalid_char c = false) (py " Hien mau.docx"))
    by (repeat constructor).
  assert (H2 : (Z.of_nat (List.length (py " Hien mau.docx")) <= 100)%Z) by (vm_compute; discriminate).
  split; [exact H1 | split; [exact H2 | exact (sanitize_filename_clean _ _ H1 H2)]].
Defined.

Lemma split_char_nonnil (sep : N) (s : pystr) : Downloader.split_char sep s <> [].
Proof.
  destruct s as [| c r]; simpl; [discriminate |].
  destruct (N.eqb c sep); [discriminate |]. destruct (Downloader.split_char sep r); discriminate.
Qed.

Lemma split_char_join (sep : N) (s : pystr) : join [sep] (Downloader.split_char sep s) = s.
Proof.
  induction s as [| c r IH]; [reflexivity |]. cbn [Downloader.split_char].
  destruct (N.eqb c sep) eqn:E.
  - apply N.eqb_eq in E. subst c.
    destruct (Downloader.split_char sep r) as [| w ws] eqn:Es; [exfalso; exact (split_char_nonnil _ _ Es) |].
    cbn [join]. rewrite <- IH. reflexivity.
  - destruct (Downloader.split_char sep r) as [| w ws] eqn:Es; [exfalso; exact (split_char_nonnil _ _ Es) |].
    rewrite <- IH. destruct ws; reflexivity.
Qed.

Lemma split_char_nosep (sep : N) (s : pystr) :
  Forall (fun w => ~ In sep w) (Downloader.split_char sep s).
Proof.
  induction s as [| c r IH]; [repeat constructor; intros [] |]. cbn [Downloader.split_char].
  destruct (N.eqb c sep) eqn:E; [constructor; [intros [] | exact IH] |].
  destruct (Downloader.split_char sep r) as [| w ws] eqn:Es; [constructor; [| constructor] |].
  - intros [H | []]. subst. rewrite N.eqb_refl in E. discriminate.
  - inversion IH as [| ? ? Hw Hws]; subst. constructor; [| exact Hws].
    intros [H | H]; [subst; rewrite N.eqb_refl in E; discriminate | exact (Hw H)].
Qed.

Lemma join_snoc (sep : pystr) (ws : list pystr) (w : pystr) :
  ws <> [] -> join sep (ws ++ [w]) = join sep ws ++ sep ++ w.
Proof.
  induction ws as [| x ws IH]; intro H; [congruence |].
  destruct ws as [| y ws]; [reflexivity |].
  specialize (IH ltac:(discriminate)). cbn [app] in IH |- *.
  change (join sep (x :: y :: ws ++ [w])) with (x ++ sep ++ join sep (y :: ws ++ [w])).
  rewrite IH. cbn [join]. rewrite <- !app_assoc. reflexivity.
Qed.

Lemma contains_single (c : N) (s : pystr) : contains [c] s = true <-> In c s.
Proof.
  induction s as [| x s IH]; simpl; [split; [discriminate | intros []] |].
  rewrite andb_true_r, orb_true_iff, IH, N.eqb_eq. split; intros [H | H]; auto.
Qed.

(** X6: the extension [_detect_extension] returns never contains a dot; when
    the file name has one, the extension is what follows its last dot. *)
Theorem detect_extension_suffix (mime_type filename : pystr) :
  ~ In 46%N (Downloader._detect_extension mime_type filename) /\
  (In 46%N filename ->
   exists pre, filename = pre ++ 46%N :: Downloader._detect_extension mime_type filename).
Proof.
  unfold Downloader._detect_extension.
  change (py ".") with [46%N].
  destruct (contains [46%N] filename) eqn:Ed.
  - pose proof (split_char_join 46 filename) as Hj.
    pose proof (split_char_nosep 46 filename) as Hn.
    destruct (exists_last (split_char_nonnil 46 filename)) as [ws [w Ew]].
    rewrite Ew in Hj, Hn |- *. rewrite last_last.
    apply Forall_app in Hn. destruct Hn as [_ Hn]. apply Forall_inv in Hn. rename Hn into Hw.
    split; [exact Hw |]. intros _.
    destruct ws as [| w0 ws].
    + exfalso. apply contains_single in Ed. cbn [app join] in Hj. rewrite Hj in Hw. exact (Hw Ed).
    + rewrite join_snoc in Hj by discriminate. exists (join [46%N] (w0 :: ws)).
      rewrite <- Hj at 1. reflexivity.
  - split.
    + repeat match goal with |- context [if ?b then _ else _] => destruct b end;
        vm_compute; intuition discriminate.
    + intro H. apply contains_single in H. congruence.
Qed.

Section ExtraScan.
Context {U : PyUnicode}.

Lemma scan_Forall (P : Extractor.link -> Prop) (lim : option Z)
    (p : Z -> pyexc + option Extractor.link) (rows : list Z) (links t : list Extractor.link) :
  (forall r l, p r = inr (Some l) -> P l) -> Forall P links ->
  Extractor.scan lim p rows links = inr t -> Forall P t.
Proof.
  intros Hp. revert links. induction rows as [| r rs IH]; intros links Hl; simpl.
  - intro H. injection H as <-. exact Hl.
  - destruct (Extractor.limit_hit lim links); [intro H; injection H as <-; exact Hl |].
    destruct (p r) as [e | [l |]] eqn:E; [discriminate | | exact (IH links Hl)].
    apply IH. apply Forall_app. split; [exact Hl | constructor; [exact (Hp r l E) | constructor]].
Qed.

(** An external link comes from a new file and carries a non-empty URL. *)
Lemma process_row_external (wb : Extractor.workbook) (col y r : Z) (l : Extractor.link) :
  Extractor.process_row wb col y r = inr (Some l) ->
  Extractor.l_link_type l = Extractor.External ->
  (2022 < y)%Z /\ Extractor.opt_truthy (Extractor.l_url l) = true.
Proof.
  unfold Extractor.process_row. cbv zeta. intro H.
  destruct_matches_in H; try discriminate;
    try (injection H as <-; cbn [Extractor.l_link_type Extractor.l_url]; intro Ht; try discriminate Ht);
    repeat match goal with
           | E : (_ && _)%bool = true |- _ => apply andb_true_iff in E; destruct E
           | E : negb _ = true |- _ => apply negb_true_iff in E
           end;
    split; try assumption; apply Z.leb_gt; assumption.
Qed.

End ExtraScan.

(** X7: when [extract_hyperlinks] does not raise, every pair it returns has a
    non-empty URL, and a file whose year is at most 2022 gives no pair. *)
Theorem extract_hyperlinks_external `{U : PyUnicode} (wb : Extractor.workbook) (limit : option Z)
    (pairs : list (pystr * option pystr)) :
  Extractor.extract_hyperlinks wb limit = inr pairs ->
  Forall (fun du => Extractor.opt_truthy (snd du) = true) pairs /\
  ((Extractor.get_file_year (Extractor.wb_stem wb) <= 2022)%Z -> pairs = []).
Proof.
  unfold Extractor.extract_hyperlinks, Extractor.extract_links.
  destruct (Extractor.find_link_column (Extractor.wb_active wb)) as [col |]; [| discriminate].
  set (y := Extractor.get_file_year (Extractor.wb_stem wb)).
  destruct (Extractor.scan _ _ _ []) as [e | links] eqn:Es; [discriminate |].
  intro H. injection H as <-.
  pose proof (scan_Forall (fun l => Extractor.l_link_type l = Extractor.External ->
                 (2022 < y)%Z /\ Extractor.opt_truthy (Extractor.l_url l) = true)
               _ _ _ _ _ (fun r l Hr => process_row_external wb col y r l Hr) (Forall_nil _) Es) as Hf.
  rewrite Forall_forall in Hf. split.
  - apply Forall_forall. intros du Hdu. apply in_map_iff in Hdu. destruct Hdu as [l [<- Hl]].
    apply filter_In in Hl. destruct Hl as [Hl Ht]. cbn [snd].
    destruct (Extractor.l_link_type l) eqn:El; [discriminate |]. exact (proj2 (Hf l Hl El)).
  - intro Hy. destruct (filter _ links) as [| l rest] eqn:Ef; [reflexivity | exfalso].
    assert (Hl : In l (filter (fun l => match Extractor.l_link_type l with
                                          | Extractor.External => true | Extractor.Internal => false end) links))
      by (rewrite Ef; left; reflexivity).
    apply filter_In in Hl. destruct Hl as [Hl Ht].
    destruct (Extractor.l_link_type l) eqn:El; [discriminate |]. destruct (Hf l Hl El). lia.
Qed.

Lemma extract_hyperlinks_external_witness :
  Extractor.extract_hyperlinks (U := ascii_unicode) Samples.wb_2023 None =
    inr [(py "Hiến máu", Some (py "https://docs.google.com/document/d/1"))] /\
  Forall (fun du => Extractor.opt_truthy (snd du) = true)
    [(py "Hiến máu", Some (py "https://docs.google.com/document/d/1"))].
Proof.
  assert (H : Extractor.extract_hyperlinks (U := ascii_unicode) Samples.wb_2023 None =
    inr [(py "Hiến máu", Some (py "https://docs.google.com/document/d/1"))]) by (vm_compute; reflexivity).
  split; [exact H | exact (proj1 (extract_hyperlinks_external _ _ _ H))].
Defined.

Section Loc.
Context {U : PyUnicode}.

Lemma match_quoted_run (acc name rest : pystr) :
  ~ In 39%N name -> ~ In 10%N name -> (acc <> [] \/ name <> []) ->
  Extractor.match_quoted acc (name ++ 39%N :: 33%N :: rest) = Some (rev acc ++ name).
Proof.
  revert acc. induction name as [| c name IH]; intros acc H39 H10 Hne.
  - destruct acc as [| a acc]; [destruct Hne; congruence |].
    cbn [app Extractor.match_quoted]. rewrite app_nil_r. reflexivity.
  - cbn [app Extractor.match_quoted].
    assert (Hc39 : N.eqb 39 c = false) by (apply N.eqb_neq; intro E; apply H39; left; congruence).
    assert (Hc10 : N.eqb c 10 = false) by (apply N.eqb_neq; intro E; apply H10; left; congruence).
    replace (match acc with [] => false | _ :: _ => prefixb (py "'!") (c :: name ++ 39%N :: 33%N :: rest) end)
      with false by (destruct acc; [reflexivity |]; change (py "'!") with [39%N; 33%N];
                    cbn [prefixb]; rewrite Hc39; reflexivity).
    rewrite Hc10, IH.
    + cbn [rev]. rewrite <- app_assoc. reflexivity.
    + intro H; apply H39; right; exact H.
    + intro H; apply H10; right; exact H.
    + left. discriminate.
Qed.

Lemma cell_ref_tail_head (c : N) (r : pystr) :
  Extractor.cell_ref_tail (c :: r) = true -> c = 33%N.
Proof.
  intro H. destruct (N.eq_dec c 33) as [E | E]; [exact E | exfalso].
  unfold Extractor.cell_ref_tail in H. destruct c as [| p]; [discriminate H |].
  repeat (destruct p as [p | p |]; try discriminate H; try (apply E; reflexivity)).
Qed.

Lemma drop_dollar_other (c : N) (r : pystr) :
  c <> 36%N -> Extractor.drop_dollar (c :: r) = c :: r.
Proof.
  intro E. unfold Extractor.drop_dollar. destruct c as [| p]; [reflexivity |].
  repeat (destruct p as [p | p |]; try reflexivity; try (exfalso; apply E; reflexivity)).
Qed.

Lemma match_unquoted_run (acc name tail : pystr) :
  ~ In 33%N name -> ~ In 10%N name -> (acc <> [] \/ name <> []) ->
  Extractor.cell_ref_tail tail = true -> (exists t, tail = 33%N :: t) ->
  Extractor.match_unquoted acc (name ++ tail) = Some (rev acc ++ name).
Proof.
  intros H33 H10 Hne Ht [t Et]. subst tail. revert acc Hne.
  induction name as [| c name IH]; intros acc Hne.
  - destruct acc as [| a acc]; [destruct Hne; congruence |].
    cbn [app Extractor.match_unquoted]. rewrite Ht, app_nil_r. reflexivity.
  - cbn [app Extractor.match_unquoted].
    assert (Hc10 : N.eqb c 10 = false) by (apply N.eqb_neq; intro E; apply H10; left; congruence).
    assert (Hc33 : c <> 33%N) by (intro E; apply H33; left; congruence).
    replace (match acc with [] => false | _ :: _ => Extractor.cell_ref_tail (c :: name ++ 33%N :: t) end)
      with false.
    2:{ destruct acc; [reflexivity |]. symmetry.
        destruct (Extractor.cell_ref_tail (c :: name ++ 33%N :: t)) eqn:E; [| reflexivity].
        exfalso. exact (Hc33 (cell_ref_tail_head _ _ E)). }
    rewrite Hc10, IH.
    + cbn [rev]. rewrite <- app_assoc. reflexivity.
    + intro H; apply H33; right; exact H.
    + intro H; apply H10; right; exact H.
    + left. discriminate.
Qed.

End Loc.

(** X8: an internal link location ['Name'!ref], where [Name] is non-empty
    and has no quote and no line break, yields the sheet name [Name]. *)
Theorem parse_sheet_location_quoted `{U : PyUnicode} (sheet rest : pystr) :
  sheet <> [] -> ~ In 39%N sheet -> ~ In 10%N sheet ->
  Extractor.parse_sheet_location (39%N :: sheet ++ 39%N :: 33%N :: rest) = Some sheet.
Proof.
  intros Hne H39 H10. unfold Extractor.parse_sheet_location.
  rewrite (match_quoted_run [] sheet rest H39 H10 (or_intror Hne)). reflexivity.
Qed.

Lemma parse_sheet_location_quoted_witness :
  py "Sheet 1" <> [] /\ ~ In 39%N (py "Sheet 1") /\ ~ In 10%N (py "Sheet 1") /\
  Extractor.parse_sheet_location (U := ascii_unicode) (py "'Sheet 1'!A1") = Some (py "Sheet 1").
Proof.
  assert (H1 : py "Sheet 1" <> []) by discriminate.
  assert (H2 : ~ In 39%N (py "Sheet 1")) by (vm_compute; intuition discriminate).
  assert (H3 : ~ In 10%N (py "Sheet 1")) by (vm_compute; intuition discriminate).
  split; [exact H1 | split; [exact H2 | split; [exact H3 |]]].
  exact (parse_sheet_location_quoted (U := ascii_unicode) (py "Sheet 1") (py "A1") H1 H2 H3).
Defined.

(** X9: an unquoted location [Name!A1] (column letters, then a digit), with
    [Name] non-empty, not starting with a quote and without [!] or line
    break, yields the sheet name [Name] stripped. *)
Theorem parse_sheet_location_unquoted `{U : PyUnicode} (sheet letters rest : pystr) (d : N) :
  sheet <> [] -> hd 0%N sheet <> 39%N -> ~ In 33%N sheet -> ~ In 10%N sheet ->
  letters <> [] -> Forall (fun c => Extractor.is_ascii_upper c = true) letters ->
  (48 <= d <= 57)%N -> is_decimal d = true ->
  Extractor.parse_sheet_location (sheet ++ 33%N :: letters ++ d :: rest) = Some (strip sheet).
Proof.
  intros Hne Hq H33 H10 Hl Hup Hd Hdec.
  assert (Ht : Extractor.cell_ref_tail (33%N :: letters ++ d :: rest) = true).
  { unfold Extractor.cell_ref_tail.
    destruct letters as [| a l]; [congruence |].
    assert (Ha : Extractor.drop_dollar (a :: l ++ d :: rest) = a :: l ++ d :: rest).
    { apply drop_dollar_other. intro E. subst a. apply Forall_inv in Hup. discriminate Hup. }
    change ((a :: l) ++ d :: rest) with (a :: l ++ d :: rest). rewrite Ha.
    change (a :: l ++ d :: rest) with ((a :: l) ++ d :: rest).
    rewrite (span_by_app _ _ _ Hup).
    assert (Hd' : Extractor.is_ascii_upper d = false).
    { unfold Extractor.is_ascii_upper. apply andb_false_iff. left. apply N.leb_gt. lia. }
    cbn [span_by fst snd]. rewrite Hd'. cbn [fst snd app].
    assert (Hdd : Extractor.drop_dollar (d :: rest) = d :: rest).
    { apply drop_dollar_other. lia. }
    rewrite Hdd. exact Hdec. }
  unfold Extractor.parse_sheet_location.
  destruct sheet as [| c s]; [congruence |]. cbn [hd] in Hq.
  replace (match (c :: s) ++ 33%N :: letters ++ d :: rest with
           | [] => None
           | 39%N :: r => match Extractor.match_quoted [] r with
                          | Some g => Some g
                          | None => option_map strip (Extractor.match_unquoted [] ((c :: s) ++ 33%N :: letters ++ d :: rest))
                          end
           | _ => option_map strip (Extractor.match_unquoted [] ((c :: s) ++ 33%N :: letters ++ d :: rest))
           end)
    with (option_map strip (Extractor.match_unquoted [] ((c :: s) ++ 33%N :: letters ++ d :: rest))).
  2:{ cbn [app]. destruct c as [| p]; [reflexivity |].
      repeat (destruct p as [p | p |]; try reflexivity; try (exfalso; apply Hq; reflexivity)). }
  rewrite (match_unquoted_run [] (c :: s) _ H33 H10 (or_intror Hne) Ht (ex_intro _ _ eq_refl)).
  reflexivity.
Qed.

Lemma parse_sheet_location_unquoted_witness :
  Extractor.parse_sheet_location (U := ascii_unicode) (py "Sheet1!B12") = Some (py "Sheet1").
Proof.
  exact (parse_sheet_location_unquoted (U := ascii_unicode) (py "Sheet1") (py "B") (py "2") 49%N
           ltac:(discriminate) ltac:(discriminate) ltac:(vm_compute; intuition discriminate)
           ltac:(vm_compute; intuition discriminate) ltac:(discriminate)
           ltac:(repeat constructor) ltac:(lia) eq_refl).
Defined.

Section Names2.
Context {U : PyUnicode}.

Lemma collapse_ws_idem (b : bool) (s : pystr) :
  collapse_ws b (collapse_ws b s) = collapse_ws b s.
Proof.
  revert b. induction s as [| c r IH]; intro b; [reflexivity |].
  cbn [collapse_ws]. destruct (is_space c) eqn:Ec.
  - destruct b; [apply IH |]. cbn [collapse_ws]. simpl is_space. rewrite IH. reflexivity.
  - cbn [collapse_ws]. rewrite Ec, IH. reflexivity.
Qed.

Lemma collapse_ws_snoc (b : bool) (x : pystr) (c : N) :
  is_space c = false -> collapse_ws b (x ++ [c]) = collapse_ws b x ++ [c].
Proof.
  intro Hc. revert b. induction x as [| a x IH]; intro b.
  - cbn [app collapse_ws]. rewrite Hc. reflexivity.
  - cbn [app collapse_ws]. destruct (is_space a); [destruct b |]; rewrite IH; reflexivity.
Qed.

Lemma rstrip_snoc (z : pystr) (c : N) : is_space c = false -> rstrip (z ++ [c]) = z ++ [c].
Proof.
  intro Hc. unfold rstrip. rewrite rev_app_distr. cbn [rev app lstrip]. rewrite Hc.
  cbn [rev]. rewrite rev_involutive. reflexivity.
Qed.

Lemma strip_ends (s : pystr) :
  strip s = [] \/
  ((exists c r, strip s = c :: r /\ is_space c = false) /\
   (exists z c, strip s = z ++ [c] /\ is_space c = false)).
Proof.
  unfold strip. destruct (lstrip_head s) as [H | (c & r & H & Hc)].
  - left. rewrite H. reflexivity.
  - right. rewrite H. split.
    + destruct (rstrip_cons c r Hc) as [y Hy]. exists c, y. split; [exact Hy | exact Hc].
    + unfold rstrip. destruct (lstrip_head (rev (c :: r))) as [H2 | (c' & r' & H2 & Hc')].
      * exfalso. cbn [rev] in H2. rewrite lstrip_app in H2.
        destruct (forallb is_space (rev r)); [cbn [lstrip] in H2; rewrite Hc in H2; discriminate |].
        apply (f_equal (@List.length N)) in H2. rewrite length_app in H2. cbn [List.length] in H2. lia.
      * rewrite H2. exists (rev r'), c'. split; [reflexivity | exact Hc'].
Qed.

(** The cleanup at the end of the name extraction: strip, collapse, default. *)
Lemma name_cleanup (x : pystr) :
  let n := match collapse_ws false (strip x) with
           | [] => py "Unknown"
           | _ => collapse_ws false (strip x)
           end in
  n <> [] /\ strip n = n /\ collapse_ws false n = n.
Proof.
  cbv zeta. destruct (collapse_ws false (strip x)) as [| a y] eqn:E.
  - split; [discriminate | split; vm_compute; reflexivity].
  - rewrite <- E. split; [rewrite E; discriminate |]. split; [| apply collapse_ws_idem].
    destruct (strip_ends x) as [H | [(c & r & Hh & Hc) (z & c' & Hl & Hc')]].
    + rewrite H in E. discriminate.
    + assert (Hr : rstrip (collapse_ws false (strip x)) = collapse_ws false (strip x)).
      { rewrite Hl, collapse_ws_snoc by exact Hc'. apply rstrip_snoc. exact Hc'. }
      assert (Hlft : lstrip (collapse_ws false (strip x)) = collapse_ws false (strip x)).
      { rewrite Hh. cbn [collapse_ws]. rewrite Hc. cbn [lstrip]. rewrite Hc. reflexivity. }
      set (w := collapse_ws false (strip x)) in *. unfold strip. rewrite Hlft. exact Hr.
Qed.

End Names2.

(** X10: the activity name taken from a file name (the same code in
    [parser.py] and [sheet_parser.py]) is never empty, has no leading or
    trailing whitespace, and has no whitespace other than single spaces:
    stripping it or collapsing its whitespace again changes nothing. *)
Theorem extract_activity_name_clean `{U : PyUnicode} (filename : pystr) :
  SheetParser.extract_activity_name filename = Parser.extract_activity_name_from_filename filename /\
  (let n := Parser.extract_activity_name_from_filename filename in
   n <> [] /\ strip n = n /\ collapse_ws false n = n).
Proof.
  split; [reflexivity |].
  exact (name_cleanup (sub_cong_nhan_prefix (sub_qd_prefix (sub_number_prefix filename)))).
Qed.

Section Detect.
Context {U : PyUnicode}.

Lemma ci_get_set (ci : Parser.column_indices) (r r' : role) (i : Z) :
  Parser.ci_get (Parser.ci_set ci r' i) r = if role_eq_dec r r' then i else Parser.ci_get ci r.
Proof. destruct r, r'; reflexivity. Qed.

Lemma detect_from_spec (cells : list pystr) :
  forall (idx : Z) (ci : Parser.column_indices) (r : role),
  (Parser.ci_get (Parser.detect_from idx ci cells) r = Parser.ci_get ci r /\
   Forall (fun c => Parser.header_role (strip (u_lower c)) <> Some r) cells) \/
  (exists pre c post, cells = pre ++ c :: post /\
     Parser.ci_get (Parser.detect_from idx ci cells) r = (idx + Z.of_nat (List.length pre))%Z /\
     Parser.header_role (strip (u_lower c)) = Some r /\ Forall (fun c' => Parser.header_role (strip (u_lower c')) <> Some r) post).
Proof.
  induction cells as [| cell rest IH]; intros idx ci r.
  - left. split; [reflexivity | constructor].
  - cbn [Parser.detect_from].
    set (ci' := match Parser.header_role (strip (u_lower cell)) with
                | Some r0 => Parser.ci_set ci r0 idx | None => ci end).
    destruct (IH (idx + 1)%Z ci' r) as [[Hg Hf] | (pre & c & post & Hc & Hg & Hr & Hf)].
    + rewrite Hg. unfold ci'.
      destruct (Parser.header_role (strip (u_lower cell))) as [r0 |] eqn:E.
      * rewrite ci_get_set. destruct (role_eq_dec r r0) as [-> | Hne].
        -- right. exists [], cell, rest. split; [reflexivity |].
           split; [cbn; lia |]. split; [exact E | exact Hf].
        -- left. split; [reflexivity |]. constructor; [| exact Hf].
           rewrite E. intro Hx. injection Hx. intro. apply Hne. symmetry. assumption.
      * left. split; [reflexivity |]. constructor; [| exact Hf].
        rewrite E. discriminate.
    + right. exists (cell :: pre), c, post. split; [rewrite Hc; reflexivity |].
      split; [rewrite Hg; cbn [List.length]; lia |]. split; assumption.
Qed.

End Detect.

(** X11: [detect_column_indices] gives each role the index of the LAST header
    cell whose lowercased, stripped text the [if]/[elif] chain classifies as
    that role, and -1 when no cell is classified as that role. *)
Theorem detect_column_indices_last `{U : PyUnicode} (cells : list pystr) (r : role) :
  (Parser.ci_get (Parser.detect_column_indices cells) r = (-1)%Z /\
   Forall (fun c => Parser.header_role (strip (u_lower c)) <> Some r) cells) \/
  (exists pre c post, cells = pre ++ c :: post /\
     Parser.ci_get (Parser.detect_column_indices cells) r = Z.of_nat (List.length pre) /\
     Parser.header_role (strip (u_lower c)) = Some r /\
     Forall (fun c' => Parser.header_role (strip (u_lower c')) <> Some r) post).
Proof.
  unfold Parser.detect_column_indices.
  destruct (detect_from_spec cells 0%Z (Parser.Build_column_indices (-1) (-1) (-1) (-1) (-1)) r) as [[Hg Hf] | (pre & c & post & Hc & Hg & Hr & Hf)].
  - left. split; [rewrite Hg; destruct r; reflexivity | exact Hf].
  - right. exists pre, c, post. repeat split; assumption.
Qed.

(** X12: two different roles never get the same column from
    [detect_column_indices], unless both are missing (-1). *)
Theorem detect_column_indices_distinct `{U : PyUnicode} (cells : list pystr) (r1 r2 : role) :
  r1 <> r2 ->
  Parser.ci_get (Parser.detect_column_indices cells) r1 = Parser.ci_get (Parser.detect_column_indices cells) r2 ->
  Parser.ci_get (Parser.detect_column_indices cells) r1 = (-1)%Z.
Proof.
  intros Hne Heq. unfold Parser.detect_column_indices in *.
  destruct (detect_from_spec cells 0%Z (Parser.Build_column_indices (-1) (-1) (-1) (-1) (-1)) r1) as [[Hg1 _] | (pre1 & c1 & post1 & Hc1 & Hg1 & Hr1 & Hf1)].
  - rewrite Hg1. destruct r1; reflexivity.
  - exfalso.
    destruct (detect_from_spec cells 0%Z (Parser.Build_column_indices (-1) (-1) (-1) (-1) (-1)) r2) as [[Hg2 _] | (pre2 & c2 & post2 & Hc2 & Hg2 & Hr2 & Hf2)].
    + rewrite Hg1, Hg2 in Heq. destruct r2; cbn in Heq; lia.
    + rewrite Hg1, Hg2 in Heq. assert (Hl : List.length pre1 = List.length pre2) by lia.
      assert (N1 : nth_error cells (List.length pre1) = Some c1)
        by (rewrite Hc1, nth_error_app2, Nat.sub_diag by lia; reflexivity).
      assert (N2 : nth_error cells (List.length pre2) = Some c2)
        by (rewrite Hc2, nth_error_app2, Nat.sub_diag by lia; reflexivity).
      rewrite Hl, N2 in N1. injection N1 as <-. congruence.
Qed.

Lemma detect_column_indices_distinct_witness :
  R_stt <> R_name /\
  Parser.ci_get (@Parser.detect_column_indices ascii_unicode [py "Lớp"]) R_stt =
    Parser.ci_get (@Parser.detect_column_indices ascii_unicode [py "Lớp"]) R_name /\
  Parser.ci_get (@Parser.detect_column_indices ascii_unicode [py "Lớp"]) R_stt = (-1)%Z.
Proof.
  assert (H1 : R_stt <> R_name) by discriminate.
  assert (H2 : Parser.ci_get (@Parser.detect_column_indices ascii_unicode [py "Lớp"]) R_stt =
    Parser.ci_get (@Parser.detect_column_indices ascii_unicode [py "Lớp"]) R_name) by (vm_compute; reflexivity).
  split; [exact H1 | split; [exact H2 |]].
  exact (detect_column_indices_distinct [py "Lớp"] R_stt R_name H1 H2).
Defined.

Section Best.
Context {U : PyUnicode}.

Lemma table_score_pos (t : Parser.table) (s : Z) :
  Parser.table_score t = Some s -> (0 < s)%Z.
Proof.
  unfold Parser.table_score. destruct (_ <? 2)%nat; [discriminate |].
  cbv zeta.
  destruct (contains (py "họ") _ || contains (py "tên") _); [| discriminate].
  intro H. destruct (_ && _); [| discriminate]. injection H as <-.
  repeat match goal with |- context [if ?b then _ else _] => destruct b end; lia.
Qed.

Lemma find_fold_spec (tables : list Parser.table) :
  forall (bt : option Parser.table) (bs : Z),
  let res := fold_left
         (fun (acc : option Parser.table * Z) t =>
            let '(best_table, best_score) := acc in
            match Parser.table_score t with
            | Some score => if (best_score <? score)%Z then (Some t, score) else acc
            | None => acc
            end) tables (bt, bs) in
  (res = (bt, bs) /\
   Forall (fun u => forall s', Parser.table_score u = Some s' -> (s' <= bs)%Z) tables) \/
  (exists pre t post s, tables = pre ++ t :: post /\ res = (Some t, s) /\ (bs < s)%Z /\
     Parser.table_score t = Some s /\
     Forall (fun u => forall s', Parser.table_score u = Some s' -> (s' < s)%Z) pre /\
     Forall (fun u => forall s', Parser.table_score u = Some s' -> (s' <= s)%Z) post).
Proof.
  induction tables as [| u rest IH]; intros bt bs res.
  - left. split; [reflexivity | constructor].
  - subst res. cbn [fold_left].
    destruct (Parser.table_score u) as [su |] eqn:Es.
    + destruct (bs <? su)%Z eqn:Elt.
      * apply Z.ltb_lt in Elt. right.
        destruct (IH (Some u) su) as [[Hr Hf] | (pre & t & post & s & Hc & Hr & Hlt & Ht & Hp & Hq)].
        -- exists [], u, rest, su. repeat split; try assumption. constructor.
        -- exists (u :: pre), t, post, s. repeat split; try assumption; try lia.
           ++ rewrite Hc. reflexivity.
           ++ constructor; [| exact Hp]. intros s' Hs'. rewrite Es in Hs'. injection Hs' as <-. exact Hlt.
      * apply Z.ltb_ge in Elt.
        destruct (IH bt bs) as [[Hr Hf] | (pre & t & post & s & Hc & Hr & Hlt & Ht & Hp & Hq)].
        -- left. split; [exact Hr |]. constructor; [| exact Hf].
           intros s' Hs'. rewrite Es in Hs'. injection Hs' as <-. exact Elt.
        -- right. exists (u :: pre), t, post, s. repeat split; try assumption.
           ++ rewrite Hc. reflexivity.
           ++ constructor; [| exact Hp]. intros s' Hs'. rewrite Es in Hs'. injection Hs' as <-. lia.
    + destruct (IH bt bs) as [[Hr Hf] | (pre & t & post & s & Hc & Hr & Hlt & Ht & Hp & Hq)].
      * left. split; [exact Hr |]. constructor; [| exact Hf]. intros s' Hs'. rewrite Es in Hs'. discriminate.
      * right. exists (u :: pre), t, post, s. repeat split; try assumption.
        -- rewrite Hc. reflexivity.
        -- constructor; [| exact Hp]. intros s' Hs'. rewrite Es in Hs'. discriminate.
Qed.

End Best.

(** X13: [find_student_table] finds no table exactly when no table passes its
    test (at least two rows, a name column and an MSSV or score column). *)
Theorem find_student_table_none `{U : PyUnicode} (tables : list Parser.table) :
  Parser.find_student_table tables = None <->
  Forall (fun t => Parser.table_score t = None) tables.
Proof.
  unfold Parser.find_student_table.
  destruct (find_fold_spec tables None 0%Z) as [[Hr Hf] | (pre & t & post & s & Hc & Hr & Hlt & Ht & Hp & Hq)];
    rewrite Hr; cbn [fst].
  - split; [intros _ | reflexivity].
    eapply Forall_impl; [| exact Hf]. intros u Hu.
    destruct (Parser.table_score u) as [su |] eqn:E; [| reflexivity].
    pose proof (Hu su E). pose proof (table_score_pos u su E). lia.
  - split; [discriminate |]. intro Hall.
    rewrite Hc in Hall. apply Forall_app in Hall. destruct Hall as [_ Hall].
    apply Forall_inv in Hall. congruence.
Qed.

(** X14: the table [find_student_table] returns is one of the document's
    tables that passes the test, with a score above the score of every
    passing table before it and at least the score of every passing table
    after it: the first table of the highest score. *)
Theorem find_student_table_best `{U : PyUnicode} (tables : list Parser.table) (t : Parser.table) :
  Parser.find_student_table tables = Some t ->
  exists pre post s, tables = pre ++ t :: post /\ Parser.table_score t = Some s /\
    Forall (fun u => forall s', Parser.table_score u = Some s' -> (s' < s)%Z) pre /\
    Forall (fun u => forall s', Parser.table_score u = Some s' -> (s' <= s)%Z) post.
Proof.
  unfold Parser.find_student_table.
  destruct (find_fold_spec tables None 0%Z) as [[Hr Hf] | (pre & t' & post & s & Hc & Hr & Hlt & Ht & Hp & Hq)];
    rewrite Hr; cbn [fst]; [discriminate |].
  intro E. injection E as <-. exists pre, post, s. repeat split; assumption.
Qed.

Lemma find_student_table_best_witness :
  @Parser.find_student_table ascii_unicode
    [[[py "x"]; [py "y"]]; [[py "Họ tên"; py "Lớp"]; [py "A"; py "B"]];
     [[py "Họ tên"; py "MSSV"]; [py "A"; py "1"]]] =
    Some [[py "Họ tên"; py "MSSV"]; [py "A"; py "1"]] /\
  exists pre post s,
    [[[py "x"]; [py "y"]]; [[py "Họ tên"; py "Lớp"]; [py "A"; py "B"]];
     [[py "Họ tên"; py "MSSV"]; [py "A"; py "1"]]] =
      pre ++ [[py "Họ tên"; py "MSSV"]; [py "A"; py "1"]] :: post /\
    @Parser.table_score ascii_unicode [[py "Họ tên"; py "MSSV"]; [py "A"; py "1"]] = Some s /\
    Forall (fun u => forall s', @Parser.table_score ascii_unicode u = Some s' -> (s' < s)%Z) pre /\
    Forall (fun u => forall s', @Parser.table_score ascii_unicode u = Some s' -> (s' <= s)%Z) post.
Proof.
  assert (H : @Parser.find_student_table ascii_unicode
    [[[py "x"]; [py "y"]]; [[py "Họ tên"; py "Lớp"]; [py "A"; py "B"]];
     [[py "Họ tên"; py "MSSV"]; [py "A"; py "1"]]] =
    Some [[py "Họ tên"; py "MSSV"]; [py "A"; py "1"]]) by (vm_compute; reflexivity).
  split; [exact H |]. exact (find_student_table_best _ _ H).
Defined.

Section Docx.
Context {U : PyUnicode}.

Lemma detect_column_indices_bound (h : list pystr) (r : role) :
  Parser.ci_get (Parser.detect_column_indices h) r = (-1)%Z \/
  ((0 <= Parser.ci_get (Parser.detect_column_indices h) r)%Z /\
   (Z.to_nat (Parser.ci_get (Parser.detect_column_indices h) r) < List.length h)%nat).
Proof.
  unfold Parser.detect_column_indices.
  destruct (detect_from_spec h 0%Z (Parser.Build_column_indices (-1) (-1) (-1) (-1) (-1)) r)
    as [[Hg _] | (pre & c & post & Hc & Hg & _ & _)]; rewrite Hg.
  - left. destruct r; reflexivity.
  - right. rewrite Hc, length_app. cbn [List.length]. split; [lia |].
    rewrite Z.add_0_l, Nat2Z.id. lia.
Qed.

Lemma opt_cell_ok (cells h : list pystr) (i : Z) (d : pystr) :
  (List.length h <= List.length cells)%nat ->
  (i = (-1)%Z \/ ((0 <= i)%Z /\ (Z.to_nat i < List.length h)%nat)) ->
  exists v, Parser.opt_cell cells i d = inr v.
Proof.
  intros Hlen [-> | [H0 Hi]].
  - exists d. reflexivity.
  - unfold Parser.opt_cell, Parser.cell_at. apply Z.leb_le in H0. rewrite H0.
    destruct (nth_error cells (Z.to_nat i)) as [v |] eqn:E.
    + exists v. reflexivity.
    + apply nth_error_None in E. lia.
Qed.

Lemma parse_student_table_ok (an al : pystr) (h : list pystr) (rows : list (list pystr)) :
  Forall (fun row => (List.length h <= List.length row)%nat) rows ->
  exists l, Parser.parse_student_table an al (Parser.detect_column_indices h) rows = inr l /\
    Forall (fun st => activity_name st = an /\ activity_link st = al) l.
Proof.
  induction rows as [| cells rest IH]; intro Hf.
  - exists []. split; [reflexivity | constructor].
  - pose proof (Forall_inv Hf) as Hc. pose proof (Forall_inv_tail Hf) as Hr.
    destruct (IH Hr) as (l & Hl & Hlf).
    cbn [Parser.parse_student_table].
    destruct (opt_cell_ok cells h _ [] Hc (detect_column_indices_bound h R_stt)) as [v1 E1].
    destruct (opt_cell_ok cells h _ [] Hc (detect_column_indices_bound h R_name)) as [v2 E2].
    destruct (opt_cell_ok cells h _ [] Hc (detect_column_indices_bound h R_student_id)) as [v3 E3].
    destruct (opt_cell_ok cells h _ [] Hc (detect_column_indices_bound h R_student_class)) as [v4 E4].
    destruct (opt_cell_ok cells h _ (py "0") Hc (detect_column_indices_bound h R_score)) as [v5 E5].
    cbn [Parser.ci_get] in E1, E2, E3, E4, E5.
    rewrite E1; cbn [Parser.bind_exc]. rewrite E2; cbn [Parser.bind_exc].
    rewrite E3; cbn [Parser.bind_exc]. rewrite E4; cbn [Parser.bind_exc].
    rewrite E5; cbn [Parser.bind_exc]. rewrite Hl; cbn [Parser.bind_exc].
    destruct (Parser.normalize_row an al (strip v1) (strip v2) v3 v4 v5) as [st |] eqn:En.
    + exists (st :: l). split; [reflexivity |]. constructor; [| exact Hlf].
      unfold Parser.normalize_row in En.
      destruct (Parser.smart_swap_id_class v3 v4) as [sid scls].
      destruct (Parser.clean_student_id sid), (strip v2);
        try discriminate; injection En as <-; split; reflexivity.
    + exists l. split; [reflexivity | exact Hlf].
Qed.

End Docx.

(** X15: when every row of every table of the document has at least as many
    cells as the table's first row, [parse_docx_file] raises no
    [IndexError]: it returns the activity name taken from the file name,
    and every student it returns carries that activity name and the given
    activity link. *)
Theorem parse_docx_file_ok `{U : PyUnicode} (filename link : pystr)
    (tables : list Parser.table) :
  Forall (fun t => Forall (fun row => (List.length (hd [] t) <= List.length row)%nat) t) tables ->
  exists students,
    Parser.parse_docx_file filename link tables =
      inr (Parser.extract_activity_name_from_filename filename, students) /\
    Forall (fun st => activity_name st = Parser.extract_activity_name_from_filename filename /\
                      activity_link st = link) students.
Proof.
  intro Hall. unfold Parser.parse_docx_file.
  destruct (Parser.find_student_table tables) as [t |] eqn:Ef.
  - assert (Hin : In t tables).
    { unfold Parser.find_student_table in Ef.
      destruct (find_fold_spec tables None 0%Z)
        as [[Hr _] | (pre & t' & post & s & Hc & Hr & _ & _ & _ & _)];
        rewrite Hr in Ef; cbn [fst] in Ef; [discriminate |].
      injection Ef as <-. rewrite Hc. apply in_or_app. right. left. reflexivity. }
    rewrite Forall_forall in Hall. pose proof (Hall t Hin) as Ht.
    assert (Htl : Forall (fun row => (List.length (hd [] t) <= List.length row)%nat) (tl t)).
    { destruct t as [| h rows]; [constructor | exact (Forall_inv_tail Ht)]. }
    destruct (parse_student_table_ok (Parser.extract_activity_name_from_filename filename)
                link (hd [] t) (tl t) Htl) as (l & Hl & Hlf).
    rewrite Hl. exists l. split; [reflexivity | exact Hlf].
  - exists []. split; [reflexivity | constructor].
Qed.

Lemma parse_docx_file_ok_witness :
  Forall (fun t => Forall (fun row => (List.length (hd [] t) <= List.length row)%nat) t)
    [[[py "STT"; py "Họ tên"; py "MSSV"]; [py "1"; py "An"; py "2254810315"]]] /\
  exists students,
    @Parser.parse_docx_file ascii_unicode (py "01_Hiến máu") (py "https://x")
      [[[py "STT"; py "Họ tên"; py "MSSV"]; [py "1"; py "An"; py "2254810315"]]] =
      inr (@Parser.extract_activity_name_from_filename ascii_unicode (py "01_Hiến máu"), students) /\
    Forall (fun st => activity_name st = @Parser.extract_activity_name_from_filename ascii_unicode (py "01_Hiến máu") /\
                      activity_link st = py "https://x") students.
Proof.
  assert (H : Forall (fun t => Forall (fun row => (List.length (hd [] t) <= List.length row)%nat) t)
    [[[py "STT"; py "Họ tên"; py "MSSV"]; [py "1"; py "An"; py "2254810315"]]])
    by (repeat constructor).
  split; [exact H |]. exact (parse_docx_file_ok (py "01_Hiến máu") (py "https://x") _ H).
Defined.

Section Scores.
Context {U : PyUnicode}.

Lemma digits_value_fold_nonneg (s : pystr) (acc : Z) :
  (0 <= acc)%Z ->
  (0 <= fold_left (fun acc c => acc * 10 + Z.of_N (match u_decimal c with Some d => d | None => 0 end)%N)%Z s acc)%Z.
Proof.
  revert acc. induction s as [| c r IH]; intros acc H; [exact H |].
  cbn [fold_left]. apply IH. lia.
Qed.

Lemma digits_value_nonneg (s : pystr) : (0 <= digits_value s)%Z.
Proof. unfold digits_value. apply digits_value_fold_nonneg. lia. Qed.

Lemma float_of_match_nonneg (t : pystr) : 0 <= float_of_match t.
Proof.
  unfold float_of_match. destruct (span_dec t) as [d1 rest].
  unfold Qle. cbn [Qnum Qden]. pose proof (digits_value_nonneg
    (d1 ++ match rest with _ :: r => r | [] => [] end)). lia.
Qed.

End Scores.

(** X16: the score [parser.parse_score] reads from a Word table cell is never
    negative: a minus sign in the text is not read. *)
Theorem parser_parse_score_nonneg `{U : PyUnicode} (score_text : pystr) :
  0 <= Parser.parse_score score_text.
Proof.
  unfold Parser.parse_score. destruct score_text as [| c r]; [apply Qle_refl |].
  destruct (search_number _) as [m |]; [apply float_of_match_nonneg | apply Qle_refl].
Qed.

(** X17: the ordinal [parser.parse_stt] reads from a Word table cell is never
    negative. *)
Theorem parser_parse_stt_nonneg `{U : PyUnicode} (stt_text : pystr) :
  (0 <= Parser.parse_stt stt_text)%Z.
Proof.
  unfold Parser.parse_stt. destruct stt_text as [| c r]; [lia |].
  destruct (search_int _) as [m |]; [apply digits_value_nonneg | lia].
Qed.

(** X18: the score [sheet_parser.parse_score] reads from a worksheet cell is
    always in [0, 1000): never negative, and values of 1000 or more become 0. *)
Theorem sheet_parse_score_range `{U : PyUnicode} (score_val : cellval) :
  0 <= SheetParser.parse_score score_val /\ SheetParser.parse_score score_val < 1000.
Proof.
  unfold SheetParser.parse_score.
  destruct (isna score_val); [split; [apply Qle_refl | reflexivity] |].
  assert (Hz : 0 <= 0 /\ 0 < 1000) by (split; [apply Qle_refl | reflexivity]).
  destruct score_val; try exact Hz;
  (destruct (search_number _) as [m |]; [| exact Hz];
   destruct (Qle_bool 1000 (float_of_match m)) eqn:E; cbn [negb]; [exact Hz |];
   split; [apply float_of_match_nonneg |];
   apply Qnot_le_lt; intro Hle; apply Qle_bool_iff in Hle; congruence).
Qed.

Section Cols.
Context {U : PyUnicode}.

Lemma col_get_set (cols : SheetParser.columns) (r r' : role) (c : cellval) :
  SheetParser.col_get (SheetParser.col_set cols r' c) r =
    if role_eq_dec r r' then Some c else SheetParser.col_get cols r.
Proof. destruct r, r'; reflexivity. Qed.

Lemma detect_columns_fold_spec (df : list cellval) :
  forall (cols : SheetParser.columns) (r : role),
  let res := fold_left (fun cols col =>
               match SheetParser.column_role (strip (u_lower (py_str col))) with
               | Some r => SheetParser.col_set cols r col
               | None => cols
               end) df cols in
  (SheetParser.col_get res r = SheetParser.col_get cols r /\
   Forall (fun c => SheetParser.column_role (strip (u_lower (py_str c))) <> Some r) df) \/
  (exists pre c post, df = pre ++ c :: post /\ SheetParser.col_get res r = Some c /\
     SheetParser.column_role (strip (u_lower (py_str c))) = Some r /\
     Forall (fun c' => SheetParser.column_role (strip (u_lower (py_str c'))) <> Some r) post).
Proof.
  induction df as [| col rest IH]; intros cols r res.
  - left. split; [reflexivity | constructor].
  - subst res. cbn [fold_left].
    set (cols' := match SheetParser.column_role (strip (u_lower (py_str col))) with
                  | Some r0 => SheetParser.col_set cols r0 col | None => cols end).
    destruct (IH cols' r) as [[Hg Hf] | (pre & c & post & Hc & Hg & Hr & Hf)].
    + rewrite Hg. unfold cols'.
      destruct (SheetParser.column_role (strip (u_lower (py_str col)))) as [r0 |] eqn:E.
      * rewrite col_get_set. destruct (role_eq_dec r r0) as [-> | Hne].
        -- right. exists [], col, rest. repeat split; assumption.
        -- left. split; [reflexivity |]. constructor; [| exact Hf].
           rewrite E. intro Hx. injection Hx. intro. apply Hne. symmetry. assumption.
      * left. split; [reflexivity |]. constructor; [| exact Hf]. rewrite E. discriminate.
    + right. exists (col :: pre), c, post. split; [rewrite Hc; reflexivity |].
      repeat split; assumption.
Qed.

End Cols.

(** X19: [detect_columns] maps each role to the LAST column label whose
    lowercased, stripped text the [if]/[elif] chain classifies as that
    role, and leaves the role out when no label is classified as it. *)
Theorem detect_columns_last `{U : PyUnicode} (df_columns : list cellval) (r : role) :
  (SheetParser.col_get (SheetParser.detect_columns df_columns) r = None /\
   Forall (fun c => SheetParser.column_role (strip (u_lower (py_str c))) <> Some r) df_columns) \/
  (exists pre c post, df_columns = pre ++ c :: post /\
     SheetParser.col_get (SheetParser.detect_columns df_columns) r = Some c /\
     SheetParser.column_role (strip (u_lower (py_str c))) = Some r /\
     Forall (fun c' => SheetParser.column_role (strip (u_lower (py_str c'))) <> Some r) post).
Proof.
  unfold SheetParser.detect_columns. cbv zeta.
  destruct (detect_columns_fold_spec df_columns
              {| SheetParser.col_stt := None; SheetParser.col_name := None;
                 SheetParser.col_student_id := None; SheetParser.col_student_class := None;
                 SheetParser.col_score := None |} r)
    as [[Hg Hf] | H]; [left; split; [rewrite Hg; destruct r; reflexivity | exact Hf] | right; exact H].
Qed.

Section AggKeys.

Lemma pystr_ltb_irrefl (a : pystr) : Aggregator.pystr_ltb a a = false.
Proof.
  induction a as [| x a IH]; [reflexivity |]. cbn [Aggregator.pystr_ltb].
  rewrite N.ltb_irrefl, N.eqb_refl, IH. reflexivity.
Qed.

Lemma pystr_ltb_trans (a b c : pystr) :
  Aggregator.pystr_ltb a b = true -> Aggregator.pystr_ltb b c = true ->
  Aggregator.pystr_ltb a c = true.
Proof.
  revert b c. induction a as [| x a IH]; intros [| y b] [| z c]; cbn [Aggregator.pystr_ltb];
    try discriminate; try reflexivity.
  rewrite !orb_true_iff, !andb_true_iff, !N.ltb_lt, !N.eqb_eq.
  intros [H1 | [H1 H1']] [H2 | [H2 H2']]; subst.
  - left. lia.
  - left. exact H1.
  - left. exact H2.
  - right. split; [reflexivity | exact (IH _ _ H1' H2')].
Qed.

Lemma pystr_ltb_total (a b : pystr) :
  a <> b -> Aggregator.pystr_ltb a b = true \/ Aggregator.pystr_ltb b a = true.
Proof.
  revert b. induction a as [| x a IH]; intros [| y b] Hne; cbn [Aggregator.pystr_ltb].
  - congruence.
  - left. reflexivity.
  - right. reflexivity.
  - rewrite !orb_true_iff, !andb_true_iff, !N.ltb_lt, !N.eqb_eq.
    destruct (N.lt_trichotomy x y) as [H | [-> | H]].
    + left. left. exact H.
    + assert (a <> b) by congruence.
      destruct (IH b H) as [H' | H']; [left | right]; right; split; auto.
    + right. left. exact H.
Qed.

Lemma insert_key_In (k x : pystr) (ks : list pystr) :
  In x (Aggregator.insert_key k ks) <-> x = k \/ In x ks.
Proof.
  induction ks as [| k' r IH]; cbn [Aggregator.insert_key].
  - cbn. intuition.
  - destruct (pystr_eqb k k') eqn:E.
    + apply pystr_eqb_eq in E. subst. cbn. intuition.
    + destruct (Aggregator.pystr_ltb k k'); cbn; rewrite ?IH; intuition.
Qed.

Lemma insert_key_sorted (k : pystr) (ks : list pystr) :
  StronglySorted (fun a b => Aggregator.pystr_ltb a b = true) ks ->
  StronglySorted (fun a b => Aggregator.pystr_ltb a b = true) (Aggregator.insert_key k ks).
Proof.
  induction ks as [| k' r IH]; intro Hs; cbn [Aggregator.insert_key].
  - constructor; constructor.
  - pose proof (StronglySorted_inv Hs) as [Hr Hf].
    destruct (pystr_eqb k k') eqn:E; [exact Hs |].
    destruct (Aggregator.pystr_ltb k k') eqn:El.
    + constructor; [exact Hs |]. constructor; [exact El |].
      eapply Forall_impl; [| exact Hf]. intros b Hb. exact (pystr_ltb_trans _ _ _ El Hb).
    + assert (Hne : k <> k') by (intro Heq; subst; rewrite pystr_eqb_refl in E; discriminate).
      destruct (pystr_ltb_total k k' Hne) as [H | H]; [congruence |].
      constructor; [exact (IH Hr) |].
      apply Forall_forall. intros x Hx. apply insert_key_In in Hx.
      destruct Hx as [-> | Hx]; [exact H |]. rewrite Forall_forall in Hf. exact (Hf x Hx).
Qed.

Lemma group_keys_fold (df : list student) (acc : list pystr) :
  StronglySorted (fun a b => Aggregator.pystr_ltb a b = true) acc ->
  let res := fold_left (fun ks r => Aggregator.insert_key (student_id r) ks) df acc in
  StronglySorted (fun a b => Aggregator.pystr_ltb a b = true) res /\
  (forall x, In x res <-> In x acc \/ exists r, In r df /\ student_id r = x).
Proof.
  revert acc. induction df as [| r df IH]; intros acc Hs res.
  - split; [exact Hs |]. intro x. cbn. split; [auto | intros [H | [_ [[] _]]]; exact H].
  - subst res. cbn [fold_left].
    destruct (IH _ (insert_key_sorted (student_id r) acc Hs)) as [H1 H2].
    split; [exact H1 |]. intro x. rewrite H2, insert_key_In. cbn [In].
    split.
    + intros [[-> | H] | (r' & Hr' & E)]; [right; exists r; auto | left; exact H | right; eauto].
    + intros [H | (r' & [<- | Hr'] & E)]; [left; right; exact H | left; left; auto | right; eauto].
Qed.

Lemma StronglySorted_irrefl_NoDup (l : list pystr) :
  StronglySorted (fun a b => Aggregator.pystr_ltb a b = true) l -> NoDup l.
Proof.
  induction l as [| a l IH]; intro Hs; [constructor |].
  pose proof (StronglySorted_inv Hs) as [Hl Hf]. constructor; [| exact (IH Hl)].
  intro Hin. rewrite Forall_forall in Hf. pose proof (Hf a Hin) as H.
  rewrite pystr_ltb_irrefl in H. discriminate.
Qed.

Lemma aggregate_keys_eq (df : list student) :
  map fst (Aggregator.aggregate_by_student df) = Aggregator.group_keys df.
Proof. unfold Aggregator.aggregate_by_student. rewrite map_map. cbn [fst]. apply map_id. Qed.

Lemma list_sum_cons' (a : nat) (l : list nat) : list_sum (a :: l) = (a + list_sum l)%nat.
Proof. reflexivity. Qed.

Lemma sum_indicator_absent (x : pystr) (ks : list pystr) :
  ~ In x ks -> list_sum (map (fun k => if pystr_eqb x k then 1%nat else 0%nat) ks) = 0%nat.
Proof.
  induction ks as [| k ks IH]; intro H; [reflexivity |]. cbn [map]. rewrite list_sum_cons'.
  rewrite pystr_eqb_neq by (intro E; apply H; left; symmetry; exact E).
  rewrite IH by (intro E; apply H; right; exact E). reflexivity.
Qed.

Lemma sum_indicator_present (x : pystr) (ks : list pystr) :
  NoDup ks -> In x ks -> list_sum (map (fun k => if pystr_eqb x k then 1%nat else 0%nat) ks) = 1%nat.
Proof.
  induction ks as [| k ks IH]; intros Hnd Hin; [destruct Hin |].
  inversion Hnd as [| ? ? Hk Hnd']. subst. cbn [map]. rewrite list_sum_cons'.
  destruct (pystr_eqb x k) eqn:E.
  - apply pystr_eqb_eq in E. subst. rewrite sum_indicator_absent by exact Hk. reflexivity.
  - destruct Hin as [Hin | Hin]; [subst; rewrite pystr_eqb_refl in E; discriminate |].
    rewrite IH by assumption. reflexivity.
Qed.

Lemma list_sum_map_add {A} (f g : A -> nat) (l : list A) :
  list_sum (map (fun x => f x + g x)%nat l) = (list_sum (map f l) + list_sum (map g l))%nat.
Proof.
  induction l as [| x l IH]; [reflexivity |]. cbn [map]. rewrite !list_sum_cons', IH. lia.
Qed.

Lemma group_counts (df : list student) (ks : list pystr) :
  NoDup ks -> (forall r, In r df -> In (student_id r) ks) ->
  list_sum (map (fun k => List.length (filter (fun r => pystr_eqb (student_id r) k) df)) ks) =
  List.length df.
Proof.
  intro Hnd. induction df as [| r df IH]; intro Hcov.
  - apply list_sum_map_zero. intros. reflexivity.
  - rewrite (map_ext _ (fun k => (if pystr_eqb (student_id r) k then 1%nat else 0%nat) +
        List.length (filter (fun r => pystr_eqb (student_id r) k) df))%nat)
      by (intro k; cbn [filter]; destruct (pystr_eqb (student_id r) k); reflexivity).
    rewrite list_sum_map_add.
    rewrite sum_indicator_present by (try assumption; apply Hcov; left; reflexivity).
    rewrite IH by (intros r' Hr'; apply Hcov; right; exact Hr'). reflexivity.
Qed.

Lemma fold_right_Zadd_of_nat {A} (f : A -> nat) (l : list A) :
  fold_right Z.add 0%Z (map (fun x => Z.of_nat (f x)) l) = Z.of_nat (list_sum (map f l)).
Proof.
  induction l as [| x l IH]; [reflexivity |]. cbn [map fold_right]. rewrite list_sum_cons'.
  rewrite IH. lia.
Qed.

End AggKeys.

(** X20: the keys of the store [aggregate_by_student] builds are strictly
    increasing in Python's string order (so pairwise distinct), and they
    are exactly the [student_id] values of the input rows. *)
Theorem aggregate_keys_sorted (df : list student) :
  StronglySorted (fun a b => Aggregator.pystr_ltb a b = true)
    (map fst (Aggregator.aggregate_by_student df)) /\
  NoDup (map fst (Aggregator.aggregate_by_student df)) /\
  (forall k, In k (map fst (Aggregator.aggregate_by_student df)) <->
             exists r, In r df /\ student_id r = k).
Proof.
  rewrite aggregate_keys_eq. unfold Aggregator.group_keys.
  destruct (group_keys_fold df [] (SSorted_nil _)) as [H1 H2].
  split; [exact H1 |]. split; [exact (StronglySorted_irrefl_NoDup _ H1) |].
  intro k. rewrite H2. cbn [In]. intuition.
Qed.

(** X21: [aggregate_by_student] loses and duplicates no row: the
    [activity_count] values of all profiles add up to the number of input
    rows. *)
Theorem aggregate_counts_total (df : list student) :
  fold_right Z.add 0%Z
    (map (fun kv => stats_activity_count (snd kv)) (Aggregator.aggregate_by_student df)) =
  Z.of_nat (List.length df).
Proof.
  unfold Aggregator.aggregate_by_student. rewrite map_map. cbn [snd stats_activity_count].
  rewrite fold_right_Zadd_of_nat. f_equal.
  destruct (group_keys_fold df [] (SSorted_nil _)) as [H1 H2].
  apply group_counts.
  - exact (StronglySorted_irrefl_NoDup _ H1).
  - intros r Hr. apply H2. right. exists r. auto.
Qed.

(** X22: every profile [aggregate_by_student] builds has at least one
    activity: its [activity_count] is at least 1 and its history is not
    empty. *)
Theorem aggregate_profile_nonempty (df : list student) (k : pystr) (p : profile) :
  In (k, p) (Aggregator.aggregate_by_student df) ->
  (1 <= stats_activity_count p)%Z /\ history p <> [].
Proof.
  intro Hin. pose proof (in_map fst _ _ Hin) as Hk. cbn [fst] in Hk.
  rewrite aggregate_keys_eq in Hk. unfold Aggregator.group_keys in Hk.
  destruct (group_keys_fold df [] (SSorted_nil _)) as [_ H2].
  apply H2 in Hk. destruct Hk as [[] | (r & Hr & Er)].
  unfold Aggregator.aggregate_by_student in Hin. apply in_map_iff in Hin.
  destruct Hin as (k' & E & _). injection E as -> <-.
  cbn [stats_activity_count history].
  assert (Hf : In r (filter (fun r0 => pystr_eqb (student_id r0) k) df))
    by (apply filter_In; split; [exact Hr | apply pystr_eqb_eq; exact Er]).
  destruct (filter (fun r0 => pystr_eqb (student_id r0) k) df) as [| r0 g]; [destruct Hf |].
  cbn [List.length map]. split; [lia | discriminate].
Qed.

Lemma aggregate_profile_nonempty_witness :
  let df := [Samples.row (py "2254810315") (1 # 4) (py "https://docs.google.com/document/d/1")] in
  let kv := hd (py "", {| info_name := []; info_student_class := []; stats_total_score := 0;
                          stats_activity_count := 0; history := [] |})
               (Aggregator.aggregate_by_student df) in
  In (fst kv, snd kv) (Aggregator.aggregate_by_student df) /\
  (1 <= stats_activity_count (snd kv))%Z /\ history (snd kv) <> [].
Proof.
  intros df kv.
  assert (H : In (fst kv, snd kv) (Aggregator.aggregate_by_student df))
    by (vm_compute; left; reflexivity).
  split; [exact H | exact (aggregate_profile_nonempty df (fst kv) (snd kv) H)].
Defined.

Section MergeKeys.

Lemma update_keys (k : pystr) (v : profile) (m : store) :
  map fst (update k v m) = map fst m.
Proof.
  induction m as [| [k1 v1] m IH]; [reflexivity |]. cbn [update].
  destruct (pystr_eqb k k1); cbn [map fst]; [reflexivity | rewrite IH; reflexivity].
Qed.

Lemma merge_keys_fold (l m : store) (a u : nat) :
  NoDup (map fst l) ->
  let res := fold_left Merge.merge_step l (m, a, u) in
  map fst (fst (fst res)) =
    map fst m ++ map fst (filter (fun kv => match lookup (fst kv) m with
                                            | None => true | Some _ => false end) l) /\
  snd (fst res) =
    (a + List.length (filter (fun kv => match lookup (fst kv) m with
                                        | None => true | Some _ => false end) l))%nat.
Proof.
  revert m a u. induction l as [| [k p] l IH]; intros m a u Hnd; cbv zeta.
  - cbn. rewrite app_nil_r. split; [reflexivity | lia].
  - inversion Hnd as [| ? ? Hk Hnd']; subst. cbn [map fst] in Hk.
    assert (Hoth : forall kv, In kv l ->
              lookup (fst kv) (fst (fst (Merge.merge_step (m, a, u) (k, p)))) = lookup (fst kv) m).
    { intros [k1 p1] Hin. apply merge_step_other. cbn [fst]. intro E; subst k1.
      apply Hk. apply (in_map fst) in Hin. exact Hin. }
    cbn [fold_left filter fst].
    destruct (lookup k m) as [e |] eqn:Ek.
    + set (m1 := update k (Merge.merge_profile e p) m).
      assert (Es : Merge.merge_step (m, a, u) (k, p) =
                   (m1, a, (u + List.length (Merge.new_activities (history e) (history p)))%nat))
        by (unfold Merge.merge_step; rewrite Ek; reflexivity).
      rewrite Es in Hoth |- *. cbn [fst] in Hoth.
      destruct (IH m1 a (u + List.length (Merge.new_activities (history e) (history p)))%nat Hnd')
        as [IH1 IH2].
      rewrite (filter_ext_in _ (fun kv => match lookup (fst kv) m with
                                          | None => true | Some _ => false end) l) in IH1, IH2
        by (intros kv Hin; rewrite Hoth by exact Hin; reflexivity).
      split; [rewrite IH1; unfold m1; rewrite update_keys; reflexivity | exact IH2].
    + set (m1 := m ++ [(k, p)]).
      assert (Es : Merge.merge_step (m, a, u) (k, p) = (m1, S a, u))
        by (unfold Merge.merge_step; rewrite Ek; reflexivity).
      rewrite Es in Hoth |- *. cbn [fst] in Hoth.
      destruct (IH m1 (S a) u Hnd') as [IH1 IH2].
      rewrite (filter_ext_in _ (fun kv => match lookup (fst kv) m with
                                          | None => true | Some _ => false end) l) in IH1, IH2
        by (intros kv Hin; rewrite Hoth by exact Hin; reflexivity).
      split.
      * etransitivity; [exact IH1 |]. unfold m1. rewrite map_app, <- app_assoc. reflexivity.
      * etransitivity; [exact IH2 |]. cbn [List.length]. lia.
Qed.

End MergeKeys.

(** X23: [merge_student_data] keeps the old store's keys in place and in
    order, and appends the keys of the new store that the old one lacks,
    in the new store's order; so the merged store has
    [len(old_data) + new_count] entries. *)
Theorem merge_keys_order (old_data new_data : store) :
  NoDup (map fst new_data) ->
  let '(merged, new_count, _) := Merge.merge_student_data old_data new_data in
  map fst merged =
    map fst old_data ++
    map fst (filter (fun kv => match lookup (fst kv) old_data with
                               | None => true | Some _ => false end) new_data) /\
  List.length merged = (List.length old_data + new_count)%nat.
Proof.
  intro Hnd. pose proof (merge_keys_fold new_data old_data O O Hnd) as H. cbv zeta in H.
  unfold Merge.merge_student_data.
  destruct (fold_left Merge.merge_step new_data (old_data, O, O)) as [[merged a] u].
  cbn [fst snd] in H. destruct H as [H1 H2]. split; [exact H1 |].
  rewrite <- (length_map fst merged), H1, length_app, !length_map, H2. lia.
Qed.

Lemma merge_keys_order_witness :
  NoDup (map fst Samples.new_snapshot) /\
  (let '(merged, new_count, _) := Merge.merge_student_data Samples.old_snapshot Samples.new_snapshot in
   map fst merged =
     map fst Samples.old_snapshot ++
     map fst (filter (fun kv => match lookup (fst kv) Samples.old_snapshot with
                                | None => true | Some _ => false end) Samples.new_snapshot) /\
   List.length merged = (List.length Samples.old_snapshot + new_count)%nat).
Proof.
  assert (Hnd : NoDup (map fst Samples.new_snapshot)).
  { vm_compute. constructor; [intros [H | []]; discriminate H |].
    constructor; [intros [] | constructor]. }
  split; [exact Hnd | exact (merge_keys_order Samples.old_snapshot Samples.new_snapshot Hnd)].
Defined.

Lemma In_firstn_in {A} (n : nat) (l : list A) (x : A) : In x (firstn n l) -> In x l.
Proof. intro H. rewrite <- (firstn_skipn n l). apply in_or_app. left. exact H. Qed.

(** X24: [search_student] returns only entries of the store it searches:
    every (MSSV, profile) pair in its result is a pair of the data. *)
Theorem search_student_incl `{U : PyUnicode} (data : store) (query : pystr) :
  incl (Searcher.search_student data query) data.
Proof.
  unfold Searcher.search_student. destruct (strip query) as [| c r]; [intros x [] |].
  destruct (Searcher.has_digit (c :: r)).
  - unfold Searcher.search_by_mssv.
    destruct (lookup (u_upper (strip (c :: r))) data) as [v |] eqn:E.
    + intros x [<- | []]. exact (lookup_In _ _ _ E).
    + intros x Hx. apply In_firstn_in in Hx. apply filter_In in Hx. exact (proj1 Hx).
  - unfold Searcher.search_by_name.
    intros x Hx. apply In_firstn_in in Hx. apply filter_In in Hx. exact (proj1 Hx).
Qed.

